(** * CityBuf: the CityJSON-sequence to CityBuffer converter (cjseq2cb.py)

    A shallow embedding of [cjseq2cb.py] and the properties its
    specification states about it.

    Conventions of the embedding.
    - Python values that come out of [json.loads] are terms of [json];
      dictionaries keep their insertion order (an association list).  A
      character of a string is a code point below 256; text with other
      characters is outside the embedding.
    - A Python exception is a constructor of [exn]; a computation that may
      raise has type [result A].
    - The table builder (flatbuffers) is an external collaborator.  A table is
      a record of the fields that were added to it, an optional field is an
      [option], and an offset returned by the builder is identified with the
      object it points to.  The byte layout of a finished buffer is a
      parameter ([Output_header], [Output_feature]) of the root table: what
      a builder holds without a reference from the root table is not part of
      the model.  The builder primitives called directly by the converter
      ([CreateString], [PrependUint32], ...) check their argument.  So do
      the generated accessors, which are not part of [cjseq2cb.py]: the type
      of a table goes into a number slot, and the builder raises TypeError
      when it is given [None] for it ([AddType]); which numbers the
      accessors of the header take is a field of [Externals]; the accessors
      of a feature ([CreateVertex], ...) record their arguments as passed,
      and the statements about features are about the tables that are built
      or about exceptions raised before those calls.
    - The modules [attributes] and [geometry] and the generated package
      [CityBuf_] are not part of [cjseq2cb.py]; their operations are the
      fields of [Externals].  So are two things the converter leaves to its
      platform: what numpy makes of an extent member that is no number, and
      the limit of the interpreter on the digits [int()] reads.
    - The diagnostic counters ([total_*_size]) and what is printed on the
      standard output take no part in the result and are left out; the
      counters are taken to be defined, as the main program defines them
      before it converts.
    - An [AttributeSchemaEncoder] object is true in a condition, and so is
      the offset of a finished table. *)

From Stdlib Require Import ZArith List String Ascii Bool Lia Floats.
From Stdlib.Strings Require Import Byte.
From Stdlib Require Import DecimalString.
Import ListNotations.

Local Open Scope string_scope.
Local Open Scope list_scope.
Local Open Scope Z_scope.

(** ** Exceptions and the error monad *)

Inductive exn : Type :=
| KeyError (key : string)
| IndexError
| TypeError
| ValueError
| OverflowError
| AttributeError
| UnboundLocalError (name : string)
| Exception (msg : string).

Inductive result (A : Type) : Type :=
| Ok (a : A)
| Raise (e : exn).

Arguments Ok {A} a.
Arguments Raise {A} e.

Definition bind {A B : Type} (m : result A) (k : A -> result B) : result B :=
  match m with
  | Ok a => k a
  | Raise e => Raise e
  end.

Notation "x <- m ;; k" := (bind m (fun x => k))
  (at level 61, m at next level, right associativity).
Notation "' p <- m ;; k" := (bind m (fun x => let p := x in k))
  (at level 61, p pattern, m at next level, right associativity).

Definition raises {A : Type} (m : result A) : Prop :=
  exists e, m = Raise e.

Definition is_ok {A : Type} (m : result A) : bool :=
  match m with Ok _ => true | Raise _ => false end.

(** A [for] loop that builds a list: the body runs on each element in order
    and the first exception ends the loop. *)
Fixpoint for_each {A B : Type} (body : A -> result B) (l : list A)
  : result (list B) :=
  match l with
  | [] => Ok []
  | x :: rest =>
      y <- body x ;;
      ys <- for_each body rest ;;
      Ok (y :: ys)
  end.

(** A [for] loop that updates a running state. *)
Fixpoint for_fold {A S : Type} (body : S -> A -> result S) (l : list A) (s : S)
  : result S :=
  match l with
  | [] => Ok s
  | x :: rest => s' <- body s x ;; for_fold body rest s'
  end.

(** ** Python strings *)

(** [str.split(sep)] for a one-character separator: every occurrence cuts,
    empty pieces are kept. *)
Fixpoint split_on (sep : ascii) (s : string) : list string :=
  match s with
  | EmptyString => [EmptyString]
  | String c rest =>
      if Ascii.eqb c sep then EmptyString :: split_on sep rest
      else match split_on sep rest with
           | [] => [String c EmptyString]
           | piece :: pieces => String c piece :: pieces
           end
  end.

(** [needle in haystack] on two strings. *)
Fixpoint is_substring (needle hay : string) : bool :=
  String.prefix needle hay
  || match hay with
     | EmptyString => false
     | String _ rest => is_substring needle rest
     end.

(** The last [n] elements, [l[-n:]]. *)
Definition last_n {A : Type} (n : nat) (l : list A) : list A :=
  skipn (List.length l - n) l.

(** The blanks [int()] skips around a literal: tab to carriage return and
    the space and, beyond ASCII, next line (133) and the no-break space
    (160).  The separators 28 to 31, blanks for [str.strip], are none for
    [int()]. *)
Definition is_space (c : ascii) : bool :=
  let n := nat_of_ascii c in
  ((9 <=? n) && (n <=? 13) || (n =? 32) || (n =? 133) || (n =? 160))%nat.

Definition digit_of (c : ascii) : option Z :=
  let n := nat_of_ascii c in
  if ((48 <=? n) && (n <=? 57))%nat then Some (Z.of_nat n - 48) else None.

Fixpoint lstrip (s : string) : string :=
  match s with
  | String c rest => if is_space c then lstrip rest else s
  | EmptyString => s
  end.

Fixpoint string_rev_onto (s acc : string) : string :=
  match s with
  | EmptyString => acc
  | String c rest => string_rev_onto rest (String c acc)
  end.

Definition strip (s : string) : string :=
  let r := lstrip (string_rev_onto (lstrip s) EmptyString) in
  string_rev_onto r EmptyString.

(** Digits of a decimal literal as [int()] reads them: at least one digit,
    and a single underscore allowed between two digits.  [prev_digit] tells
    whether the previous character was a digit. *)
Fixpoint int_digits (s : string) (acc : Z) (prev_digit : bool) : option Z :=
  match s with
  | EmptyString => if prev_digit then Some acc else None
  | String c rest =>
      match digit_of c with
      | Some d => int_digits rest (10 * acc + d) true
      | None =>
          if Ascii.eqb c "_" && prev_digit then
            match rest with
            | String c' _ =>
                match digit_of c' with
                | Some _ => int_digits rest acc false
                | None => None
                end
            | EmptyString => None
            end
          else None
      end
  end.

Fixpoint count_digits (s : string) : nat :=
  match s with
  | EmptyString => O
  | String c rest =>
      match digit_of c with
      | Some _ => S (count_digits rest)
      | None => count_digits rest
      end
  end.

(** The limit of the interpreter on the digits of a literal
    ([sys.get_int_max_str_digits()], 4300 unless set otherwise): 0 stands
    for no limit, as in the interpreters that have none, and 640 digits
    or fewer are always read.  Leading zeros count, underscores do not. *)
Definition over_digit_limit (max_str_digits : nat) (s : string) : bool :=
  let digits := count_digits s in
  ((640 <? digits) && (0 <? max_str_digits) && (max_str_digits <? digits))%nat.

(** [int(s)]: blanks, an optional sign, a decimal literal, blanks. *)
Definition py_int (max_str_digits : nat) (s : string) : result Z :=
  let body (t : string) (sign : Z) :=
    match int_digits t 0 false with
    | Some n =>
        if over_digit_limit max_str_digits t then Raise ValueError
        else Ok (sign * n)
    | None => Raise ValueError
    end in
  match strip s with
  | String "-" t => body t (-1)
  | String "+" t => body t 1
  | t => body t 1
  end.

(** ** Python integers as bytes *)

Definition byte_of_Z (z : Z) : byte :=
  match Byte.of_N (Z.to_N (z mod 256)) with
  | Some b => b
  | None => x00
  end.

Definition Z_of_byte (b : byte) : Z := Z.of_N (Byte.to_N b).

Fixpoint le_bytes (width : nat) (n : Z) : list byte :=
  match width with
  | O => []
  | S k => byte_of_Z n :: le_bytes k (n / 256)
  end.

(** [n.to_bytes(length, byteorder='little', signed=False)]. *)
Definition to_bytes (n : Z) (width : nat) : result (list byte) :=
  if (0 <=? n) && (n <? 256 ^ Z.of_nat width)
  then Ok (le_bytes width n)
  else Raise OverflowError.

(** The unsigned integer a little-endian byte string stands for. *)
Fixpoint le_value (bs : list byte) : Z :=
  match bs with
  | [] => 0
  | b :: rest => Z_of_byte b + 256 * le_value rest
  end.

(** [s.encode('ascii')] for a string of ASCII characters. *)
Definition encode_ascii (s : string) : list byte := list_byte_of_string s.

(** ** JSON values, as [json.loads] returns them *)

#[local] Unset Elimination Schemes.

Inductive json : Type :=
| JNull
| JBool (b : bool)
| JInt (z : Z)
| JFloat (f : float)
| JStr (s : string)
| JArr (items : list json)
| JObj (members : list (string * json)).

#[local] Set Elimination Schemes.

(** *** Dictionaries in insertion order *)

Fixpoint dict_get {V : Type} (k : string) (d : list (string * V)) : option V :=
  match d with
  | [] => None
  | (k', v) :: rest => if String.eqb k k' then Some v else dict_get k rest
  end.

Definition dict_has {V : Type} (k : string) (d : list (string * V)) : bool :=
  match dict_get k d with Some _ => true | None => false end.

(** [d[k] = v]: an existing key keeps its place, a new one goes last. *)
Fixpoint dict_set {V : Type} (k : string) (v : V) (d : list (string * V))
  : list (string * V) :=
  match d with
  | [] => [(k, v)]
  | (k', v') :: rest =>
      if String.eqb k k' then (k', v) :: rest else (k', v') :: dict_set k v rest
  end.

Definition dict_keys {V : Type} (d : list (string * V)) : list string :=
  map fst d.

Definition mem_string (k : string) (l : list string) : bool :=
  existsb (String.eqb k) l.

(** *** The operators the converter applies to JSON values *)

Definition is_str (k : string) (v : json) : bool :=
  match v with JStr s => String.eqb s k | _ => false end.

(** [k in v] for a string [k]. *)
Definition py_contains (k : string) (v : json) : result bool :=
  match v with
  | JObj d => Ok (dict_has k d)
  | JArr l => Ok (existsb (is_str k) l)
  | JStr s => Ok (is_substring k s)
  | _ => Raise TypeError
  end.

(** [v[k]] for a string [k]. *)
Definition py_getitem (v : json) (k : string) : result json :=
  match v with
  | JObj d =>
      match dict_get k d with
      | Some x => Ok x
      | None => Raise (KeyError k)
      end
  | _ => Raise TypeError
  end.

Definition string_of_ascii (c : ascii) : string := String c EmptyString.

Definition chars (s : string) : list json :=
  map (fun c => JStr (string_of_ascii c)) (list_ascii_of_string s).

(** [v[i]] for a natural number [i]; a dictionary read from JSON has no
    integer key. *)
Definition py_index (v : json) (i : nat) : result json :=
  match v with
  | JArr l =>
      match nth_error l i with Some x => Ok x | None => Raise IndexError end
  | JStr s =>
      match nth_error (chars s) i with
      | Some x => Ok x
      | None => Raise IndexError
      end
  | JObj _ => Raise (KeyError (NilZero.string_of_uint (Nat.to_uint i)))
  | _ => Raise TypeError
  end.

(** [v[a:b]] for natural numbers [a <= b]. *)
Definition py_slice (v : json) (a b : nat) : result json :=
  match v with
  | JArr l => Ok (JArr (firstn (b - a) (skipn a l)))
  | JStr s => Ok (JStr (String.substring a (b - a) s))
  | _ => Raise TypeError
  end.

(** The elements [for x in v] runs over. *)
Definition py_iter (v : json) : result (list json) :=
  match v with
  | JArr l => Ok l
  | JStr s => Ok (chars s)
  | JObj d => Ok (map JStr (dict_keys d))
  | _ => Raise TypeError
  end.

(** [reversed(v)]. *)
Definition py_reversed (v : json) : result (list json) :=
  l <- py_iter v ;; Ok (rev l).

(** [len(v)]. *)
Definition py_len (v : json) : result Z :=
  l <- py_iter v ;; Ok (Z.of_nat (List.length l)).

(** [v.items()] and [v.values()]: methods of dictionaries only. *)
Definition py_items (v : json) : result (list (string * json)) :=
  match v with
  | JObj d => Ok d
  | _ => Raise AttributeError
  end.

Definition py_values (v : json) : result (list json) :=
  d <- py_items v ;; Ok (map snd d).

(** Truth value of [v] in a condition. *)
Definition py_truthy (v : json) : bool :=
  match v with
  | JNull => false
  | JBool b => b
  | JInt z => negb (z =? 0)
  | JFloat f => negb (PrimFloat.eqb f 0%float)
  | JStr s => negb (String.eqb s "")
  | JArr l => match l with [] => false | _ => true end
  | JObj d => match d with [] => false | _ => true end
  end.

(** [v == s] for a string literal [s]. *)
Definition py_eq_str (v : json) (s : string) : bool := is_str s v.

(** ** numpy rows of three float64 *)

Definition vec3 : Type := float * float * float.
Definition extent : Type := vec3 * vec3.

Definition float_of_Z (z : Z) : float :=
  SF2Prim (SpecFloat.binary_normalize FloatOps.prec FloatOps.emax z 0 false).

(** Conversion to float64 of an element that is a number, a boolean or
    null: [None] is NaN and an integer is rounded to the nearest float64,
    with OverflowError beyond the range.  The other values ([None] here)
    are left to [np_assign_other] below. *)
Definition np_float64 (v : json) : option (result float) :=
  match v with
  | JInt z =>
      let f := float_of_Z z in
      Some (if PrimFloat.is_infinity f then Raise OverflowError else Ok f)
  | JFloat f => Some (Ok f)
  | JBool b => Some (Ok (if b then 1%float else 0%float))
  | JNull => Some (Ok nan)
  | JStr _ | JArr _ | JObj _ => None
  end.

(** The elements of a list converted in order, when each of them is a
    number, a boolean or null. *)
Fixpoint np_elements (l : list json) : option (result (list float)) :=
  match l with
  | [] => Some (Ok [])
  | v :: rest =>
      match np_float64 v, np_elements rest with
      | Some x, Some xs => Some (x' <- x ;; xs' <- xs ;; Ok (x' :: xs'))
      | _, _ => None
      end
  end.

(** [np.minimum] and [np.maximum] on one element: a NaN operand is
    returned, the first one if both are. *)
Definition np_minimum1 (x y : float) : float :=
  if PrimFloat.is_nan x then x
  else if PrimFloat.is_nan y then y
  else if PrimFloat.leb x y then x else y.

Definition np_maximum1 (x y : float) : float :=
  if PrimFloat.is_nan x then x
  else if PrimFloat.is_nan y then y
  else if PrimFloat.leb y x then x else y.

Definition np_minimum (a b : vec3) : vec3 :=
  let '(a0, a1, a2) := a in
  let '(b0, b1, b2) := b in
  (np_minimum1 a0 b0, np_minimum1 a1 b1, np_minimum1 a2 b2).

Definition np_maximum (a b : vec3) : vec3 :=
  let '(a0, a1, a2) := a in
  let '(b0, b1, b2) := b in
  (np_maximum1 a0 b0, np_maximum1 a1 b1, np_maximum1 a2 b2).

(** A row filled with one scalar, [row[...] = x]. *)
Definition np_fill (x : float) : vec3 := (x, x, x).

(** ** The tables of the container (package [CityBuf_])

    A field that the converter adds conditionally is an [option]: [None]
    means that the field was not added to the table.  The type of a table
    is held as the enumeration gives it; [AddType] leaves no finished table
    without one. *)

Record SemanticObject : Type := {
  so_type : option Z;
  so_attributes : list byte
}.

Record Geometry : Type := {
  g_type : option Z;
  g_lod : string;
  g_solids : option (list Z);
  g_shells : option (list Z);
  g_surfaces : option (list Z);
  g_strings : option (list Z);
  g_boundaries : list Z;
  g_semantics_objects : option (list SemanticObject);
  g_semantics : option (list Z)
}.

Record GeographicalExtent : Type := {
  ge_min : vec3;
  ge_max : vec3
}.

Record CityObject : Type := {
  co_type : option Z;
  co_id : string;
  co_attributes : option (list byte);
  co_geometry : option (list Geometry);
  co_children : option (list string);
  co_parents : option (list string);
  co_geographical_extent : option GeographicalExtent
}.

Record Vertex : Type := { v_x : json; v_y : json; v_z : json }.

Record CityFeature : Type := {
  cf_id : string;
  cf_vertices : list Vertex;
  cf_objects : list CityObject
}.

Record ReferenceSystem : Type := {
  rs_authority : string;
  rs_version : Z;
  rs_code : Z
}.

Record Column : Type := { col_name : string; col_type : Z }.

Record Transform : Type := {
  t_scale : json * json * json;
  t_translate : json * json * json
}.

Record Header : Type := {
  h_features_count : Z;
  h_transform : Transform;
  h_reference_system : option ReferenceSystem;
  h_columns : list Column;
  h_geographical_extent : GeographicalExtent
}.

(** ** The collaborators of the converter *)

(** The types [type_map] of the command line maps a type name to. *)
Inductive pytype : Type := Tstr | Tint | Tfloat | Tbool | Tdict.

(** The arrays a [GeometryEncoder] holds after encoding. *)
Record GeometryEncoder : Type := {
  indices : list Z;
  solids : list Z;
  shells : list Z;
  surfaces : list Z;
  strings : list Z;
  semantic_values : list (option Z)
}.

Record Externals : Type := {
  (** [attributes.AttributeSchemaEncoder]: constructor, [add],
      [encode_values], the keys of [schema] in order, [get_cb_column_type]. *)
  SchemaEncoder : Type;
  AttributeSchemaEncoder : list (string * pytype) -> bool -> SchemaEncoder;
  add : SchemaEncoder -> json -> list string -> result SchemaEncoder;
  encode_values : SchemaEncoder -> json -> list string -> result (list byte);
  schema_keys : SchemaEncoder -> list string;
  get_cb_column_type : SchemaEncoder -> string -> result Z;
  (** [geometry.GeometryEncoder]: constructor, [encode],
      [encode_semantics]. *)
  GeometryEncoder_new : GeometryEncoder;
  encode : GeometryEncoder -> json -> result GeometryEncoder;
  encode_semantics : GeometryEncoder -> json -> result GeometryEncoder;
  (** The enumerations of [CityBuf_]: the number the class has under the
      given name, [None] when it has no attribute of that name or one that
      is no number. *)
  SemanticSurfaceType : string -> option Z;
  CityObjectType : string -> option Z;
  GeometryType : string -> option Z;
  (** The accessors of [CityBuf_] that put a number of the header into its
      slot: how the call ends, with the exception of the builder when the
      number is not one the slot takes. *)
  AddFeaturesCount : Z -> result unit;
  CreateTransform : json -> json -> json -> json -> json -> json -> result unit;
  ReferenceSystemAddVersion : Z -> result unit;
  ReferenceSystemAddCode : Z -> result unit;
  ColumnAddType : Z -> result unit;
  (** [builder.Output()] after [builder.Finish] on the root table. *)
  Output_header : Header -> list byte;
  Output_feature : CityFeature -> list byte;
  (** numpy: [row[...] = v] on a row of three float64, for a [v] that is
      not a list of numbers, booleans and nulls (a string, which numpy reads
      as a number when it can, or a list that holds a string, a list or a
      dictionary). *)
  np_assign_other : json -> result vec3;
  (** The interpreter: [sys.get_int_max_str_digits()], 0 for no limit. *)
  int_max_str_digits : nat
}.

(** ** The builder primitives the converter calls *)

Definition CreateString (v : json) : result string :=
  match v with
  | JStr s => Ok s
  | _ => Raise TypeError
  end.

Definition CreateByteVector (b : list byte) : list byte := b.

Definition uint32_max : Z := 4294967295.

Definition PrependUint32 (x : Z) (vec : list Z) : result (list Z) :=
  if (0 <=? x) && (x <=? uint32_max) then Ok (x :: vec) else Raise TypeError.

Definition PrependUOffsetTRelative {A : Type} (off : A) (vec : list A)
  : list A := off :: vec.

(** A vector of offsets: [Start...Vector], one [PrependUOffsetTRelative]
    per element of [offsets] in the order given, [EndVector]. *)
Definition offset_vector {A : Type} (offsets : list A) : list A :=
  fold_left (fun vec off => PrependUOffsetTRelative off vec) offsets [].

(** A vector of uint32: [Start...Vector], [PrependUint32] on the elements of
    [reversed(values)], [EndVector]. *)
Definition uint32_vector (values : list Z) : result (list Z) :=
  for_fold (fun vec x => PrependUint32 x vec) (rev values) [].

(** A local variable that is bound on some paths only. *)
Definition unbound {A : Type} : option A := None.

Definition use {A : Type} (name : string) (v : option A) : result A :=
  match v with
  | Some a => Ok a
  | None => Raise (UnboundLocalError name)
  end.

Definition nonempty {A : Type} (l : list A) : bool :=
  match l with [] => false | _ => true end.

(** [getattr(class_type, attribute_name, None)]. *)
Definition get_attribute_by_name (class_type : string -> option Z)
  (attribute_name : json) : result (option Z) :=
  match attribute_name with
  | JStr s => Ok (class_type s)
  | _ => Raise TypeError
  end.

(** [AddType(builder, x)] of a generated table, [SemanticObjectAddType] and
    [GeometryAddType]: the type goes into a number slot, and the builder
    raises TypeError when [x] is [None]. *)
Definition AddType (x : option Z) : result Z :=
  match x with
  | Some t => Ok t
  | None => Raise TypeError
  end.

(** ** The converter *)

(** [create_magic_bytes(major, minor)]. *)
Definition create_magic_bytes (major minor : Z) : result (list byte) :=
  let cb := encode_ascii "FCB" in
  ma <- to_bytes major 1 ;;
  mi <- to_bytes minor 1 ;;
  Ok (cb ++ ma ++ cb ++ mi).

Section Converter.

Variable X : Externals.

(** [row[...] = v] for a row of shape (3,) of float64.  A list of numbers,
    booleans and nulls is converted, then fitted: three elements fill the
    row, a single one is broadcast, any other length raises ValueError. *)
Definition np_assign_row (v : json) : result vec3 :=
  match v with
  | JArr l =>
      match np_elements l with
      | Some converted =>
          xs <- converted ;;
          match xs with
          | [x; y; z] => Ok (x, y, z)
          | [x] => Ok (x, x, x)
          | _ => Raise ValueError
          end
      | None => np_assign_other X v
      end
  | _ => np_assign_other X v
  end.

(** [v[0:3]] and [v[3:6]] stored in the two rows of a fresh 2x3 array. *)
Definition np_extent_of (v : json) : result extent :=
  lo <- py_slice v 0 3 ;;
  row0 <- np_assign_row lo ;;
  hi <- py_slice v 3 6 ;;
  row1 <- np_assign_row hi ;;
  Ok (row0, row1).

(** A method call on [schema_encoder], which may be [None]. *)
Definition the_encoder (schema_encoder : option (SchemaEncoder X))
  : result (SchemaEncoder X) :=
  match schema_encoder with
  | Some e => Ok e
  | None => Raise AttributeError
  end.

(** The body of the loop over [semantics["surfaces"]] in
    [create_geometry]. *)
Definition create_semantic_object (schema_encoder : option (SchemaEncoder X))
  (surface : json) : result SemanticObject :=
  e <- the_encoder schema_encoder ;;
  buf <- encode_values X e surface ["type"] ;;
  let f_attributes_offset := CreateByteVector buf in
  ty <- py_getitem surface "type" ;;
  t <- get_attribute_by_name (SemanticSurfaceType X) ty ;;
  t <- AddType t ;;
  Ok {| so_type := Some t; so_attributes := f_attributes_offset |}.

(** The semantics vector: [None] is written as the largest uint32. *)
Definition semantics_vector (values : list (option Z)) : result (list Z) :=
  for_fold (fun vec sem =>
              match sem with
              | None => PrependUint32 uint32_max vec
              | Some v => PrependUint32 v vec
              end) (rev values) [].

(** A run-length array is built only [if len(values)]. *)
Definition level_vector (values : list Z) : result (option (list Z)) :=
  if nonempty values
  then vec <- uint32_vector values ;; Ok (Some vec)
  else Ok unbound.

(** ... and added to the table under the same test. *)
Definition add_level (name : string) (values : list Z)
  (offset : option (list Z)) : result (option (list Z)) :=
  if nonempty values
  then vec <- use name offset ;; Ok (Some vec)
  else Ok None.

(** The part of [create_geometry] that reads the semantics block: the value
    of [semantic_values] ([JNull] for [None]) and [f_semantics_objects]. *)
Definition read_semantics (schema_encoder : option (SchemaEncoder X))
  (geom : json) : result (json * option (list SemanticObject)) :=
  has_semantics <- py_contains "semantics" geom ;;
  if has_semantics then
    semantics <- py_getitem geom "semantics" ;;
    has_surfaces <- py_contains "surfaces" semantics ;;
    has_values <- (if has_surfaces then py_contains "values" semantics
                   else Ok false) ;;
    if has_surfaces && has_values then
      surfaces_ <- py_getitem semantics "surfaces" ;;
      surface_list <- py_iter surfaces_ ;;
      f_semantics_offsets <-
        for_each (create_semantic_object schema_encoder) surface_list ;;
      let f_semantics_objects := offset_vector (rev f_semantics_offsets) in
      semantic_values_ <- py_getitem semantics "values" ;;
      Ok (semantic_values_, Some f_semantics_objects)
    else Raise (Exception "Semantics must have surfaces and values")
  else Ok (JNull, unbound).

(** The encoder run of [create_geometry]: [gd = GeometryEncoder()],
    [gd.encode(geom["boundaries"])] and, [if semantic_values],
    [gd.encode_semantics(semantic_values)]. *)
Definition encode_boundaries (geom : json) (semantic_values_ : json)
  : result GeometryEncoder :=
  boundaries <- py_getitem geom "boundaries" ;;
  gd <- encode X (GeometryEncoder_new X) boundaries ;;
  if py_truthy semantic_values_
  then encode_semantics X gd semantic_values_
  else Ok gd.

Definition create_geometry (schema_encoder : option (SchemaEncoder X))
  (geom : json) : result Geometry :=
  lod <- py_getitem geom "lod" ;;
  f_lod <- CreateString lod ;;
  '(semantic_values_, f_semantics_objects) <-
    read_semantics schema_encoder geom ;;
  gd <- encode_boundaries geom semantic_values_ ;;
  f_boundaries_offset <- uint32_vector (indices gd) ;;
  f_solids_offset <- level_vector (solids gd) ;;
  f_shells_offset <- level_vector (shells gd) ;;
  f_surfaces_offset <- level_vector (surfaces gd) ;;
  f_rings_offset <- level_vector (strings gd) ;;
  f_semantics <- (if nonempty (semantic_values gd)
                  then vec <- semantics_vector (semantic_values gd) ;;
                       Ok (Some vec)
                  else Ok unbound) ;;
  ty <- py_getitem geom "type" ;;
  type_ <- get_attribute_by_name (GeometryType X) ty ;;
  type_ <- AddType type_ ;;
  a_solids <- add_level "f_solids_offset" (solids gd) f_solids_offset ;;
  a_shells <- add_level "f_shells_offset" (shells gd) f_shells_offset ;;
  a_surfaces <- add_level "f_surfaces_offset" (surfaces gd) f_surfaces_offset ;;
  a_strings <- add_level "f_rings_offset" (strings gd) f_rings_offset ;;
  '(a_semantics_objects, a_semantics) <-
    (if py_truthy semantic_values_ then
       objs <- use "f_semantics_objects" f_semantics_objects ;;
       sems <- use "f_semantics" f_semantics ;;
       Ok (Some objs, Some sems)
     else Ok (None, None)) ;;
  Ok {| g_type := Some type_;
        g_lod := f_lod;
        g_solids := a_solids;
        g_shells := a_shells;
        g_surfaces := a_surfaces;
        g_strings := a_strings;
        g_boundaries := f_boundaries_offset;
        g_semantics_objects := a_semantics_objects;
        g_semantics := a_semantics |}.

(** The body of the loop over [cj_object["geometry"]] in [create_object]. *)
Definition create_object_geometry (schema_encoder : option (SchemaEncoder X))
  (geom : json) : result Geometry :=
  ty <- py_getitem geom "type" ;;
  if py_eq_str ty "GeometryInstance"
  then Raise (Exception "GeometryInstance is not supported at the moment")
  else create_geometry schema_encoder geom.

(** The strings of a parents or children vector: the identifiers are
    created in reversed order and their offsets prepended in that order. *)
Definition string_vector (ids : json) : result (list string) :=
  reversed_ids <- py_reversed ids ;;
  f_ids <- for_each CreateString reversed_ids ;;
  Ok (offset_vector f_ids).

Definition CreateGeographicalExtent (lo hi : vec3) : GeographicalExtent :=
  {| ge_min := lo; ge_max := hi |}.

Definition create_object (cj_id : string) (cj_object : json)
  (schema_encoder : option (SchemaEncoder X)) : result CityObject :=
  has_children <- py_contains "children" cj_object ;;
  has_parents <- py_contains "parents" cj_object ;;
  has_attributes <- py_contains "attributes" cj_object ;;
  has_geometry <- py_contains "geometry" cj_object ;;
  has_geographical_extent <- py_contains "geographicalExtent" cj_object ;;
  f_id <- CreateString (JStr cj_id) ;;
  f_attributes_offset <-
    match has_attributes, schema_encoder with
    | true, Some e =>
        attributes <- py_getitem cj_object "attributes" ;;
        buf_attributes <- encode_values X e attributes [] ;;
        Ok (Some (CreateByteVector buf_attributes))
    | _, _ => Ok unbound
    end ;;
  f_parents_offset <-
    (if has_parents then
       parents <- py_getitem cj_object "parents" ;;
       vec <- string_vector parents ;;
       Ok (Some vec)
     else Ok unbound) ;;
  f_children_offset <-
    (if has_children then
       children <- py_getitem cj_object "children" ;;
       vec <- string_vector children ;;
       Ok (Some vec)
     else Ok unbound) ;;
  f_geometries_offset <-
    (if has_geometry then
       geoms <- py_getitem cj_object "geometry" ;;
       geom_list <- py_iter geoms ;;
       f_geoms <- for_each (create_object_geometry schema_encoder) geom_list ;;
       geoms' <- py_getitem cj_object "geometry" ;;
       _ <- py_len geoms' ;;
       Ok (Some (offset_vector (rev f_geoms)))
     else Ok unbound) ;;
  ty <- py_getitem cj_object "type" ;;
  type_ <- get_attribute_by_name (CityObjectType X) ty ;;
  type_ <- AddType type_ ;;
  a_attributes <-
    (if has_attributes
     then off <- use "f_attributes_offset" f_attributes_offset ;; Ok (Some off)
     else Ok None) ;;
  a_geometry <-
    (if has_geometry
     then off <- use "f_geometries_offset" f_geometries_offset ;; Ok (Some off)
     else Ok None) ;;
  a_children <-
    (if has_children
     then off <- use "f_children_offset" f_children_offset ;; Ok (Some off)
     else Ok None) ;;
  a_parents <-
    (if has_parents
     then off <- use "f_parents_offset" f_parents_offset ;; Ok (Some off)
     else Ok None) ;;
  a_extent <-
    (if has_geographical_extent then
       ge <- py_getitem cj_object "geographicalExtent" ;;
       gextent <- np_extent_of ge ;;
       Ok (Some (CreateGeographicalExtent (fst gextent) (snd gextent)))
     else Ok None) ;;
  Ok {| co_type := Some type_;
        co_id := f_id;
        co_attributes := a_attributes;
        co_geometry := a_geometry;
        co_children := a_children;
        co_parents := a_parents;
        co_geographical_extent := a_extent |}.

Definition CreateVertex (x y z : json) : Vertex :=
  {| v_x := x; v_y := y; v_z := z |}.

(** The root table of a feature, before [builder.Output()]. *)
Definition create_feature_table (cj_feature : json)
  (schema_encoder : option (SchemaEncoder X)) : result CityFeature :=
  id <- py_getitem cj_feature "id" ;;
  f_id <- CreateString id ;;
  vertices <- py_getitem cj_feature "vertices" ;;
  _ <- py_len vertices ;;
  vertices' <- py_getitem cj_feature "vertices" ;;
  reversed_vertices <- py_reversed vertices' ;;
  f_vertices <-
    for_each (fun v =>
                x <- py_index v 0 ;;
                y <- py_index v 1 ;;
                z <- py_index v 2 ;;
                Ok (CreateVertex x y z)) reversed_vertices ;;
  let f_vertices_offset := offset_vector f_vertices in
  city_objects <- py_getitem cj_feature "CityObjects" ;;
  items <- py_items city_objects ;;
  f_object_offsets <-
    for_each (fun item => create_object (fst item) (snd item) schema_encoder)
             items ;;
  city_objects' <- py_getitem cj_feature "CityObjects" ;;
  _ <- py_len city_objects' ;;
  let f_objects_offset := offset_vector (rev f_object_offsets) in
  Ok {| cf_id := f_id;
        cf_vertices := f_vertices_offset;
        cf_objects := f_objects_offset |}.

Definition create_feature (cj_feature : json)
  (schema_encoder : option (SchemaEncoder X)) : result (list byte) :=
  f <- create_feature_table cj_feature schema_encoder ;;
  Ok (Output_feature X f).

(** [cj_crs.split('/')]: a method of strings only. *)
Definition str_split (v : json) (sep : ascii) : result (list string) :=
  match v with
  | JStr s => Ok (split_on sep s)
  | _ => Raise AttributeError
  end.

(** The CRS table of [create_header]; [None] when the metadata names no
    reference system. *)
Definition create_reference_system (cj_metadata : json)
  : result (option ReferenceSystem) :=
  has_metadata <- py_contains "metadata" cj_metadata ;;
  if has_metadata then
    metadata <- py_getitem cj_metadata "metadata" ;;
    has_crs <- py_contains "referenceSystem" metadata ;;
    if has_crs then
      metadata' <- py_getitem cj_metadata "metadata" ;;
      cj_crs <- py_getitem metadata' "referenceSystem" ;;
      parts <- str_split cj_crs "/" ;;
      match last_n 3 parts with
      | [authority; version; code] =>
          authority_cfb <- CreateString (JStr authority) ;;
          version_ <- py_int (int_max_str_digits X) version ;;
          _ <- ReferenceSystemAddVersion X version_ ;;
          code_ <- py_int (int_max_str_digits X) code ;;
          _ <- ReferenceSystemAddCode X code_ ;;
          Ok (Some {| rs_authority := authority_cfb;
                      rs_version := version_;
                      rs_code := code_ |})
      | _ => Raise ValueError
      end
    else Ok None
  else Ok None.

(** The columns vector of [create_header]: one [Column] per key of
    [schema_encoder.schema], in order. *)
Definition create_columns (schema_encoder : option (SchemaEncoder X))
  : result (list Column) :=
  e <- the_encoder schema_encoder ;;
  fb_columns <-
    for_each (fun key =>
                f_name <- CreateString (JStr key) ;;
                f_type <- get_cb_column_type X e key ;;
                _ <- ColumnAddType X f_type ;;
                Ok {| col_name := f_name; col_type := f_type |})
             (schema_keys X e) ;;
  Ok (offset_vector (rev fb_columns)).

Definition no_crs_warning : string := "No CRS found in input metadata".

(** The root table of the header and the warnings logged on the way. *)
Definition create_header_table (cj_metadata : json)
  (geographical_extent : extent) (features_count : Z)
  (schema_encoder : option (SchemaEncoder X))
  : result (Header * list string) :=
  transform <- py_getitem cj_metadata "transform" ;;
  ts <- py_getitem transform "scale" ;;
  transform' <- py_getitem cj_metadata "transform" ;;
  tt <- py_getitem transform' "translate" ;;
  crs_offset <- create_reference_system cj_metadata ;;
  f_columns_offset <- create_columns schema_encoder ;;
  _ <- AddFeaturesCount X features_count ;;
  ts0 <- py_index ts 0 ;;
  ts1 <- py_index ts 1 ;;
  ts2 <- py_index ts 2 ;;
  tt0 <- py_index tt 0 ;;
  tt1 <- py_index tt 1 ;;
  tt2 <- py_index tt 2 ;;
  _ <- CreateTransform X ts0 ts1 ts2 tt0 tt1 tt2 ;;
  let warnings :=
    match crs_offset with
    | Some _ => []
    | None => [no_crs_warning]
    end in
  let '(gmin, gmax) := geographical_extent in
  Ok ({| h_features_count := features_count;
         h_transform := {| t_scale := (ts0, ts1, ts2);
                           t_translate := (tt0, tt1, tt2) |};
         h_reference_system := crs_offset;
         h_columns := f_columns_offset;
         h_geographical_extent := CreateGeographicalExtent gmin gmax |},
      warnings).

Definition create_header (cj_metadata : json) (geographical_extent : extent)
  (features_count : Z) (schema_encoder : option (SchemaEncoder X))
  : result (list byte * list string) :=
  hw <- create_header_table cj_metadata geographical_extent features_count
          schema_encoder ;;
  Ok (Output_header X (fst hw), snd hw).

(** *** [convert_cjseq2cb] *)

(** The seed of [global_extent] and the flag [get_extent_from_features].
    [np.ndarray((2, 3))] allocates without initialising: [uninitialized] is
    what the fresh array happens to hold. *)
Definition seed_extent (uninitialized : extent) (cj_metadata : json)
  : result (extent * bool) :=
  let global_extent := uninitialized in
  has_metadata <- py_contains "metadata" cj_metadata ;;
  if has_metadata then
    metadata <- py_getitem cj_metadata "metadata" ;;
    has_extent <- py_contains "geographicalExtent" metadata ;;
    if has_extent then
      metadata' <- py_getitem cj_metadata "metadata" ;;
      ge <- py_getitem metadata' "geographicalExtent" ;;
      declared <- np_extent_of ge ;;
      Ok (declared, false)
    else
      Ok ((np_fill infinity, np_fill neg_infinity), true)
  else Ok (global_extent, true).

(** The fold of one object's extent into [global_extent]. *)
Definition fold_extent (global_extent : extent) (cj_object : json)
  : result extent :=
  has_extent <- py_contains "geographicalExtent" cj_object ;;
  if has_extent then
    ge <- py_getitem cj_object "geographicalExtent" ;;
    fext <- np_extent_of ge ;;
    Ok (np_minimum (fst global_extent) (fst fext),
        np_maximum (snd global_extent) (snd fext))
  else Ok global_extent.

(** The surfaces of one geometry fed to [schema_encoder.add]. *)
Definition scan_geometry (schema_encoder : SchemaEncoder X) (geom : json)
  : result (SchemaEncoder X) :=
  has_semantics <- py_contains "semantics" geom ;;
  if has_semantics then
    semantics <- py_getitem geom "semantics" ;;
    surfaces_ <- py_getitem semantics "surfaces" ;;
    surface_list <- py_iter surfaces_ ;;
    for_fold (fun enc surface =>
                add X enc surface ["type"; "parent"; "children"])
             surface_list schema_encoder
  else Ok schema_encoder.

(** The body of the scan over the objects of a feature: the running state
    is [(global_extent, schema_encoder)]. *)
Definition scan_object (get_extent_from_features : bool)
  (state : extent * SchemaEncoder X) (cj_object : json)
  : result (extent * SchemaEncoder X) :=
  let '(global_extent, schema_encoder) := state in
  global_extent <- (if get_extent_from_features
                    then fold_extent global_extent cj_object
                    else Ok global_extent) ;;
  has_attributes <- py_contains "attributes" cj_object ;;
  schema_encoder <-
    (if has_attributes then
       attributes <- py_getitem cj_object "attributes" ;;
       add X schema_encoder attributes []
     else Ok schema_encoder) ;;
  has_geometry <- py_contains "geometry" cj_object ;;
  schema_encoder <-
    (if has_geometry then
       geoms <- py_getitem cj_object "geometry" ;;
       geom_list <- py_iter geoms ;;
       for_fold scan_geometry geom_list schema_encoder
     else Ok schema_encoder) ;;
  Ok (global_extent, schema_encoder).

Definition scan_feature (get_extent_from_features : bool)
  (state : extent * SchemaEncoder X) (cj_feature : json)
  : result (extent * SchemaEncoder X) :=
  city_objects <- py_getitem cj_feature "CityObjects" ;;
  objects <- py_values city_objects ;;
  for_fold (scan_object get_extent_from_features) objects state.

(** The first pass: attributes and geographical extents. *)
Definition scan (uninitialized : extent) (cj_metadata : json)
  (cj_features : list json) (schema_encoder : SchemaEncoder X)
  : result (extent * SchemaEncoder X) :=
  '(global_extent, get_extent_from_features) <-
    seed_extent uninitialized cj_metadata ;;
  for_fold (scan_feature get_extent_from_features) cj_features
           (global_extent, schema_encoder).

(** The output file: what has been written to it, and how the block that
    writes it ended. *)
Definition file_write (file data : list byte) : list byte := file ++ data.

Fixpoint write_features (file : list byte) (fb_features : list (list byte))
  : list byte * result unit :=
  match fb_features with
  | [] => (file, Ok tt)
  | fb_feature :: rest =>
      match to_bytes (Z.of_nat (List.length fb_feature)) 4 with
      | Raise e => (file, Raise e)
      | Ok n =>
          let file := file_write file n in
          let file := file_write file fb_feature in
          write_features file rest
      end
  end.

Definition write_container (cj_metadata : json) (global_extent : extent)
  (schema_encoder : SchemaEncoder X) (fb_features : list (list byte))
  : list byte * result unit :=
  let file := [] in
  match create_magic_bytes 0 4 with
  | Raise e => (file, Raise e)
  | Ok magic =>
      let file := file_write file magic in
      match create_header cj_metadata global_extent
              (Z.of_nat (List.length fb_features)) (Some schema_encoder) with
      | Raise e => (file, Raise e)
      | Ok (header_buf, _) =>
          match to_bytes (Z.of_nat (List.length header_buf)) 4 with
          | Raise e => (file, Raise e)
          | Ok n =>
              let file := file_write file n in
              let file := file_write file header_buf in
              write_features file fb_features
          end
      end
  end.

(** [convert_cjseq2cb], from the parsed lines of the input ([cj_metadata],
    [cj_features]) to the content of the output file, [None] when the file
    was never opened, and the way the call ended. *)
Definition convert_cjseq2cb (uninitialized : extent) (cj_metadata : json)
  (cj_features : list json) (pretyped_attributes : list (string * pytype))
  (write_nulls : bool) : option (list byte) * result unit :=
  let schema_encoder := AttributeSchemaEncoder X pretyped_attributes write_nulls in
  match scan uninitialized cj_metadata cj_features schema_encoder with
  | Raise e => (None, Raise e)
  | Ok (global_extent, schema_encoder) =>
      match for_each (fun cj_feature =>
                        create_feature cj_feature (Some schema_encoder))
                     cj_features with
      | Raise e => (None, Raise e)
      | Ok fb_features =>
          let '(file, r) :=
            write_container cj_metadata global_extent schema_encoder
                            fb_features in
          (Some file, r)
      end
  end.

End Converter.

(** *** The [--schema] option of the command line *)

Definition type_map : list (string * pytype) :=
  [("str", Tstr); ("int", Tint); ("float", Tfloat); ("bool", Tbool);
   ("json", Tdict)].

(** The body of the loop over [args.schema.split(',')]. *)
Definition add_pretyped (pretyped_attributes : list (string * pytype))
  (pair : string) : result (list (string * pytype)) :=
  match split_on ":" pair with
  | [name; atype] =>
      match dict_get atype type_map with
      | Some t => Ok (dict_set name t pretyped_attributes)
      | None => Raise (KeyError atype)
      end
  | _ => Raise ValueError
  end.

(** [pretyped_attributes] as the main program builds it from [args.schema],
    which is [None] when the option is not given. *)
Definition parse_schema (args_schema : option string)
  : result (list (string * pytype)) :=
  match args_schema with
  | Some s =>
      if negb (String.eqb s "")
      then for_fold add_pretyped (split_on "," s) []
      else Ok []
  | None => Ok []
  end.

(** The main program up to the end of the conversion. *)
Definition main (X : Externals) (uninitialized : extent)
  (cj_metadata : json) (cj_features : list json)
  (args_schema : option string) (args_skip_null_attributes : bool)
  : option (list byte) * result unit :=
  match parse_schema args_schema with
  | Raise e => (None, Raise e)
  | Ok pretyped_attributes =>
      convert_cjseq2cb X uninitialized cj_metadata cj_features
                       pretyped_attributes (negb args_skip_null_attributes)
  end.

(** ** The container layout, in the words of the specification *)

(** A frame: a 4-byte little-endian unsigned length, then the table. *)
Definition frame (table : list byte) : list byte :=
  le_bytes 4 (Z.of_nat (List.length table)) ++ table.

(** Magic prefix (tag, major version, tag again, minor version), header
    frame, then one frame per feature in order. *)
Definition container_layout (major minor : Z) (header : list byte)
  (features : list (list byte)) : list byte :=
  [x46; x43; x42] ++ [byte_of_Z major] ++ [x46; x43; x42] ++ [byte_of_Z minor]
  ++ frame header ++ List.concat (map frame features).

(** A reader of the container: the two version bytes, the header table and
    the feature tables.  [fuel] bounds the number of frames read. *)
Definition read_frame (bs : list byte) : option (list byte * list byte) :=
  let n := Z.to_nat (le_value (firstn 4 bs)) in
  let rest := skipn 4 bs in
  if (4 <=? List.length bs)%nat && (n <=? List.length rest)%nat
  then Some (firstn n rest, skipn n rest)
  else None.

Fixpoint read_frames (fuel : nat) (bs : list byte)
  : option (list (list byte)) :=
  match bs with
  | [] => Some []
  | _ :: _ =>
      match fuel with
      | O => None
      | S fuel' =>
          match read_frame bs with
          | Some (table, rest) =>
              match read_frames fuel' rest with
              | Some tables => Some (table :: tables)
              | None => None
              end
          | None => None
          end
      end
  end.

Definition read_container (bs : list byte)
  : option (byte * byte * list byte * list (list byte)) :=
  match bs with
  | t0 :: t1 :: t2 :: major :: u0 :: u1 :: u2 :: minor :: rest =>
      if forallb (fun p => Byte.eqb (fst p) (snd p))
           (combine [t0; t1; t2; u0; u1; u2] [x46; x43; x42; x46; x43; x42])
      then
        match read_frame rest with
        | Some (header, rest') =>
            match read_frames (List.length rest') rest' with
            | Some features => Some (major, minor, header, features)
            | None => None
            end
        | None => None
        end
      else None
  | _ => None
  end.

(** ** The attribute schema engine and the geometry flattener, from the
       specification *)

Module SpecModel.

(** The scalar types of a column. *)
Inductive scalar_type : Type := Text | Boolean | Integer | Floating | Structured.

Definition scalar_of_pytype (t : pytype) : scalar_type :=
  match t with
  | Tstr => Text
  | Tint => Integer
  | Tfloat => Floating
  | Tbool => Boolean
  | Tdict => Structured
  end.

(** The runtime kind of an observed value; a null establishes no type. *)
Definition runtime_kind (v : json) : option scalar_type :=
  match v with
  | JNull => None
  | JBool _ => Some Boolean
  | JInt _ => Some Integer
  | JFloat _ => Some Floating
  | JStr _ => Some Text
  | JArr _ => Some Structured
  | JObj _ => Some Structured
  end.

(** Modelled from the spec: the state of [attributes.AttributeSchemaEncoder]
    (the module [attributes] is missing), an ordered mapping from attribute
    name to scalar type and the null-write policy. *)
Record schema_encoder : Type := {
  schema : list (string * scalar_type);
  write_nulls : bool
}.

(** Modelled from the spec: the constructor of
    [attributes.AttributeSchemaEncoder] (missing), which seeds the explicit
    name-to-type overrides before any observation. *)
Definition init (pretyped : list (string * pytype)) (wn : bool)
  : schema_encoder :=
  {| schema := map (fun nt => (fst nt, scalar_of_pytype (snd nt))) pretyped;
     write_nulls := wn |}.

Definition observe_key (excluded : list string) (enc : schema_encoder)
  (kv : string * json) : schema_encoder :=
  let '(k, v) := kv in
  if mem_string k excluded then enc
  else if dict_has k (schema enc) then enc
  else match runtime_kind v with
       | Some t => {| schema := schema enc ++ [(k, t)];
                      write_nulls := write_nulls enc |}
       | None => enc
       end.

(** Modelled from the spec: [AttributeSchemaEncoder.add] (missing), section
    4.1: each key that is not excluded and not yet in the running schema is
    recorded, in first-seen order, with the scalar type of the observed
    value; a key already present keeps its type. *)
Definition observe (enc : schema_encoder) (attributes : json)
  (excluded : list string) : result schema_encoder :=
  items <- py_items attributes ;;
  Ok (fold_left (observe_key excluded) items enc).

Fixpoint column_of (k : string) (cols : list (string * scalar_type)) (i : nat)
  : option (nat * scalar_type) :=
  match cols with
  | [] => None
  | (k', t) :: rest =>
      if String.eqb k k' then Some (i, t) else column_of k rest (S i)
  end.

Section Encoding.

(** The width of a column index and the bytes of a value are not fixed by
    the specification. *)
Variable column_index_bytes : nat -> list byte.
Variable value_bytes : scalar_type -> json -> result (list byte).

Definition encode_entry (enc : schema_encoder) (excluded : list string)
  (buf : list byte) (kv : string * json) : result (list byte) :=
  let '(k, v) := kv in
  if mem_string k excluded then Ok buf
  else match column_of k (schema enc) 0 with
       | None => Raise (KeyError k)
       | Some (i, t) =>
           match v with
           | JNull =>
               if write_nulls enc then Ok (buf ++ column_index_bytes i)
               else Ok buf
           | _ =>
               payload <- value_bytes t v ;;
               Ok (buf ++ column_index_bytes i ++ payload)
           end
       end.

(** Modelled from the spec: [AttributeSchemaEncoder.encode_values]
    (missing), section 4.2: the record's own keys in order, excluded keys
    skipped; a key of the frozen schema gives a column index followed by the
    value, or the index alone for a null when nulls are written; a key that
    the frozen schema does not have is an error. *)
Definition encode_record (enc : schema_encoder) (attributes : json)
  (excluded : list string) : result (list byte) :=
  items <- py_items attributes ;;
  for_fold (encode_entry enc excluded) items [].

End Encoding.

(** Modelled from the spec: [geometry.GeometryEncoder] (the module
    [geometry] is missing), section 4.3.  A ring appends its indices to the
    flat array and its length to the ring lengths; an array of depth 2, 3 or
    4 that is not the whole boundary appends its length to the surface,
    shell or solid lengths.  The result carries the depth of the array. *)
Definition is_index (v : json) : bool :=
  match v with JInt _ => true | _ => false end.

Definition index_of (v : json) : Z :=
  match v with JInt z => z | _ => 0 end.

Definition record_level (depth : nat) (n : Z) (gd : GeometryEncoder)
  : GeometryEncoder :=
  match depth with
  | 2%nat => {| indices := indices gd; solids := solids gd;
                shells := shells gd; surfaces := surfaces gd ++ [n];
                strings := strings gd;
                semantic_values := semantic_values gd |}
  | 3%nat => {| indices := indices gd; solids := solids gd;
                shells := shells gd ++ [n]; surfaces := surfaces gd;
                strings := strings gd;
                semantic_values := semantic_values gd |}
  | 4%nat => {| indices := indices gd; solids := solids gd ++ [n];
                shells := shells gd; surfaces := surfaces gd;
                strings := strings gd;
                semantic_values := semantic_values gd |}
  | _ => gd
  end.

Fixpoint flatten (top : bool) (b : json) (gd : GeometryEncoder)
  : result (nat * GeometryEncoder) :=
  match b with
  | JArr items =>
      if forallb is_index items then
        Ok (1%nat,
            {| indices := indices gd ++ map index_of items;
               solids := solids gd; shells := shells gd;
               surfaces := surfaces gd;
               strings := strings gd ++ [Z.of_nat (List.length items)];
               semantic_values := semantic_values gd |})
      else
        r <- (fix children (l : list json) (acc : nat * GeometryEncoder)
                : result (nat * GeometryEncoder) :=
                match l with
                | [] => Ok acc
                | x :: rest =>
                    r <- flatten false x (snd acc) ;;
                    children rest r
                end) items (0%nat, gd) ;;
        let depth := S (fst r) in
        Ok (depth,
            if top then snd r
            else record_level depth (Z.of_nat (List.length items)) (snd r))
  | _ => Raise TypeError
  end.

Definition flatten_boundaries (gd : GeometryEncoder) (boundaries : json)
  : result GeometryEncoder :=
  r <- flatten true boundaries gd ;; Ok (snd r).

(** Modelled from the spec: [GeometryEncoder.encode_semantics] (missing),
    section 4.4: the value-index array is passed through, one entry per
    surface, a null standing for no semantic object. *)
Fixpoint semantic_entries (v : json) : result (list (option Z)) :=
  match v with
  | JNull => Ok [None]
  | JInt z => Ok [Some z]
  | JArr items =>
      (fix entries (l : list json) : result (list (option Z)) :=
         match l with
         | [] => Ok []
         | x :: rest =>
             a <- semantic_entries x ;;
             b <- entries rest ;;
             Ok (a ++ b)
         end) items
  | _ => Raise TypeError
  end.

Definition flatten_semantics (gd : GeometryEncoder) (values : json)
  : result GeometryEncoder :=
  entries <- semantic_entries values ;;
  Ok {| indices := indices gd; solids := solids gd; shells := shells gd;
        surfaces := surfaces gd; strings := strings gd;
        semantic_values := semantic_values gd ++ entries |}.

Definition empty_encoder : GeometryEncoder :=
  {| indices := []; solids := []; shells := []; surfaces := [];
     strings := []; semantic_values := [] |}.

(** *** An instance of the collaborators

    The enumerations number their names by position, the slots of the
    header take the numbers of their width, a column index takes two bytes,
    the bytes of a value are a one-byte tag of its column type, and a
    finished buffer holds the identifier of a feature or the feature
    count of the header: stand-ins for what the specification leaves open.
    The extents of the samples are lists of numbers, so that the stand-in
    for what numpy makes of other values is never reached; the digit limit
    is the one an interpreter starts with. *)

Fixpoint position (name : string) (names : list string) (i : Z) : option Z :=
  match names with
  | [] => None
  | n :: rest => if String.eqb name n then Some i else position name rest (i + 1)
  end.

Definition enumeration (names : list string) (name : string) : option Z :=
  position name names 0.

Definition column_tag (t : scalar_type) : Z :=
  match t with
  | Text => 0 | Boolean => 1 | Integer => 2 | Floating => 3 | Structured => 4
  end.

Definition tag_bytes (t : scalar_type) (v : json) : result (list byte) :=
  Ok [byte_of_Z (column_tag t)].

(** A number slot of the builder. *)
Definition slot (lo hi n : Z) : result unit :=
  if (lo <=? n) && (n <=? hi) then Ok tt else Raise TypeError.

Definition is_number (v : json) : bool :=
  match v with
  | JInt _ | JFloat _ => true
  | _ => false
  end.

Definition column_type_of (enc : schema_encoder) (key : string) : result Z :=
  match dict_get key (schema enc) with
  | Some t => Ok (column_tag t)
  | None => Raise (KeyError key)
  end.

Definition externals : Externals :=
  {| SchemaEncoder := schema_encoder;
     AttributeSchemaEncoder := init;
     add := observe;
     encode_values := encode_record (fun i => le_bytes 2 (Z.of_nat i)) tag_bytes;
     schema_keys := fun enc => dict_keys (schema enc);
     get_cb_column_type := column_type_of;
     GeometryEncoder_new := empty_encoder;
     encode := flatten_boundaries;
     encode_semantics := flatten_semantics;
     SemanticSurfaceType :=
       enumeration ["RoofSurface"; "GroundSurface"; "WallSurface";
                    "ClosureSurface"; "OuterCeilingSurface";
                    "OuterFloorSurface"; "Window"; "Door"];
     CityObjectType :=
       enumeration ["Bridge"; "Building"; "BuildingPart"; "CityFurniture";
                    "LandUse"; "Road"; "TINRelief"; "Tunnel"; "WaterBody"];
     GeometryType :=
       enumeration ["MultiPoint"; "MultiLineString"; "MultiSurface";
                    "CompositeSurface"; "Solid"; "MultiSolid";
                    "CompositeSolid"];
     AddFeaturesCount := slot 0 18446744073709551615;
     CreateTransform := fun s0 s1 s2 t0 t1 t2 =>
       if forallb is_number [s0; s1; s2; t0; t1; t2] then Ok tt
       else Raise TypeError;
     ReferenceSystemAddVersion := slot (-2147483648) 2147483647;
     ReferenceSystemAddCode := slot (-2147483648) 2147483647;
     ColumnAddType := slot 0 255;
     Output_header := fun h => le_bytes 8 (h_features_count h);
     Output_feature := fun f => encode_ascii (cf_id f);
     np_assign_other := fun _ => Raise ValueError;
     int_max_str_digits := 4300 |}.

End SpecModel.

(** ** Vocabulary of the statements *)

(** The uint32 an entry of the semantic-index array is written as. *)
Definition entry_value (sem : option Z) : Z :=
  match sem with
  | None => 4294967295
  | Some v => v
  end.

Definition is_uint32 (x : Z) : Prop := 0 <= x <= 4294967295.

(** A level array [values] and the field it gives in the geometry table:
    the field is there exactly when the array has an element, and then it
    holds the array. *)
Definition level_field (values : list Z) (field : option (list Z)) : Prop :=
  (forall vec, field = Some vec <-> vec = values /\ values <> [])
  /\ field <> Some [].

(** [d] without the key [k]. *)
Fixpoint dict_remove {V : Type} (k : string) (d : list (string * V))
  : list (string * V) :=
  match d with
  | [] => []
  | (k', v) :: rest =>
      if String.eqb k k' then dict_remove k rest
      else (k', v) :: dict_remove k rest
  end.

(** The transform of a header, read apart from the rest. *)
Definition read_transform (cj_metadata : json) : result Transform :=
  transform <- py_getitem cj_metadata "transform" ;;
  ts <- py_getitem transform "scale" ;;
  tt <- py_getitem transform "translate" ;;
  ts0 <- py_index ts 0 ;;
  ts1 <- py_index ts 1 ;;
  ts2 <- py_index ts 2 ;;
  tt0 <- py_index tt 0 ;;
  tt1 <- py_index tt 1 ;;
  tt2 <- py_index tt 2 ;;
  Ok {| t_scale := (ts0, ts1, ts2); t_translate := (tt0, tt1, tt2) |}.

(** What [CreateTransform] makes of the members of a transform. *)
Definition transform_taken (X : Externals) (t : Transform) : result unit :=
  let '(s0, s1, s2) := t_scale t in
  let '(t0, t1, t2) := t_translate t in
  CreateTransform X s0 s1 s2 t0 t1 t2.

(** The city objects of a feature and of a dataset, in the order of the
    scan. *)
Definition feature_objects (cj_feature : json) : result (list json) :=
  city_objects <- py_getitem cj_feature "CityObjects" ;;
  py_values city_objects.

Definition dataset_objects (cj_features : list json) : result (list json) :=
  per_feature <- for_each feature_objects cj_features ;;
  Ok (List.concat per_feature).

(** A table that fits behind a 4-byte length. *)
Definition fits_frame (table : list byte) : Prop :=
  Z.of_nat (List.length table) < 4294967296.

(** The text of a [--schema] option that lists the given pairs. *)
Definition type_name (t : pytype) : string :=
  match t with
  | Tstr => "str"
  | Tint => "int"
  | Tfloat => "float"
  | Tbool => "bool"
  | Tdict => "json"
  end.

Definition pair_text (p : string * pytype) : string :=
  String.append (fst p) (String ":" (type_name (snd p))).

Fixpoint schema_text (pairs : list (string * pytype)) : string :=
  match pairs with
  | [] => EmptyString
  | [p] => pair_text p
  | p :: rest => String.append (pair_text p) (String "," (schema_text rest))
  end.

Fixpoint has_char (c : ascii) (s : string) : bool :=
  match s with
  | EmptyString => false
  | String c' rest => Ascii.eqb c' c || has_char c rest
  end.

(** A name that can stand in a [--schema] option. *)
Definition plain_name (name : string) : bool :=
  negb (has_char ":" name) && negb (has_char "," name).

(** The pretyped attributes a list of pairs gives: each pair set in turn. *)
Definition pretyped_of (pairs : list (string * pytype))
  : list (string * pytype) :=
  fold_left (fun d p => dict_set (fst p) (snd p) d) pairs [].

(** ** Sample inputs *)

Module Sample.

Definition triangle (a b c : Z) : json := JArr [JArr [JInt a; JInt b; JInt c]].

(** A solid with one shell of four triangles. *)
Definition tetrahedron : json :=
  JArr [JArr [triangle 0 1 2; triangle 0 1 3; triangle 1 2 3; triangle 0 2 3]].

Definition vertices : json :=
  JArr [JArr [JInt 0; JInt 0; JInt 0]; JArr [JInt 100; JInt 0; JInt 0];
        JArr [JInt 0; JInt 100; JInt 0]; JArr [JInt 0; JInt 0; JInt 100]].

Definition geometry (semantics : list (string * json)) : json :=
  JObj ([("type", JStr "Solid"); ("lod", JStr "2.2");
         ("boundaries", tetrahedron)] ++ semantics).

Definition building (attrs : json) (geom : json) : json :=
  JObj [("type", JStr "Building"); ("attributes", attrs);
        ("geometry", JArr [geom]);
        ("geographicalExtent",
         JArr [JInt 5; JInt 5; JInt 5; JInt 10; JInt 10; JInt 10])].

Definition feature (id : string) (object : json) : json :=
  JObj [("type", JStr "CityJSONFeature"); ("id", JStr id);
        ("CityObjects", JObj [(id, object)]); ("vertices", vertices)].

Definition transform : string * json :=
  ("transform",
   JObj [("scale", JArr [JInt 1; JInt 1; JInt 1]);
         ("translate", JArr [JInt 0; JInt 0; JInt 0])]).

(** A first line with a reference system and a declared extent. *)
Definition metadata_full : json :=
  JObj [("type", JStr "CityJSON"); transform;
        ("metadata",
         JObj [("referenceSystem",
                JStr "https://www.opengis.net/def/crs/EPSG/0/7415");
               ("geographicalExtent",
                JArr [JInt 0; JInt 0; JInt 0; JInt 50; JInt 50; JInt 50])])].

(** A first line with a [metadata] member that declares nothing. *)
Definition metadata_empty : json :=
  JObj [("type", JStr "CityJSON"); transform; ("metadata", JObj [])].

(** A first line without a [metadata] member. *)
Definition metadata_absent : json :=
  JObj [("type", JStr "CityJSON"); transform].

Definition roof_and_wall : string * json :=
  ("semantics",
   JObj [("surfaces",
          JArr [JObj [("type", JStr "RoofSurface"); ("slope", JInt 30)];
                JObj [("type", JStr "WallSurface")]]);
         ("values", JArr [JArr [JInt 0; JInt 1; JNull; JInt 1]])]).

(** Semantic surfaces that refer to one another, as CityJSON allows. *)
Definition wall_with_door : string * json :=
  ("semantics",
   JObj [("surfaces",
          JArr [JObj [("type", JStr "WallSurface"); ("children", JArr [JInt 1])];
                JObj [("type", JStr "Door"); ("parent", JInt 0)]]);
         ("values", JArr [JArr [JInt 0; JInt 1; JNull; JNull]])]).

Definition house : json :=
  feature "house" (building (JObj [("name", JStr "A")])
                            (geometry [roof_and_wall])).

Definition shed : json :=
  feature "shed" (building (JObj [("name", JStr "B")]) (geometry [])).

Definition shop : json :=
  feature "shop" (building (JObj [("name", JStr "C")])
                           (geometry [wall_with_door])).

(** A semantics block without a values array, and one whose only surface
    record has no type and whose values array is empty. *)
Definition surfaces_only : string * json :=
  ("semantics",
   JObj [("surfaces", JArr [JObj [("type", JStr "WallSurface")]])]).

Definition untyped_surface : string * json :=
  ("semantics", JObj [("surfaces", JArr [JObj []]); ("values", JArr [])]).

Definition typed_surface : string * json :=
  ("semantics",
   JObj [("surfaces", JArr [JObj [("type", JStr "RoofSurface")]]);
         ("values", JArr [])]).

Definition ruin : json :=
  feature "ruin" (building (JObj [("name", JStr "D")])
                           (geometry [surfaces_only])).

Definition zeros : extent :=
  ((0%float, 0%float, 0%float), (0%float, 0%float, 0%float)).

(** The schema the scan of [house] ends with. *)
Definition schema_encoder : SpecModel.schema_encoder :=
  {| SpecModel.schema := [("name", SpecModel.Text);
                          ("slope", SpecModel.Integer)];
     SpecModel.write_nulls := true |}.

End Sample.

(** ** The error monad and the loops *)

Lemma bind_ok {A B : Type} (m : result A) (k : A -> result B) (b : B) :
  bind m k = Ok b <-> exists a, m = Ok a /\ k a = Ok b.
Proof.
  destruct m as [a|e]; cbn; split.
  - intro H. exists a. split; [reflexivity | exact H].
  - intros [a' [Ha Hk]]. injection Ha as ->. exact Hk.
  - discriminate.
  - intros [a' [Ha _]]. discriminate Ha.
Qed.

Lemma raises_bind_l {A B : Type} (m : result A) (k : A -> result B) :
  raises m -> raises (bind m k).
Proof. intros [e ->]. exists e. reflexivity. Qed.

Lemma raises_bind {A B : Type} (m : result A) (k : A -> result B) :
  (forall a, m = Ok a -> raises (k a)) -> raises (bind m k).
Proof.
  intro H. destruct m as [a|e]; cbn.
  - apply H. reflexivity.
  - exists e. reflexivity.
Qed.

(** One more statement of a sequence that ends with an exception. *)
Ltac step := apply raises_bind; intros ? ?.

Lemma raises_not_ok {A : Type} (m : result A) (a : A) :
  raises m -> m <> Ok a.
Proof. intros [e ->]. discriminate. Qed.


Lemma for_each_ok {A B : Type} (body : A -> result B) (l : list A)
  (ys : list B) :
  for_each body l = Ok ys <-> Forall2 (fun x y => body x = Ok y) l ys.
Proof.
  revert ys. induction l as [|x l IH]; intro ys; cbn.
  - split.
    + intro H. injection H as <-. constructor.
    + intro H. inversion H. reflexivity.
  - split.
    + intro H. apply bind_ok in H as [y [Hy H]].
      apply bind_ok in H as [ys' [Hys H]]. injection H as <-.
      constructor; [exact Hy | apply IH; exact Hys].
    + intro H. inversion H as [|x' y l' ys' Hy Hys]; subst.
      rewrite Hy. cbn. apply IH in Hys. rewrite Hys. reflexivity.
Qed.

Lemma for_each_raises {A B : Type} (body : A -> result B) (l : list A)
  (x : A) :
  In x l -> raises (body x) -> raises (for_each body l).
Proof.
  induction l as [|y l IH]; intros Hin Hx; [destruct Hin|].
  cbn. apply raises_bind. intros b Hb.
  destruct Hin as [-> | Hin].
  - exfalso. exact (raises_not_ok _ _ Hx Hb).
  - apply raises_bind_l. apply IH; assumption.
Qed.

Lemma for_each_length {A B : Type} (body : A -> result B) (l : list A)
  (ys : list B) :
  for_each body l = Ok ys -> List.length ys = List.length l.
Proof.
  intro H. apply for_each_ok in H.
  induction H; cbn; congruence.
Qed.


(** ** Vectors of the builder *)

Lemma offset_vector_rev {A : Type} (l : list A) : offset_vector (rev l) = l.
Proof.
  unfold offset_vector, PrependUOffsetTRelative.
  rewrite <- fold_left_rev_right, rev_involutive.
  induction l as [|x l IH]; cbn; congruence.
Qed.

Lemma offset_vector_reversed {A : Type} (l : list A) :
  offset_vector l = rev l.
Proof.
  rewrite <- (rev_involutive l) at 1. apply offset_vector_rev.
Qed.

Lemma PrependUint32_ok (x : Z) (vec r : list Z) :
  PrependUint32 x vec = Ok r <-> is_uint32 x /\ r = x :: vec.
Proof.
  unfold PrependUint32, is_uint32, uint32_max.
  destruct (0 <=? x) eqn:H0; destruct (x <=? 4294967295) eqn:H1; cbn;
    split; intro H;
    try discriminate H;
    try (injection H as <-; split; [lia | reflexivity]);
    try (destruct H as [H ->]; reflexivity);
    destruct H as [H _]; lia.
Qed.

(** A loop that prepends [g x] for each [x] of [l] succeeds exactly when
    every [g x] is a uint32, and leaves them in reversed order. *)
Lemma prepend_loop {A : Type} (f : list Z -> A -> result (list Z))
  (g : A -> Z) :
  (forall vec x, f vec x = PrependUint32 (g x) vec) ->
  forall (l : list A) (vec r : list Z),
    for_fold f l vec = Ok r <->
    Forall (fun x => is_uint32 (g x)) l /\ r = rev (map g l) ++ vec.
Proof.
  intros Hf l. induction l as [|x l IH]; intros vec r; cbn.
  - split.
    + intro H. injection H as <-. split; [constructor | reflexivity].
    + intros [_ ->]. reflexivity.
  - rewrite bind_ok. split.
    + intros [v [Hv H]]. rewrite Hf in Hv. apply PrependUint32_ok in Hv as [Hx ->].
      apply IH in H as [Hl ->]. split; [constructor; assumption|].
      rewrite <- app_assoc. reflexivity.
    + intros [Hall ->]. inversion Hall as [|x' l' Hx Hl]; subst.
      exists (g x :: vec). split.
      * rewrite Hf. apply PrependUint32_ok. split; [exact Hx | reflexivity].
      * apply IH. split; [exact Hl|]. rewrite <- app_assoc. reflexivity.
Qed.

Lemma Forall_rev_iff {A : Type} (P : A -> Prop) (l : list A) :
  Forall P (rev l) <-> Forall P l.
Proof.
  split; intro H.
  - rewrite <- (rev_involutive l). apply Forall_rev. exact H.
  - apply Forall_rev. exact H.
Qed.

Lemma uint32_vector_ok (values vec : list Z) :
  uint32_vector values = Ok vec <-> Forall is_uint32 values /\ vec = values.
Proof.
  unfold uint32_vector.
  rewrite (prepend_loop (fun vec x => PrependUint32 x vec) (fun x => x))
    by reflexivity.
  rewrite map_id, rev_involutive, app_nil_r, Forall_rev_iff.
  reflexivity.
Qed.

(** ** The container *)

Lemma to_bytes_ok (n : Z) (width : nat) (bs : list byte) :
  to_bytes n width = Ok bs <->
  (0 <= n < 256 ^ Z.of_nat width) /\ bs = le_bytes width n.
Proof.
  unfold to_bytes.
  destruct (0 <=? n) eqn:H0; destruct (n <? 256 ^ Z.of_nat width) eqn:H1; cbn;
    split; intro H;
    try discriminate H;
    try (injection H as <-; split; [lia | reflexivity]);
    try (destruct H as [_ ->]; reflexivity);
    destruct H as [H _]; lia.
Qed.

Lemma to_bytes_length (table n : list byte) :
  to_bytes (Z.of_nat (List.length table)) 4 = Ok n <->
  fits_frame table /\ n = le_bytes 4 (Z.of_nat (List.length table)).
Proof.
  rewrite to_bytes_ok. unfold fits_frame.
  change (256 ^ Z.of_nat 4) with 4294967296. intuition lia.
Qed.

Lemma write_features_ok (fb_features : list (list byte))
  (file file' : list byte) :
  write_features file fb_features = (file', Ok tt) <->
  Forall fits_frame fb_features /\
  file' = file ++ List.concat (map frame fb_features).
Proof.
  revert file. induction fb_features as [|fb rest IH]; intro file; cbn.
  - rewrite app_nil_r. split.
    + intro H. injection H as <-. split; [constructor | reflexivity].
    + intros [_ ->]. reflexivity.
  - destruct (to_bytes (Z.of_nat (List.length fb)) 4) as [n|e] eqn:E.
    + apply to_bytes_length in E as [Hfit ->].
      rewrite IH. unfold file_write, frame.
      rewrite <- !app_assoc. split.
      * intros [Hall ->]. split; [constructor; assumption | reflexivity].
      * intros [Hall ->]. inversion Hall; subst. split; [assumption | reflexivity].
    + split.
      * intro H. discriminate H.
      * intros [Hall _]. inversion Hall as [|x l Hfit _]; subst.
        assert (Hn : to_bytes (Z.of_nat (List.length fb)) 4
                     = Ok (le_bytes 4 (Z.of_nat (List.length fb))))
          by (apply to_bytes_length; split; [exact Hfit | reflexivity]).
        rewrite Hn in E. discriminate E.
Qed.

Lemma create_magic_bytes_0_4 :
  create_magic_bytes 0 4 = Ok [x46; x43; x42; x00; x46; x43; x42; x04].
Proof. reflexivity. Qed.

Lemma write_container_ok (X : Externals) (cj_metadata : json)
  (global_extent : extent) (schema_encoder : SchemaEncoder X)
  (fb_features : list (list byte)) (file : list byte) :
  write_container X cj_metadata global_extent schema_encoder fb_features
  = (file, Ok tt) <->
  exists header_buf warnings,
    create_header X cj_metadata global_extent
      (Z.of_nat (List.length fb_features)) (Some schema_encoder)
    = Ok (header_buf, warnings) /\
    fits_frame header_buf /\ Forall fits_frame fb_features /\
    file = container_layout 0 4 header_buf fb_features.
Proof.
  unfold write_container. rewrite create_magic_bytes_0_4.
  destruct (create_header X cj_metadata global_extent
              (Z.of_nat (List.length fb_features)) (Some schema_encoder))
    as [[header_buf warnings]|e] eqn:EH.
  - destruct (to_bytes (Z.of_nat (List.length header_buf)) 4) as [n|e] eqn:E.
    + apply to_bytes_length in E as [Hfit ->].
      rewrite write_features_ok. unfold file_write, container_layout, frame.
      cbn [app]. split.
      * intros [Hall ->]. exists header_buf, warnings.
        split; [reflexivity|]. split; [assumption|]. split; [assumption|].
        cbn [app]. rewrite <- ?app_assoc. reflexivity.
      * intros [h [w [Hh [_ [Hall ->]]]]]. injection Hh as <- <-.
        split; [assumption|]. cbn [app]. rewrite <- ?app_assoc. reflexivity.
    + split; [discriminate|].
      intros [h [w [Hh [Hfit _]]]]. injection Hh as <- <-.
      assert (Hn : to_bytes (Z.of_nat (List.length header_buf)) 4
                   = Ok (le_bytes 4 (Z.of_nat (List.length header_buf))))
        by (apply to_bytes_length; split; [exact Hfit | reflexivity]).
      rewrite Hn in E. discriminate E.
  - split; [discriminate|].
    intros [h [w [Hh _]]]. discriminate Hh.
Qed.

(** C3.  A call of [convert_cjseq2cb] ends normally exactly when the scan,
    the encoding of every feature and the header succeed and every table is
    shorter than 2^32 bytes; the output file then holds exactly the magic
    prefix (the tag FCB, the major version 0, the tag FCB again, the minor
    version 4), the header table behind its 4-byte little-endian length and,
    for each input feature in input order, its table behind its 4-byte
    little-endian length. *)
Theorem container_is_magic_header_features (X : Externals)
  (uninitialized : extent) (cj_metadata : json) (cj_features : list json)
  (pretyped_attributes : list (string * pytype)) (write_nulls : bool)
  (file : option (list byte)) :
  convert_cjseq2cb X uninitialized cj_metadata cj_features
    pretyped_attributes write_nulls = (file, Ok tt)
  <->
  exists global_extent schema_encoder fb_features header_buf warnings,
    scan X uninitialized cj_metadata cj_features
      (AttributeSchemaEncoder X pretyped_attributes write_nulls)
    = Ok (global_extent, schema_encoder) /\
    Forall2 (fun cj_feature fb_feature =>
               create_feature X cj_feature (Some schema_encoder)
               = Ok fb_feature) cj_features fb_features /\
    create_header X cj_metadata global_extent
      (Z.of_nat (List.length cj_features)) (Some schema_encoder)
    = Ok (header_buf, warnings) /\
    fits_frame header_buf /\ Forall fits_frame fb_features /\
    file = Some ([x46; x43; x42; x00; x46; x43; x42; x04]
                 ++ frame header_buf
                 ++ List.concat (map frame fb_features)).
Proof.
  unfold convert_cjseq2cb.
  destruct (scan X uninitialized cj_metadata cj_features
              (AttributeSchemaEncoder X pretyped_attributes write_nulls))
    as [[global_extent schema_encoder]|e] eqn:ES.
  2:{ split; [discriminate|]. intros (g & s & _ & _ & _ & H & _). discriminate H. }
  destruct (for_each (fun cj_feature =>
                        create_feature X cj_feature (Some schema_encoder))
                     cj_features) as [fb_features|e] eqn:EF.
  2:{ split; [discriminate|].
      intros (g & s & fbs & _ & _ & H & HF & _). injection H as <- <-.
      apply for_each_ok in HF. rewrite HF in EF. discriminate EF. }
  pose proof (for_each_length _ _ _ EF) as Hlen.
  apply for_each_ok in EF.
  destruct (write_container X cj_metadata global_extent schema_encoder
              fb_features) as [written r] eqn:EW.
  split.
  - intro H. injection H as <- ->.
    apply write_container_ok in EW as (h & w & Hh & Hfit & Hall & ->).
    exists global_extent, schema_encoder, fb_features, h, w.
    rewrite <- Hlen. repeat split; assumption.
  - intros (g & s & fbs & h & w & H & HF & Hh & Hfit & Hall & ->).
    injection H as <- <-.
    assert (fbs = fb_features) as ->.
    { clear - EF HF. revert fbs HF.
      induction EF as [|x y l l' Hxy _ IH]; intros fbs HF;
        inversion HF as [|x' y' l1 l2 Hxy' HF']; subst; [reflexivity|].
      rewrite Hxy in Hxy'. injection Hxy' as <-. f_equal. apply IH. exact HF'. }
    rewrite <- Hlen in Hh.
    assert (EW' : write_container X cj_metadata global_extent schema_encoder
                    fb_features
                  = (container_layout 0 4 h fb_features, Ok tt)).
    { apply write_container_ok. exists h, w. repeat split; assumption. }
    rewrite EW in EW'. injection EW' as -> ->. reflexivity.
Qed.

(** ** Geometry tables *)

Lemma semantics_vector_ok (values : list (option Z)) (vec : list Z) :
  semantics_vector values = Ok vec <->
  Forall (fun sem => is_uint32 (entry_value sem)) values /\
  vec = map entry_value values.
Proof.
  unfold semantics_vector.
  rewrite (prepend_loop _ entry_value).
  - rewrite map_rev, rev_involutive, app_nil_r, Forall_rev_iff. reflexivity.
  - intros v [x|]; reflexivity.
Qed.

Lemma level_vector_field (name : string) (values : list Z)
  (offset field : option (list Z)) :
  level_vector values = Ok offset ->
  add_level name values offset = Ok field ->
  Forall is_uint32 values /\
  field = (if nonempty values then Some values else None).
Proof.
  unfold level_vector, add_level.
  destruct values as [|x values]; cbn [nonempty].
  - intros _ H. injection H as <-. split; [constructor | reflexivity].
  - intros H1 H2. apply bind_ok in H1 as [vec [Hvec H1]]. injection H1 as <-.
    apply uint32_vector_ok in Hvec as [Hall ->].
    cbn in H2. injection H2 as <-. split; [exact Hall | reflexivity].
Qed.

Lemma nonempty_level_field (values : list Z) :
  level_field values (if nonempty values then Some values else None).
Proof.
  unfold level_field. destruct values as [|x values]; cbn.
  - split; [|discriminate]. intro vec. split; [discriminate|].
    intros [_ H]. contradiction H. reflexivity.
  - split; [|discriminate]. intro vec. split.
    + intro H. injection H as <-. split; [reflexivity | discriminate].
    + intros [-> _]. reflexivity.
Qed.

Lemma AddType_ok (x : option Z) (t : Z) : AddType x = Ok t <-> x = Some t.
Proof.
  destruct x as [t'|]; cbn; split; intro H; try discriminate H;
    injection H as ->; reflexivity.
Qed.

(** What a successful call of [create_geometry] went through, and the
    table it returns. *)
Lemma create_geometry_ok (X : Externals)
  (schema_encoder : option (SchemaEncoder X)) (geom : json) (g : Geometry) :
  create_geometry X schema_encoder geom = Ok g ->
  exists lod ty semantic_values_ f_semantics_objects gd,
    py_getitem geom "lod" = Ok lod /\
    CreateString lod = Ok (g_lod g) /\
    read_semantics X schema_encoder geom
    = Ok (semantic_values_, f_semantics_objects) /\
    encode_boundaries X geom semantic_values_ = Ok gd /\
    py_getitem geom "type" = Ok ty /\
    get_attribute_by_name (GeometryType X) ty = Ok (g_type g) /\
    (Forall is_uint32 (indices gd) /\ g_boundaries g = indices gd) /\
    (Forall is_uint32 (solids gd) /\
     g_solids g = if nonempty (solids gd) then Some (solids gd) else None) /\
    (Forall is_uint32 (shells gd) /\
     g_shells g = if nonempty (shells gd) then Some (shells gd) else None) /\
    (Forall is_uint32 (surfaces gd) /\
     g_surfaces g
     = if nonempty (surfaces gd) then Some (surfaces gd) else None) /\
    (Forall is_uint32 (strings gd) /\
     g_strings g = if nonempty (strings gd) then Some (strings gd) else None) /\
    Forall (fun sem => is_uint32 (entry_value sem)) (semantic_values gd) /\
    (if py_truthy semantic_values_
     then g_semantics_objects g = f_semantics_objects /\
          f_semantics_objects <> None /\
          g_semantics g = Some (map entry_value (semantic_values gd)) /\
          semantic_values gd <> []
     else g_semantics_objects g = None /\ g_semantics g = None).
Proof.
  unfold create_geometry. intro H.
  apply bind_ok in H as [lod [Hlod H]].
  apply bind_ok in H as [f_lod [Hflod H]].
  apply bind_ok in H as [[sv objs] [Hsem H]]. cbn beta iota zeta in H.
  apply bind_ok in H as [gd [Hgd H]].
  apply bind_ok in H as [vb [Hvb H]].
  apply bind_ok in H as [o1 [Ho1 H]].
  apply bind_ok in H as [o2 [Ho2 H]].
  apply bind_ok in H as [o3 [Ho3 H]].
  apply bind_ok in H as [o4 [Ho4 H]].
  apply bind_ok in H as [fs [Hfs H]].
  apply bind_ok in H as [ty [Hty H]].
  apply bind_ok in H as [type_ [Htype H]].
  apply bind_ok in H as [type_' [Hadded H]].
  apply AddType_ok in Hadded. subst type_.
  apply bind_ok in H as [a1 [Ha1 H]].
  apply bind_ok in H as [a2 [Ha2 H]].
  apply bind_ok in H as [a3 [Ha3 H]].
  apply bind_ok in H as [a4 [Ha4 H]].
  apply bind_ok in H as [[aobjs asems] [Hadd H]]. cbn beta iota zeta in H.
  injection H as <-. cbn.
  apply uint32_vector_ok in Hvb as [Hidx ->].
  destruct (level_vector_field _ _ _ _ Ho1 Ha1) as [H1 ->].
  destruct (level_vector_field _ _ _ _ Ho2 Ha2) as [H2 ->].
  destruct (level_vector_field _ _ _ _ Ho3 Ha3) as [H3 ->].
  destruct (level_vector_field _ _ _ _ Ho4 Ha4) as [H4 ->].
  exists lod, ty, sv, objs, gd.
  repeat (split; [assumption || (split; [assumption | reflexivity])|]).
  assert (Hentries : Forall (fun sem => is_uint32 (entry_value sem))
                            (semantic_values gd)
                     /\ fs = if nonempty (semantic_values gd)
                             then Some (map entry_value (semantic_values gd))
                             else None).
  { destruct (semantic_values gd) as [|s l] eqn:Es; cbn [nonempty] in Hfs.
    - injection Hfs as <-. split; [constructor | reflexivity].
    - apply bind_ok in Hfs as [vec [Hvec Hfs]]. injection Hfs as <-.
      apply semantics_vector_ok in Hvec as [Hall ->].
      split; [exact Hall | reflexivity]. }
  destruct Hentries as [Hentries ->].
  split; [exact Hentries|].
  destruct (py_truthy sv).
  - apply bind_ok in Hadd as [objs' [Hobjs Hadd]].
    apply bind_ok in Hadd as [sems [Hsems Hadd]].
    injection Hadd as <- <-.
    destruct objs as [objs|]; [|discriminate Hobjs].
    injection Hobjs as <-.
    destruct (semantic_values gd) as [|s l]; [discriminate Hsems|].
    injection Hsems as <-.
    repeat split; discriminate.
  - injection Hadd as <- <-. split; reflexivity.
Qed.

(** C4.  In the table a successful [create_geometry] returns, each of the
    four level arrays (solids, shells, surfaces, rings) of the encoder is a
    field of the table if and only if it has an element, and the field then
    holds the array; no level is ever present as an empty vector. *)
Theorem level_arrays_added_iff_nonempty (X : Externals)
  (schema_encoder : option (SchemaEncoder X)) (geom : json) (g : Geometry) :
  create_geometry X schema_encoder geom = Ok g ->
  exists semantic_values_ f_semantics_objects gd,
    read_semantics X schema_encoder geom
    = Ok (semantic_values_, f_semantics_objects) /\
    encode_boundaries X geom semantic_values_ = Ok gd /\
    level_field (solids gd) (g_solids g) /\
    level_field (shells gd) (g_shells g) /\
    level_field (surfaces gd) (g_surfaces g) /\
    level_field (strings gd) (g_strings g).
Proof.
  intro H.
  apply create_geometry_ok in H
    as (lod & ty & sv & objs & gd & _ & _ & Hsem & Hgd & _ & _ & _
        & [_ H1] & [_ H2] & [_ H3] & [_ H4] & _).
  exists sv, objs, gd.
  rewrite H1, H2, H3, H4.
  split; [exact Hsem|]. split; [exact Hgd|].
  split; [apply nonempty_level_field|].
  split; [apply nonempty_level_field|].
  split; apply nonempty_level_field.
Qed.

(** C6.  In the table a successful [create_geometry] returns, the semantics
    vector, when present, has one entry per entry of the encoder's
    semantic-index array: 4294967295 (2^32 - 1) where the source entry is
    [None], and the source value itself, which is a uint32, where it is
    not. *)
Theorem semantic_entries_serialized (X : Externals)
  (schema_encoder : option (SchemaEncoder X)) (geom : json) (g : Geometry) :
  create_geometry X schema_encoder geom = Ok g ->
  exists semantic_values_ f_semantics_objects gd,
    read_semantics X schema_encoder geom
    = Ok (semantic_values_, f_semantics_objects) /\
    encode_boundaries X geom semantic_values_ = Ok gd /\
    (py_truthy semantic_values_ = true -> g_semantics g <> None) /\
    forall sems, g_semantics g = Some sems ->
      List.length sems = List.length (semantic_values gd) /\
      forall i,
        (nth_error (semantic_values gd) i = Some None ->
         nth_error sems i = Some 4294967295) /\
        (forall v, nth_error (semantic_values gd) i = Some (Some v) ->
                   nth_error sems i = Some v /\ 0 <= v <= 4294967295).
Proof.
  intro H.
  apply create_geometry_ok in H
    as (lod & ty & sv & objs & gd & _ & _ & Hsem & Hgd & _ & _ & _
        & _ & _ & _ & _ & Hentries & Hs).
  exists sv, objs, gd.
  split; [exact Hsem|]. split; [exact Hgd|].
  destruct (py_truthy sv).
  - destruct Hs as (_ & _ & Hs & _). rewrite Hs. split; [discriminate|].
    intros sems E. injection E as <-.
    split; [apply length_map|].
    intro i. split.
    + intro Hi. rewrite nth_error_map, Hi. reflexivity.
    + intros v Hi. rewrite nth_error_map, Hi. split; [reflexivity|].
      apply nth_error_In in Hi.
      rewrite Forall_forall in Hentries. exact (Hentries _ Hi).
  - destruct Hs as [_ Hs]. rewrite Hs. split; [discriminate|].
    intros sems E. discriminate E.
Qed.

(** ** Failures *)

Lemma getitem_contains (v x : json) (k : string) :
  py_getitem v k = Ok x -> py_contains k v = Ok true.
Proof.
  destruct v; cbn; try discriminate.
  unfold dict_has. destruct (dict_get k members); [reflexivity | discriminate].
Qed.

Lemma contains_total (v : json) (k k' : string) (b : bool) :
  py_contains k v = Ok b -> exists b', py_contains k' v = Ok b'.
Proof.
  destruct v; cbn; try discriminate; intros _; eexists; reflexivity.
Qed.

(** A semantics block without surfaces or without values ends
    [create_geometry] with the exception the converter raises itself. *)
Lemma read_semantics_incomplete (X : Externals)
  (schema_encoder : option (SchemaEncoder X)) (geom semantics : json) :
  py_getitem geom "semantics" = Ok semantics ->
  py_contains "surfaces" semantics = Ok false \/
  py_contains "values" semantics = Ok false ->
  read_semantics X schema_encoder geom
  = Raise (Exception "Semantics must have surfaces and values").
Proof.
  intros Hsem Hmiss. unfold read_semantics.
  rewrite (getitem_contains _ _ _ Hsem). cbn [bind]. rewrite Hsem. cbn [bind].
  destruct Hmiss as [Hs | Hv].
  - rewrite Hs. reflexivity.
  - destruct (contains_total _ _ "surfaces" _ Hv) as [b Hb].
    rewrite Hb. cbn [bind]. destruct b; [rewrite Hv|]; reflexivity.
Qed.

Lemma create_geometry_incomplete_semantics (X : Externals)
  (schema_encoder : option (SchemaEncoder X)) (geom semantics : json) :
  py_getitem geom "semantics" = Ok semantics ->
  py_contains "surfaces" semantics = Ok false \/
  py_contains "values" semantics = Ok false ->
  raises (create_geometry X schema_encoder geom).
Proof.
  intros Hsem Hmiss. unfold create_geometry.
  step. step.
  rewrite (read_semantics_incomplete _ _ _ _ Hsem Hmiss).
  eexists. reflexivity.
Qed.

Lemma create_object_geometry_raises (X : Externals)
  (schema_encoder : option (SchemaEncoder X)) (geom : json) :
  raises (create_geometry X schema_encoder geom) ->
  raises (create_object_geometry X schema_encoder geom).
Proof.
  intro H. unfold create_object_geometry. step.
  destruct (py_eq_str a "GeometryInstance"); [eexists; reflexivity | exact H].
Qed.

(** An object one of whose geometries cannot be built cannot be built. *)
Lemma create_object_raises_geometry (X : Externals) (cj_id : string)
  (cj_object geoms : json) (schema_encoder : option (SchemaEncoder X))
  (geom_list : list json) (geom : json) :
  py_getitem cj_object "geometry" = Ok geoms ->
  py_iter geoms = Ok geom_list ->
  In geom geom_list ->
  raises (create_object_geometry X schema_encoder geom) ->
  raises (create_object X cj_id cj_object schema_encoder).
Proof.
  intros Hg Hiter Hin Hraise. unfold create_object.
  step. step. step. step.
  rewrite (getitem_contains _ _ _ Hg) in H2. injection H2 as <-.
  step. step. step. step. step.
  apply raises_bind_l.
  rewrite Hg. cbn [bind]. rewrite Hiter. cbn [bind].
  apply raises_bind_l. exact (for_each_raises _ _ _ Hin Hraise).
Qed.

(** A feature one of whose objects cannot be built cannot be built. *)
Lemma create_feature_raises_object (X : Externals) (cj_feature : json)
  (schema_encoder : option (SchemaEncoder X)) (city_objects : json)
  (items : list (string * json)) (cj_id : string) (cj_object : json) :
  py_getitem cj_feature "CityObjects" = Ok city_objects ->
  py_items city_objects = Ok items ->
  In (cj_id, cj_object) items ->
  raises (create_object X cj_id cj_object schema_encoder) ->
  raises (create_feature X cj_feature schema_encoder).
Proof.
  intros Hobjs Hitems Hin Hraise. unfold create_feature.
  apply raises_bind_l. unfold create_feature_table.
  step. step. step. step. step. step. step.
  rewrite Hobjs. cbn [bind]. rewrite Hitems. cbn [bind].
  apply raises_bind_l.
  apply (for_each_raises _ _ (cj_id, cj_object) Hin). exact Hraise.
Qed.

(** No output file is opened when a feature cannot be built. *)
Lemma convert_aborts_on_feature (X : Externals) (uninitialized : extent)
  (cj_metadata : json) (cj_features : list json)
  (pretyped_attributes : list (string * pytype)) (write_nulls : bool)
  (cj_feature : json) :
  In cj_feature cj_features ->
  (forall schema_encoder, raises (create_feature X cj_feature schema_encoder)) ->
  exists e,
    convert_cjseq2cb X uninitialized cj_metadata cj_features
      pretyped_attributes write_nulls = (None, Raise e).
Proof.
  intros Hin Hraise. unfold convert_cjseq2cb.
  destruct (scan X uninitialized cj_metadata cj_features
              (AttributeSchemaEncoder X pretyped_attributes write_nulls))
    as [[global_extent schema_encoder]|e]; [|exists e; reflexivity].
  destruct (for_each_raises
              (fun f => create_feature X f (Some schema_encoder))
              cj_features cj_feature Hin (Hraise (Some schema_encoder)))
    as [e ->].
  exists e. reflexivity.
Qed.

(** C5.  When a geometry of some object of some feature of the input
    declares a semantics block in which the surfaces or the values are
    absent, [convert_cjseq2cb] ends with an exception, and the output file
    is not even opened. *)
Theorem incomplete_semantics_aborts (X : Externals) (uninitialized : extent)
  (cj_metadata : json) (cj_features : list json)
  (pretyped_attributes : list (string * pytype)) (write_nulls : bool)
  (cj_feature : json) (objects : list (string * json)) (cj_id : string)
  (cj_object : json) (geoms : list json) (geom semantics : json) :
  In cj_feature cj_features ->
  py_getitem cj_feature "CityObjects" = Ok (JObj objects) ->
  In (cj_id, cj_object) objects ->
  py_getitem cj_object "geometry" = Ok (JArr geoms) ->
  In geom geoms ->
  py_getitem geom "semantics" = Ok semantics ->
  py_contains "surfaces" semantics = Ok false \/
  py_contains "values" semantics = Ok false ->
  exists e,
    convert_cjseq2cb X uninitialized cj_metadata cj_features
      pretyped_attributes write_nulls = (None, Raise e).
Proof.
  intros Hf Hobjs Hobj Hgeoms Hgeom Hsem Hmiss.
  apply (convert_aborts_on_feature _ _ _ _ _ _ cj_feature Hf).
  intro schema_encoder.
  apply (create_feature_raises_object _ _ _ (JObj objects) objects cj_id
           cj_object Hobjs eq_refl Hobj).
  apply (create_object_raises_geometry _ _ _ (JArr geoms) _ geoms geom
           Hgeoms eq_refl Hgeom).
  apply create_object_geometry_raises.
  exact (create_geometry_incomplete_semantics _ _ _ _ Hsem Hmiss).
Qed.

(** An object with attributes and no encoder: the offset of the attributes
    is read before it was ever bound. *)
Lemma create_object_without_encoder (X : Externals) (cj_id : string)
  (cj_object : json) :
  py_contains "attributes" cj_object = Ok true ->
  raises (create_object X cj_id cj_object None).
Proof.
  intro Hattr. unfold create_object.
  step. step. rewrite Hattr. cbn [bind].
  step. step. step. cbn [bind unbound].
  step. step. step. step. step. step.
  eexists. reflexivity.
Qed.

(** C10.  [create_feature] called without a schema encoder on a feature
    one of whose city objects has an attributes map ends with an
    exception. *)
Theorem attributes_without_encoder_fail (X : Externals) (cj_feature : json)
  (objects : list (string * json)) (cj_id : string) (cj_object : json) :
  py_getitem cj_feature "CityObjects" = Ok (JObj objects) ->
  In (cj_id, cj_object) objects ->
  py_contains "attributes" cj_object = Ok true ->
  raises (create_feature X cj_feature None).
Proof.
  intros Hobjs Hobj Hattr.
  apply (create_feature_raises_object _ _ _ (JObj objects) objects cj_id
           cj_object Hobjs eq_refl Hobj).
  exact (create_object_without_encoder _ _ _ Hattr).
Qed.

(** ** The header *)

Lemma create_reference_system_absent (X : Externals) (cj_metadata : json) :
  py_contains "metadata" cj_metadata = Ok false \/
  (exists metadata,
     py_getitem cj_metadata "metadata" = Ok metadata /\
     py_contains "referenceSystem" metadata = Ok false) ->
  create_reference_system X cj_metadata = Ok None.
Proof.
  unfold create_reference_system.
  intros [H | [metadata [Hm H]]].
  - rewrite H. reflexivity.
  - rewrite (getitem_contains _ _ _ Hm). cbn [bind].
    rewrite Hm. cbn [bind]. rewrite H. reflexivity.
Qed.

Lemma create_reference_system_present (X : Externals)
  (cj_metadata metadata : json)
  (crs authority version code : string) (v c : Z) :
  py_getitem cj_metadata "metadata" = Ok metadata ->
  py_getitem metadata "referenceSystem" = Ok (JStr crs) ->
  last_n 3 (split_on "/" crs) = [authority; version; code] ->
  py_int (int_max_str_digits X) version = Ok v ->
  ReferenceSystemAddVersion X v = Ok tt ->
  py_int (int_max_str_digits X) code = Ok c ->
  ReferenceSystemAddCode X c = Ok tt ->
  create_reference_system X cj_metadata
  = Ok (Some {| rs_authority := authority; rs_version := v; rs_code := c |}).
Proof.
  intros Hm Hcrs Hparts Hv Hav Hc Hac. unfold create_reference_system.
  rewrite (getitem_contains _ _ _ Hm). cbn [bind].
  rewrite Hm. cbn [bind].
  rewrite (getitem_contains _ _ _ Hcrs). cbn [bind].
  rewrite Hcrs. cbn [bind str_split].
  rewrite Hparts. cbn [bind CreateString].
  rewrite Hv. cbn [bind]. rewrite Hav. cbn [bind].
  rewrite Hc. cbn [bind]. rewrite Hac. reflexivity.
Qed.

(** The header table, given what the reference system comes to. *)
Lemma create_header_table_with (X : Externals) (cj_metadata : json)
  (geographical_extent : extent) (features_count : Z)
  (schema_encoder : option (SchemaEncoder X)) (t : Transform)
  (columns : list Column) (crs : option ReferenceSystem) :
  read_transform cj_metadata = Ok t ->
  transform_taken X t = Ok tt ->
  AddFeaturesCount X features_count = Ok tt ->
  create_columns X schema_encoder = Ok columns ->
  create_reference_system X cj_metadata = Ok crs ->
  create_header_table X cj_metadata geographical_extent features_count
    schema_encoder
  = Ok ({| h_features_count := features_count;
           h_transform := t;
           h_reference_system := crs;
           h_columns := columns;
           h_geographical_extent :=
             {| ge_min := fst geographical_extent;
                ge_max := snd geographical_extent |} |},
        match crs with Some _ => [] | None => [no_crs_warning] end).
Proof.
  intros Ht Htaken Hcount Hcols Hcrs. unfold read_transform in Ht.
  apply bind_ok in Ht as [transform [Htr Ht]].
  apply bind_ok in Ht as [ts [Hts Ht]].
  apply bind_ok in Ht as [tt' [Htt Ht]].
  apply bind_ok in Ht as [ts0 [Hts0 Ht]].
  apply bind_ok in Ht as [ts1 [Hts1 Ht]].
  apply bind_ok in Ht as [ts2 [Hts2 Ht]].
  apply bind_ok in Ht as [tt0 [Htt0 Ht]].
  apply bind_ok in Ht as [tt1 [Htt1 Ht]].
  apply bind_ok in Ht as [tt2 [Htt2 Ht]].
  injection Ht as <-. unfold transform_taken in Htaken. cbn in Htaken.
  unfold create_header_table.
  rewrite Htr. cbn [bind]. rewrite Hts. cbn [bind]. rewrite Htt. cbn [bind].
  rewrite Hcrs. cbn [bind]. rewrite Hcols. cbn [bind].
  rewrite Hcount. cbn [bind].
  rewrite Hts0, Hts1, Hts2, Htt0, Htt1, Htt2. cbn [bind].
  rewrite Htaken. cbn [bind].
  destruct geographical_extent as [gmin gmax]. reflexivity.
Qed.

(** C7, as amended.  On metadata whose transform can be read, with a schema
    whose columns can be built, and when the builder takes the feature count
    and the members of the transform: if the metadata names no reference
    system, the header is built, the warning is logged and the header has no
    CRS record; if it names one, a string with at least three segments
    between '/' whose last two [int()] reads as numbers the builder takes,
    the header is built without the warning and its CRS record holds the
    last three segments, the last two as those numbers. *)
Theorem header_reference_system (X : Externals) (cj_metadata : json)
  (geographical_extent : extent) (features_count : Z)
  (schema_encoder : option (SchemaEncoder X)) (t : Transform)
  (columns : list Column) :
  read_transform cj_metadata = Ok t ->
  transform_taken X t = Ok tt ->
  AddFeaturesCount X features_count = Ok tt ->
  create_columns X schema_encoder = Ok columns ->
  let header crs :=
    {| h_features_count := features_count;
       h_transform := t;
       h_reference_system := crs;
       h_columns := columns;
       h_geographical_extent :=
         {| ge_min := fst geographical_extent;
            ge_max := snd geographical_extent |} |} in
  (py_contains "metadata" cj_metadata = Ok false \/
   (exists metadata,
      py_getitem cj_metadata "metadata" = Ok metadata /\
      py_contains "referenceSystem" metadata = Ok false) ->
   create_header_table X cj_metadata geographical_extent features_count
     schema_encoder
   = Ok (header None, ["No CRS found in input metadata"]) /\
   create_header X cj_metadata geographical_extent features_count
     schema_encoder
   = Ok (Output_header X (header None), ["No CRS found in input metadata"]))
  /\
  (forall metadata crs authority version code v c,
     py_getitem cj_metadata "metadata" = Ok metadata ->
     py_getitem metadata "referenceSystem" = Ok (JStr crs) ->
     last_n 3 (split_on "/" crs) = [authority; version; code] ->
     py_int (int_max_str_digits X) version = Ok v ->
     ReferenceSystemAddVersion X v = Ok tt ->
     py_int (int_max_str_digits X) code = Ok c ->
     ReferenceSystemAddCode X c = Ok tt ->
     let record :=
       {| rs_authority := authority; rs_version := v; rs_code := c |} in
     create_header_table X cj_metadata geographical_extent features_count
       schema_encoder
     = Ok (header (Some record), []) /\
     create_header X cj_metadata geographical_extent features_count
       schema_encoder
     = Ok (Output_header X (header (Some record)), [])).
Proof.
  intros Ht Htaken Hcount Hcols header. split.
  - intro Habsent.
    pose proof (create_header_table_with X _ geographical_extent
                  features_count _ _ _ _ Ht Htaken Hcount Hcols
                  (create_reference_system_absent X _ Habsent)) as H.
    split; [exact H|]. unfold create_header. rewrite H. reflexivity.
  - intros metadata crs authority version code v c Hm Hcrs Hparts Hv Hav Hc
           Hac record.
    pose proof (create_header_table_with X _ geographical_extent
                  features_count _ _ _ _ Ht Htaken Hcount Hcols
                  (create_reference_system_present X _ _ _ _ _ _ _ _
                     Hm Hcrs Hparts Hv Hav Hc Hac)) as H.
    split; [exact H|]. unfold create_header. rewrite H. reflexivity.
Qed.

(** ** A semantics block with no values *)

Lemma dict_get_remove_other {V : Type} (k k' : string) (d : list (string * V)) :
  String.eqb k k' = false ->
  dict_get k (dict_remove k' d) = dict_get k d.
Proof.
  intro Hne. induction d as [|[k0 v] d IH]; cbn; [reflexivity|].
  destruct (String.eqb k' k0) eqn:E0.
  - apply String.eqb_eq in E0. subst k0. rewrite Hne. exact IH.
  - cbn. rewrite IH. reflexivity.
Qed.

Lemma dict_get_remove_same {V : Type} (k : string) (d : list (string * V)) :
  dict_get k (dict_remove k d) = None.
Proof.
  induction d as [|[k0 v] d IH]; cbn; [reflexivity|].
  destruct (String.eqb k k0) eqn:E0; [exact IH|].
  cbn. rewrite E0. exact IH.
Qed.

Lemma getitem_remove_other (k k' : string) (d : list (string * json)) :
  String.eqb k k' = false ->
  py_getitem (JObj (dict_remove k' d)) k = py_getitem (JObj d) k.
Proof.
  intro Hne. cbn. rewrite (dict_get_remove_other _ _ _ Hne). reflexivity.
Qed.

Lemma read_semantics_absent (X : Externals)
  (schema_encoder : option (SchemaEncoder X)) (members : list (string * json)) :
  read_semantics X schema_encoder (JObj (dict_remove "semantics" members))
  = Ok (JNull, None).
Proof.
  unfold read_semantics. cbn [py_contains bind]. unfold dict_has.
  rewrite dict_get_remove_same. reflexivity.
Qed.

Lemma read_semantics_empty_values (X : Externals)
  (schema_encoder : option (SchemaEncoder X)) (members : list (string * json))
  (semantics : json) (surface_list : list json) (objs : list SemanticObject) :
  py_getitem (JObj members) "semantics" = Ok semantics ->
  py_getitem semantics "surfaces" = Ok (JArr surface_list) ->
  py_getitem semantics "values" = Ok (JArr []) ->
  for_each (create_semantic_object X schema_encoder) surface_list = Ok objs ->
  read_semantics X schema_encoder (JObj members) = Ok (JArr [], Some objs).
Proof.
  intros Hsem Hsurf Hval Hobjs. unfold read_semantics.
  rewrite (getitem_contains _ _ _ Hsem). cbn [bind]. rewrite Hsem. cbn [bind].
  rewrite (getitem_contains _ _ _ Hsurf). cbn [bind].
  rewrite (getitem_contains _ _ _ Hval). cbn [bind andb].
  rewrite Hsurf. cbn [bind py_iter]. rewrite Hobjs. cbn [bind].
  rewrite Hval. cbn [bind]. rewrite offset_vector_rev. reflexivity.
Qed.

(** C9, as amended.  A geometry whose semantics block has a surfaces list,
    each record of which can be built into a semantic object (the encoder
    takes its attributes and its type names a member of
    SemanticSurfaceType), and an empty values array gives what the same
    geometry without the block gives: a table with the same fields or the
    same exception, and the table has neither the semantics nor the
    semantics-objects field.  The semantic objects that were built stay in
    the buffer, referenced by no table. *)
Theorem empty_values_as_no_semantics (X : Externals)
  (schema_encoder : option (SchemaEncoder X)) (members : list (string * json))
  (semantics : json) (surface_list : list json) (objs : list SemanticObject) :
  py_getitem (JObj members) "semantics" = Ok semantics ->
  py_getitem semantics "surfaces" = Ok (JArr surface_list) ->
  py_getitem semantics "values" = Ok (JArr []) ->
  for_each (create_semantic_object X schema_encoder) surface_list = Ok objs ->
  create_geometry X schema_encoder (JObj members)
  = create_geometry X schema_encoder (JObj (dict_remove "semantics" members))
  /\
  forall g, create_geometry X schema_encoder (JObj members) = Ok g ->
            g_semantics g = None /\ g_semantics_objects g = None.
Proof.
  intros Hsem Hsurf Hval Hobjs.
  pose proof (read_semantics_empty_values X schema_encoder _ _ _ _
                Hsem Hsurf Hval Hobjs) as HA.
  split.
  - unfold create_geometry, encode_boundaries.
    rewrite HA, read_semantics_absent.
    rewrite !getitem_remove_other by reflexivity.
    reflexivity.
  - intros g Hg.
    apply create_geometry_ok in Hg
      as (lod & ty & sv & fobjs & gd & _ & _ & Hread & _ & _ & _ & _
          & _ & _ & _ & _ & _ & Hs).
    rewrite HA in Hread. injection Hread as <- <-.
    cbn [py_truthy] in Hs. destruct Hs as [H1 H2]. split; assumption.
Qed.

(** The surfaces of such a block are still visited: a record without a
    type ends the call, whatever the encoder does. *)
Lemma untyped_surface_raises (X : Externals)
  (schema_encoder : option (SchemaEncoder X)) (members : list (string * json)) :
  dict_get "type" members = None ->
  raises (create_semantic_object X schema_encoder (JObj members)).
Proof.
  intro H. unfold create_semantic_object. step. step.
  cbn. rewrite H. eexists. reflexivity.
Qed.

(** ** The schema option *)

Lemma split_on_plain (sep : ascii) (s : string) :
  has_char sep s = false -> split_on sep s = [s].
Proof.
  induction s as [|c s IH]; cbn; [reflexivity|].
  destruct (Ascii.eqb c sep); cbn; [discriminate|].
  intro H. rewrite (IH H). reflexivity.
Qed.

Lemma split_on_cut (sep : ascii) (a b : string) :
  has_char sep a = false ->
  split_on sep (String.append a (String sep b)) = a :: split_on sep b.
Proof.
  induction a as [|c a IH]; cbn.
  - intros _. rewrite Ascii.eqb_refl. reflexivity.
  - destruct (Ascii.eqb c sep); cbn; [discriminate|].
    intro H. rewrite (IH H). reflexivity.
Qed.

Lemma has_char_append (c : ascii) (a b : string) :
  has_char c (String.append a b) = has_char c a || has_char c b.
Proof.
  induction a as [|c' a IH]; cbn; [reflexivity|].
  rewrite IH, orb_assoc. reflexivity.
Qed.

Lemma type_name_plain (t : pytype) :
  has_char ":" (type_name t) = false /\ has_char "," (type_name t) = false.
Proof. destruct t; split; reflexivity. Qed.

Lemma type_map_type_name (t : pytype) :
  dict_get (type_name t) type_map = Some t.
Proof. destruct t; reflexivity. Qed.

Lemma plain_name_chars (name : string) :
  plain_name name = true ->
  has_char ":" name = false /\ has_char "," name = false.
Proof.
  unfold plain_name. intro H. apply andb_prop in H as [H1 H2].
  split; [destruct (has_char ":" name) | destruct (has_char "," name)];
    (reflexivity || discriminate).
Qed.

Lemma add_pretyped_pair (d : list (string * pytype)) (p : string * pytype) :
  plain_name (fst p) = true ->
  add_pretyped d (pair_text p) = Ok (dict_set (fst p) (snd p) d).
Proof.
  intro Hp. apply plain_name_chars in Hp as [Hcolon _].
  unfold add_pretyped, pair_text.
  rewrite (split_on_cut _ _ _ Hcolon).
  rewrite (split_on_plain _ _ (proj1 (type_name_plain (snd p)))).
  rewrite type_map_type_name. reflexivity.
Qed.

Lemma pair_text_no_comma (p : string * pytype) :
  plain_name (fst p) = true -> has_char "," (pair_text p) = false.
Proof.
  intro Hp. apply plain_name_chars in Hp as [_ Hcomma].
  unfold pair_text. rewrite has_char_append, Hcomma. cbn.
  exact (proj2 (type_name_plain (snd p))).
Qed.

Lemma split_schema_text (p : string * pytype) (pairs : list (string * pytype)) :
  Forall (fun q => plain_name (fst q) = true) (p :: pairs) ->
  split_on "," (schema_text (p :: pairs)) = map pair_text (p :: pairs).
Proof.
  revert p. induction pairs as [|q pairs IH]; intros p Hall.
  - inversion Hall; subst. cbn [schema_text map].
    apply split_on_plain. apply pair_text_no_comma. assumption.
  - inversion Hall as [|x l Hp Hrest]; subst.
    change (schema_text (p :: q :: pairs))
      with (String.append (pair_text p) (String "," (schema_text (q :: pairs)))).
    rewrite split_on_cut by (apply pair_text_no_comma; assumption).
    rewrite (IH q Hrest). reflexivity.
Qed.

Lemma schema_text_nonempty (p : string * pytype) (pairs : list (string * pytype)) :
  String.eqb (schema_text (p :: pairs)) "" = false.
Proof.
  assert (H : forall a b, String.eqb (String.append a (String ":" b)) "" = false).
  { intros a b. destruct a; reflexivity. }
  destruct pairs as [|q pairs]; cbn [schema_text]; unfold pair_text.
  - apply H.
  - destruct (fst p); reflexivity.
Qed.

Lemma for_fold_add_pretyped (pairs : list (string * pytype))
  (d : list (string * pytype)) :
  Forall (fun q => plain_name (fst q) = true) pairs ->
  for_fold add_pretyped (map pair_text pairs) d
  = Ok (fold_left (fun d p => dict_set (fst p) (snd p) d) pairs d).
Proof.
  revert d. induction pairs as [|p pairs IH]; intros d Hall; cbn; [reflexivity|].
  inversion Hall as [|x l Hp Hrest]; subst.
  rewrite (add_pretyped_pair _ _ Hp). cbn [bind]. apply IH. exact Hrest.
Qed.

Lemma parse_schema_text (pairs : list (string * pytype)) :
  Forall (fun q => plain_name (fst q) = true) pairs ->
  parse_schema (Some (schema_text pairs)) = Ok (pretyped_of pairs).
Proof.
  intro Hall. destruct pairs as [|p pairs]; [reflexivity|].
  unfold parse_schema. rewrite schema_text_nonempty. cbn [negb].
  rewrite (split_schema_text _ _ Hall).
  apply for_fold_add_pretyped. exact Hall.
Qed.

Lemma dict_get_set {V : Type} (k k' : string) (v : V) (d : list (string * V)) :
  dict_get k (dict_set k' v d)
  = if String.eqb k k' then Some v else dict_get k d.
Proof.
  induction d as [|[k0 v0] d IH]; cbn.
  - reflexivity.
  - destruct (String.eqb k' k0) eqn:E0; cbn.
    + apply String.eqb_eq in E0. subst k0.
      destruct (String.eqb k k'); reflexivity.
    + destruct (String.eqb k k0) eqn:E1.
      * apply String.eqb_eq in E1. subst k0.
        rewrite String.eqb_sym, E0. reflexivity.
      * exact IH.
Qed.

(** The type a name ends with is that of the last pair that names it. *)
Lemma pretyped_last_wins (pairs : list (string * pytype))
  (d : list (string * pytype)) (name : string) :
  dict_get name (fold_left (fun d p => dict_set (fst p) (snd p) d) pairs d)
  = match dict_get name (rev pairs) with
    | Some t => Some t
    | None => dict_get name d
    end.
Proof.
  revert d. induction pairs as [|[n t] pairs IH]; intro d; cbn; [reflexivity|].
  rewrite IH.
  assert (Happ : forall (l : list (string * pytype)) k v,
             dict_get name (l ++ [(k, v)])
             = match dict_get name l with
               | Some t' => Some t'
               | None => if String.eqb name k then Some v else None
               end).
  { intros l k v. induction l as [|[k0 v0] l IHl]; cbn; [reflexivity|].
    destruct (String.eqb name k0); [reflexivity | exact IHl]. }
  rewrite Happ. destruct (dict_get name (rev pairs)); [reflexivity|].
  rewrite dict_get_set. destruct (String.eqb name n); reflexivity.
Qed.

(** ** What the scan keeps *)

Lemma for_fold_invariant {A S : Type} (body : S -> A -> result S)
  (I : S -> Prop) :
  (forall s x s', I s -> body s x = Ok s' -> I s') ->
  forall l s s', I s -> for_fold body l s = Ok s' -> I s'.
Proof.
  intros Hbody l. induction l as [|x l IH]; intros s s' Hs H; cbn in H.
  - injection H as <-. exact Hs.
  - apply bind_ok in H as [s1 [H1 H]].
    exact (IH _ _ (Hbody _ _ _ Hs H1) H).
Qed.

Section ScanInvariant.

Variable X : Externals.
Variable P : SchemaEncoder X -> Prop.
Hypothesis add_keeps :
  forall enc attributes excluded enc',
    P enc -> add X enc attributes excluded = Ok enc' -> P enc'.

Lemma scan_geometry_keeps (enc enc' : SchemaEncoder X) (geom : json) :
  P enc -> scan_geometry X enc geom = Ok enc' -> P enc'.
Proof.
  intros HP H. unfold scan_geometry in H.
  apply bind_ok in H as [has [_ H]]. destruct has.
  - apply bind_ok in H as [semantics [_ H]].
    apply bind_ok in H as [surfaces_ [_ H]].
    apply bind_ok in H as [surface_list [_ H]].
    revert H. apply for_fold_invariant; [|exact HP].
    intros s x s' Hs Hadd. exact (add_keeps _ _ _ _ Hs Hadd).
  - injection H as <-. exact HP.
Qed.

Lemma scan_object_keeps (flag : bool) (state state' : extent * SchemaEncoder X)
  (cj_object : json) :
  P (snd state) -> scan_object X flag state cj_object = Ok state' ->
  P (snd state').
Proof.
  destruct state as [global_extent enc]. cbn [snd]. intros HP H.
  unfold scan_object in H.
  apply bind_ok in H as [ext' [_ H]].
  apply bind_ok in H as [has_attributes [_ H]].
  apply bind_ok in H as [enc1 [H1 H]].
  apply bind_ok in H as [has_geometry [_ H]].
  apply bind_ok in H as [enc2 [H2 H]].
  injection H as <-. cbn [snd].
  assert (HP1 : P enc1).
  { destruct has_attributes.
    - apply bind_ok in H1 as [attributes [_ H1]].
      exact (add_keeps _ _ _ _ HP H1).
    - injection H1 as <-. exact HP. }
  destruct has_geometry.
  - apply bind_ok in H2 as [geoms [_ H2]].
    apply bind_ok in H2 as [geom_list [_ H2]].
    revert H2. apply for_fold_invariant; [|exact HP1].
    intros s x s'. apply scan_geometry_keeps.
  - injection H2 as <-. exact HP1.
Qed.

Lemma scan_feature_keeps (flag : bool) (state state' : extent * SchemaEncoder X)
  (cj_feature : json) :
  P (snd state) -> scan_feature X flag state cj_feature = Ok state' ->
  P (snd state').
Proof.
  intros HP H. unfold scan_feature in H.
  apply bind_ok in H as [city_objects [_ H]].
  apply bind_ok in H as [objects [_ H]].
  revert H.
  apply (for_fold_invariant _ (fun st => P (snd st))); [|exact HP].
  intros s x s'. apply scan_object_keeps.
Qed.

(** A property of the schema encoder that every [add] keeps holds after
    the scan if it held before. *)
Lemma scan_keeps (uninitialized : extent) (cj_metadata : json)
  (cj_features : list json) (enc enc' : SchemaEncoder X)
  (global_extent : extent) :
  P enc ->
  scan X uninitialized cj_metadata cj_features enc = Ok (global_extent, enc') ->
  P enc'.
Proof.
  intros HP H. unfold scan in H.
  apply bind_ok in H as [[seed flag] [_ H]]. cbn beta iota zeta in H.
  change (P (snd (global_extent, enc'))).
  revert H.
  apply (for_fold_invariant _ (fun st => P (snd st))); [|exact HP].
  intros s x s'. apply scan_feature_keeps.
Qed.

End ScanInvariant.

(** With the flag off, the scan leaves the extent as it was seeded. *)
Lemma scan_object_skips_extent (X : Externals)
  (state state' : extent * SchemaEncoder X) (cj_object : json) :
  scan_object X false state cj_object = Ok state' -> fst state' = fst state.
Proof.
  destruct state as [global_extent enc]. intro H. unfold scan_object in H.
  cbn [bind] in H.
  apply bind_ok in H as [has_attributes [_ H]].
  apply bind_ok in H as [enc1 [_ H]].
  apply bind_ok in H as [has_geometry [_ H]].
  apply bind_ok in H as [enc2 [_ H]].
  injection H as <-. reflexivity.
Qed.

Lemma scan_feature_skips_extent (X : Externals)
  (state state' : extent * SchemaEncoder X) (cj_feature : json) :
  scan_feature X false state cj_feature = Ok state' -> fst state' = fst state.
Proof.
  intro H. unfold scan_feature in H.
  apply bind_ok in H as [city_objects [_ H]].
  apply bind_ok in H as [objects [_ H]].
  revert H.
  apply (for_fold_invariant _ (fun st => fst st = fst state)); [|reflexivity].
  intros s x s' Hs Hx. rewrite <- Hs. exact (scan_object_skips_extent _ _ _ _ Hx).
Qed.

(** ** The extent *)

Lemma seed_extent_declared (X : Externals) (uninitialized : extent)
  (cj_metadata metadata ge : json) :
  py_getitem cj_metadata "metadata" = Ok metadata ->
  py_getitem metadata "geographicalExtent" = Ok ge ->
  seed_extent X uninitialized cj_metadata
  = bind (np_extent_of X ge) (fun declared => Ok (declared, false)).
Proof.
  intros Hm Hge. unfold seed_extent.
  rewrite (getitem_contains _ _ _ Hm). cbn [bind]. rewrite Hm. cbn [bind].
  rewrite (getitem_contains _ _ _ Hge). cbn [bind]. rewrite Hge. reflexivity.
Qed.

Lemma seed_extent_undeclared (X : Externals) (uninitialized : extent)
  (cj_metadata metadata : json) :
  py_getitem cj_metadata "metadata" = Ok metadata ->
  py_contains "geographicalExtent" metadata = Ok false ->
  seed_extent X uninitialized cj_metadata
  = Ok ((np_fill infinity, np_fill neg_infinity), true).
Proof.
  intros Hm Hge. unfold seed_extent.
  rewrite (getitem_contains _ _ _ Hm). cbn [bind]. rewrite Hm. cbn [bind].
  rewrite Hge. reflexivity.
Qed.

(** Without a [metadata] member nothing is stored in the fresh array. *)
Lemma seed_extent_no_metadata (X : Externals) (uninitialized : extent)
  (cj_metadata : json) :
  py_contains "metadata" cj_metadata = Ok false ->
  seed_extent X uninitialized cj_metadata = Ok (uninitialized, true).
Proof. intro H. unfold seed_extent. rewrite H. reflexivity. Qed.

(** X2.  A declared extent is the extent of the header: no object is
    folded into it. *)
Lemma declared_extent_is_kept (X : Externals) (uninitialized : extent)
  (cj_metadata metadata ge : json) (cj_features : list json)
  (enc enc' : SchemaEncoder X) (global_extent : extent) :
  py_getitem cj_metadata "metadata" = Ok metadata ->
  py_getitem metadata "geographicalExtent" = Ok ge ->
  scan X uninitialized cj_metadata cj_features enc = Ok (global_extent, enc') ->
  np_extent_of X ge = Ok global_extent.
Proof.
  intros Hm Hge H. unfold scan in H.
  rewrite (seed_extent_declared X _ _ _ _ Hm Hge) in H.
  apply bind_ok in H as [[seed flag] [Hseed H]]. cbn beta iota zeta in H.
  apply bind_ok in Hseed as [declared [Hd Hseed]]. injection Hseed as <- <-.
  rewrite Hd. f_equal.
  change (declared = fst (global_extent, enc')).
  symmetry. revert H.
  apply (for_fold_invariant _ (fun st => fst st = declared)); [|reflexivity].
  intros s x s' Hs Hx. rewrite <- Hs. exact (scan_feature_skips_extent _ _ _ _ Hx).
Qed.

Lemma for_fold_app {A S : Type} (body : S -> A -> result S) (l1 l2 : list A)
  (s : S) :
  for_fold body (l1 ++ l2) s = bind (for_fold body l1 s) (for_fold body l2).
Proof.
  revert s. induction l1 as [|x l1 IH]; intro s; cbn; [reflexivity|].
  destruct (body s x) as [s'|e]; cbn; [apply IH | reflexivity].
Qed.

Lemma scan_objects_fold_extents (X : Externals) (objects : list json)
  (state state' : extent * SchemaEncoder X) :
  for_fold (scan_object X true) objects state = Ok state' ->
  for_fold (fold_extent X) objects (fst state) = Ok (fst state').
Proof.
  revert state. induction objects as [|o objects IH]; intros state H; cbn in H.
  - injection H as <-. reflexivity.
  - apply bind_ok in H as [state1 [H1 H]].
    cbn [for_fold]. apply IH in H.
    destruct state as [global_extent enc]. unfold scan_object in H1.
    apply bind_ok in H1 as [ext' [Hext H1]].
    apply bind_ok in H1 as [has_attributes [_ H1]].
    apply bind_ok in H1 as [enc1 [_ H1]].
    apply bind_ok in H1 as [has_geometry [_ H1]].
    apply bind_ok in H1 as [enc2 [_ H1]].
    injection H1 as <-. cbn [fst] in *. rewrite Hext. exact H.
Qed.

(** When the extent is taken from the features, it is the fold of
    [np.minimum] and [np.maximum] over the declared extents of all the
    objects, in order, from the seed. *)
Lemma scan_folds_extents (X : Externals) (uninitialized : extent)
  (cj_metadata : json) (cj_features : list json) (enc enc' : SchemaEncoder X)
  (seed global_extent : extent) :
  seed_extent X uninitialized cj_metadata = Ok (seed, true) ->
  scan X uninitialized cj_metadata cj_features enc = Ok (global_extent, enc') ->
  exists objects,
    dataset_objects cj_features = Ok objects /\
    for_fold (fold_extent X) objects seed = Ok global_extent.
Proof.
  intros Hseed H. unfold scan in H. rewrite Hseed in H. cbn [bind] in H.
  change seed with (fst (seed, enc)).
  change global_extent with (fst (global_extent, enc')).
  revert H. generalize (seed, enc) as state. generalize (global_extent, enc') as state'.
  unfold dataset_objects.
  induction cj_features as [|f feats IH]; intros state' state H; cbn in H.
  - injection H as <-. exists []. split; reflexivity.
  - apply bind_ok in H as [state1 [H1 H]].
    apply IH in H as [objects [Hobjs Hfold]].
    apply bind_ok in Hobjs as [per_feature [Hper Hobjs]]. injection Hobjs as <-.
    unfold scan_feature in H1.
    apply bind_ok in H1 as [city_objects [Hco H1]].
    apply bind_ok in H1 as [objs [Hvals H1]].
    apply scan_objects_fold_extents in H1.
    exists (objs ++ List.concat per_feature). split.
    + cbn [for_each]. unfold feature_objects at 1.
      rewrite Hco. cbn [bind]. rewrite Hvals. cbn [bind].
      rewrite Hper. reflexivity.
    + rewrite for_fold_app, H1. exact Hfold.
Qed.

(** ** The schema engine of the specification *)

Lemma dict_get_app_found {V : Type} (k : string) (l r : list (string * V))
  (v : V) :
  dict_get k l = Some v -> dict_get k (l ++ r) = Some v.
Proof.
  induction l as [|[k0 v0] l IH]; cbn; [discriminate|].
  destruct (String.eqb k k0); [trivial | exact IH].
Qed.

Lemma observe_key_keeps (excluded : list string) (enc : SpecModel.schema_encoder)
  (kv : string * json) (k : string) (t : SpecModel.scalar_type) :
  dict_get k (SpecModel.schema enc) = Some t ->
  dict_get k (SpecModel.schema (SpecModel.observe_key excluded enc kv)) = Some t.
Proof.
  intro H. destruct kv as [k' v]. unfold SpecModel.observe_key.
  destruct (mem_string k' excluded); [exact H|].
  destruct (dict_has k' (SpecModel.schema enc)); [exact H|].
  destruct (SpecModel.runtime_kind v); [|exact H].
  cbn. apply dict_get_app_found. exact H.
Qed.

(** A column keeps the type it has, whatever is observed later. *)
Lemma observe_keeps (enc enc' : SpecModel.schema_encoder) (attributes : json)
  (excluded : list string) (k : string) (t : SpecModel.scalar_type) :
  dict_get k (SpecModel.schema enc) = Some t ->
  SpecModel.observe enc attributes excluded = Ok enc' ->
  dict_get k (SpecModel.schema enc') = Some t.
Proof.
  intros H Hobs. unfold SpecModel.observe in Hobs.
  apply bind_ok in Hobs as [items [_ Hobs]]. injection Hobs as <-.
  revert enc H. induction items as [|kv items IH]; intros enc H; cbn.
  - exact H.
  - apply IH. apply observe_key_keeps. exact H.
Qed.

Lemma init_schema (pretyped : list (string * pytype)) (wn : bool)
  (k : string) (t : pytype) :
  dict_get k pretyped = Some t ->
  dict_get k (SpecModel.schema (SpecModel.init pretyped wn))
  = Some (SpecModel.scalar_of_pytype t).
Proof.
  cbn. induction pretyped as [|[k0 t0] d IH]; cbn; [discriminate|].
  destruct (String.eqb k k0).
  - intro H. injection H as ->. reflexivity.
  - exact IH.
Qed.

(** C8, as amended.  For every list of pairs of a name free of ':' and ','
    and a type among str, int, float, bool and json, the [--schema] option
    that lists them is parsed; each name is seeded with the type (text,
    integer, float, boolean, structured) of the last pair that names it, and
    the scan keeps that type whatever the data holds. *)
Theorem schema_option_seeds_types (pairs : list (string * pytype)) :
  Forall (fun p => plain_name (fst p) = true) pairs ->
  parse_schema (Some (schema_text pairs)) = Ok (pretyped_of pairs) /\
  forall name t,
    dict_get name (rev pairs) = Some t ->
    dict_get name (pretyped_of pairs) = Some t /\
    forall write_nulls uninitialized cj_metadata cj_features global_extent enc,
      scan SpecModel.externals uninitialized cj_metadata cj_features
        (AttributeSchemaEncoder SpecModel.externals (pretyped_of pairs)
           write_nulls)
      = Ok (global_extent, enc) ->
      dict_get name (SpecModel.schema enc)
      = Some (SpecModel.scalar_of_pytype t).
Proof.
  intro Hall. split; [exact (parse_schema_text _ Hall)|].
  intros name t Hlast.
  assert (Hseed : dict_get name (pretyped_of pairs) = Some t).
  { unfold pretyped_of. rewrite pretyped_last_wins, Hlast. reflexivity. }
  split; [exact Hseed|].
  intros write_nulls uninitialized cj_metadata cj_features global_extent enc H.
  revert H.
  apply (scan_keeps SpecModel.externals
           (fun e => dict_get name (SpecModel.schema e)
                     = Some (SpecModel.scalar_of_pytype t))).
  - intros e attributes excluded e' He Hadd.
    exact (observe_keeps _ _ _ _ _ _ He Hadd).
  - apply init_schema. exact Hseed.
Qed.

Lemma schema_option_seeds_types_witness :
  parse_schema (Some "height:float,name:str,height:int")
  = Ok [("height", Tint); ("name", Tstr)].
Proof.
  exact (proj1 (schema_option_seeds_types
                  [("height", Tfloat); ("name", Tstr); ("height", Tint)]
                  ltac:(repeat constructor))).
Defined.

(** C8, as stated: the type names of the specification, float apart, are
    not names of [type_map]. *)
Lemma schema_option_rejects_spec_names :
  parse_schema (Some "name:text") = Raise (KeyError "text") /\
  parse_schema (Some "count:integer") = Raise (KeyError "integer") /\
  parse_schema (Some "flag:boolean") = Raise (KeyError "boolean") /\
  parse_schema (Some "extra:structured") = Raise (KeyError "structured") /\
  parse_schema (Some "height:float") = Ok [("height", Tfloat)].
Proof. repeat split; reflexivity. Qed.

(** ** The claims at the sample inputs *)

Import SpecModel.

(** C1.  The scan excludes the keys parent and children of a semantic
    surface, the encoding excludes only type: on a feature whose surfaces
    refer to one another the frozen schema has the column name alone, and
    the encoding of the first surface meets the key children, which the
    schema does not have. *)
Theorem surface_relations_missing_from_schema :
  scan externals Sample.zeros Sample.metadata_full [Sample.shop] (init [] true)
  = Ok (((0, 0, 0), (50, 50, 50))%float,
        {| schema := [("name", Text)]; write_nulls := true |}) /\
  create_feature externals Sample.shop
    (Some {| schema := [("name", Text)]; write_nulls := true |})
  = Raise (KeyError "children") /\
  convert_cjseq2cb externals Sample.zeros Sample.metadata_full [Sample.shop]
    [] true
  = (None, Raise (KeyError "children")).
Proof. repeat split; vm_compute; reflexivity. Qed.

(** The keys the two passes keep of one surface differ by parent and
    children only. *)
Lemma surface_keys_of_the_passes (keys : list string) :
  filter (fun k => negb (mem_string k ["type"; "parent"; "children"])) keys
  = filter (fun k => negb (mem_string k ["parent"; "children"]))
      (filter (fun k => negb (mem_string k ["type"])) keys).
Proof.
  set (p := fun k => negb (mem_string k ["type"; "parent"; "children"])).
  set (q := fun k => negb (mem_string k ["parent"; "children"])).
  set (r := fun k => negb (mem_string k ["type"])).
  assert (Hp : forall k, p k = r k && q k).
  { intro k. unfold p, q, r. cbn.
    destruct (String.eqb k "type"); reflexivity. }
  induction keys as [|k keys IH]; [reflexivity|].
  cbn [filter]. rewrite Hp, IH.
  destruct (r k); [|reflexivity].
  cbn [andb filter]. reflexivity.
Qed.

(** C2.  On a first line without a metadata member the extent of the header
    is folded from whatever the fresh array holds, not from plus and minus
    infinity: from zeros, the object extent (5,5,5)-(10,10,10) gives
    (0,0,0)-(10,10,10).  With an empty metadata member the same feature
    gives (5,5,5)-(10,10,10). *)
Theorem extent_seed_without_metadata :
  (forall uninitialized,
     scan externals uninitialized Sample.metadata_absent [Sample.shed]
       (init [] true)
     = Ok ((np_minimum (fst uninitialized) (5, 5, 5)%float,
            np_maximum (snd uninitialized) (10, 10, 10)%float),
           {| schema := [("name", Text)]; write_nulls := true |})) /\
  scan externals Sample.zeros Sample.metadata_absent [Sample.shed]
    (init [] true)
  = Ok (((0, 0, 0), (10, 10, 10))%float,
        {| schema := [("name", Text)]; write_nulls := true |}) /\
  scan externals Sample.zeros Sample.metadata_empty [Sample.shed]
    (init [] true)
  = Ok (((5, 5, 5), (10, 10, 10))%float,
        {| schema := [("name", Text)]; write_nulls := true |}).
Proof.
  split; [|split; vm_compute; reflexivity].
  intros [lo hi]. reflexivity.
Qed.

(** A run on a well-formed input. *)
Example convert_house_and_shed :
  convert_cjseq2cb externals Sample.zeros Sample.metadata_full
    [Sample.house; Sample.shed] [] true
  = (Some ([x46; x43; x42; x00; x46; x43; x42; x04]
           ++ [x08; x00; x00; x00] ++ le_bytes 8 2
           ++ [x05; x00; x00; x00] ++ encode_ascii "house"
           ++ [x04; x00; x00; x00] ++ encode_ascii "shed"),
     Ok tt).
Proof. vm_compute. reflexivity. Qed.

(** A reference system with fewer than three segments ends the run after
    the magic bytes were written. *)
Example convert_urn_reference_system :
  convert_cjseq2cb externals Sample.zeros
    (JObj [Sample.transform;
           ("metadata",
            JObj [("referenceSystem", JStr "urn:ogc:def:crs:EPSG::7415")])])
    [Sample.shed] [] true
  = (Some [x46; x43; x42; x00; x46; x43; x42; x04], Raise ValueError).
Proof. vm_compute. reflexivity. Qed.

Lemma level_arrays_added_iff_nonempty_witness :
  exists g,
    create_geometry externals (Some Sample.schema_encoder)
      (Sample.geometry [Sample.roof_and_wall]) = Ok g /\
    exists semantic_values_ f_semantics_objects gd,
      read_semantics externals (Some Sample.schema_encoder)
        (Sample.geometry [Sample.roof_and_wall])
      = Ok (semantic_values_, f_semantics_objects) /\
      encode_boundaries externals (Sample.geometry [Sample.roof_and_wall])
        semantic_values_ = Ok gd /\
      level_field (solids gd) (g_solids g) /\
      level_field (shells gd) (g_shells g) /\
      level_field (surfaces gd) (g_surfaces g) /\
      level_field (strings gd) (g_strings g).
Proof.
  eexists. split.
  - vm_compute. reflexivity.
  - apply (level_arrays_added_iff_nonempty externals).
    vm_compute. reflexivity.
Defined.

Example house_geometry_levels :
  exists g,
    create_geometry externals (Some Sample.schema_encoder)
      (Sample.geometry [Sample.roof_and_wall]) = Ok g /\
    g_solids g = None /\ g_shells g = Some [4] /\
    g_surfaces g = Some [1; 1; 1; 1] /\ g_strings g = Some [3; 3; 3; 3] /\
    g_semantics g = Some [0; 1; 4294967295; 1].
Proof. eexists. split; [vm_compute; reflexivity|]. repeat split. Qed.

Lemma semantic_entries_serialized_witness :
  exists g,
    create_geometry externals (Some Sample.schema_encoder)
      (Sample.geometry [Sample.roof_and_wall]) = Ok g /\
    exists semantic_values_ f_semantics_objects gd,
      read_semantics externals (Some Sample.schema_encoder)
        (Sample.geometry [Sample.roof_and_wall])
      = Ok (semantic_values_, f_semantics_objects) /\
      encode_boundaries externals (Sample.geometry [Sample.roof_and_wall])
        semantic_values_ = Ok gd /\
      (py_truthy semantic_values_ = true -> g_semantics g <> None) /\
      forall sems, g_semantics g = Some sems ->
        List.length sems = List.length (semantic_values gd) /\
        forall i,
          (nth_error (semantic_values gd) i = Some None ->
           nth_error sems i = Some 4294967295) /\
          (forall v, nth_error (semantic_values gd) i = Some (Some v) ->
                     nth_error sems i = Some v /\ 0 <= v <= 4294967295).
Proof.
  eexists. split.
  - vm_compute. reflexivity.
  - apply (semantic_entries_serialized externals).
    vm_compute. reflexivity.
Defined.

Lemma incomplete_semantics_aborts_witness :
  exists e,
    convert_cjseq2cb externals Sample.zeros Sample.metadata_full
      [Sample.house; Sample.ruin] [] true = (None, Raise e).
Proof.
  apply (incomplete_semantics_aborts externals Sample.zeros
           Sample.metadata_full [Sample.house; Sample.ruin] [] true
           Sample.ruin
           [("ruin", Sample.building (JObj [("name", JStr "D")])
                       (Sample.geometry [Sample.surfaces_only]))]
           "ruin"
           (Sample.building (JObj [("name", JStr "D")])
              (Sample.geometry [Sample.surfaces_only]))
           [Sample.geometry [Sample.surfaces_only]]
           (Sample.geometry [Sample.surfaces_only])
           (snd Sample.surfaces_only)).
  - right. left. reflexivity.
  - reflexivity.
  - left. reflexivity.
  - reflexivity.
  - left. reflexivity.
  - reflexivity.
  - right. reflexivity.
Defined.

Example convert_ruin :
  convert_cjseq2cb externals Sample.zeros Sample.metadata_full
    [Sample.house; Sample.ruin] [] true
  = (None, Raise (Exception "Semantics must have surfaces and values")).
Proof. vm_compute. reflexivity. Qed.

Lemma header_reference_system_witness :
  create_header_table externals Sample.metadata_empty Sample.zeros 2
    (Some Sample.schema_encoder)
  = Ok ({| h_features_count := 2;
           h_transform := {| t_scale := (JInt 1, JInt 1, JInt 1);
                             t_translate := (JInt 0, JInt 0, JInt 0) |};
           h_reference_system := None;
           h_columns := [{| col_name := "name"; col_type := 0 |};
                         {| col_name := "slope"; col_type := 2 |}];
           h_geographical_extent :=
             {| ge_min := fst Sample.zeros; ge_max := snd Sample.zeros |} |},
        ["No CRS found in input metadata"]) /\
  create_header_table externals Sample.metadata_full Sample.zeros 2
    (Some Sample.schema_encoder)
  = Ok ({| h_features_count := 2;
           h_transform := {| t_scale := (JInt 1, JInt 1, JInt 1);
                             t_translate := (JInt 0, JInt 0, JInt 0) |};
           h_reference_system :=
             Some {| rs_authority := "EPSG"; rs_version := 0;
                     rs_code := 7415 |};
           h_columns := [{| col_name := "name"; col_type := 0 |};
                         {| col_name := "slope"; col_type := 2 |}];
           h_geographical_extent :=
             {| ge_min := fst Sample.zeros; ge_max := snd Sample.zeros |} |},
        []).
Proof.
  split.
  - refine (proj1 (proj1 (header_reference_system externals
                            Sample.metadata_empty Sample.zeros 2
                            (Some Sample.schema_encoder) _ _
                            eq_refl eq_refl eq_refl eq_refl)
                     _)).
    right. exists (JObj []). split; reflexivity.
  - refine (proj1 (proj2 (header_reference_system externals
                            Sample.metadata_full Sample.zeros 2
                            (Some Sample.schema_encoder) _ _
                            eq_refl eq_refl eq_refl eq_refl)
                     _ "https://www.opengis.net/def/crs/EPSG/0/7415"
                     "EPSG" "0" "7415" 0 7415
                     eq_refl eq_refl eq_refl eq_refl eq_refl eq_refl eq_refl)).
Defined.

(** The claim as the specification has it fails on metadata that name a
    reference system in the URN form and on metadata without a transform:
    no header is built. *)
Lemma header_reference_system_needs_segments :
  create_header externals
    (JObj [Sample.transform;
           ("metadata",
            JObj [("referenceSystem", JStr "urn:ogc:def:crs:EPSG::7415")])])
    Sample.zeros 2 (Some Sample.schema_encoder)
  = Raise ValueError /\
  create_header externals (JObj [("type", JStr "CityJSON")])
    Sample.zeros 2 (Some Sample.schema_encoder)
  = Raise (KeyError "transform").
Proof. split; vm_compute; reflexivity. Qed.

Lemma empty_values_as_no_semantics_witness :
  create_geometry externals (Some Sample.schema_encoder)
    (Sample.geometry [Sample.typed_surface])
  = create_geometry externals (Some Sample.schema_encoder)
      (Sample.geometry []) /\
  forall g,
    create_geometry externals (Some Sample.schema_encoder)
      (Sample.geometry [Sample.typed_surface]) = Ok g ->
    g_semantics g = None /\ g_semantics_objects g = None.
Proof.
  exact (empty_values_as_no_semantics externals (Some Sample.schema_encoder)
           [("type", JStr "Solid"); ("lod", JStr "2.2");
            ("boundaries", Sample.tetrahedron); Sample.typed_surface]
           (snd Sample.typed_surface)
           [JObj [("type", JStr "RoofSurface")]]
           [{| so_type := Some 0; so_attributes := [] |}]
           eq_refl eq_refl eq_refl eq_refl).
Defined.

(** C9, as stated: with an empty values array the surfaces are still built
    into semantic objects, and a record that cannot be built ends the call
    that the same geometry without the block passes. *)
Lemma empty_values_untyped_surface_raises :
  create_geometry externals (Some Sample.schema_encoder)
    (Sample.geometry [Sample.untyped_surface])
  = Raise (KeyError "type") /\
  is_ok (create_geometry externals (Some Sample.schema_encoder)
           (Sample.geometry [])) = true.
Proof. split; vm_compute; reflexivity. Qed.

(** So does a record whose type is not a member of the enumeration: the
    builder does not take [None] for the type of the semantic object. *)
Example empty_values_custom_surface_type_error :
  create_geometry externals (Some Sample.schema_encoder)
    (Sample.geometry
       [("semantics",
         JObj [("surfaces", JArr [JObj [("type", JStr "+CustomSurface")]]);
               ("values", JArr [])])])
  = Raise TypeError.
Proof. vm_compute. reflexivity. Qed.

Lemma attributes_without_encoder_fail_witness :
  raises (create_feature externals Sample.shed None).
Proof.
  apply (attributes_without_encoder_fail externals Sample.shed
           [("shed", Sample.building (JObj [("name", JStr "B")])
                       (Sample.geometry []))]
           "shed"
           (Sample.building (JObj [("name", JStr "B")]) (Sample.geometry []))).
  - reflexivity.
  - left. reflexivity.
  - reflexivity.
Defined.

Example shed_without_encoder :
  create_feature externals Sample.shed None
  = Raise (UnboundLocalError "f_attributes_offset").
Proof. vm_compute. reflexivity. Qed.

(** ** Reading the container back *)

Lemma Z_of_byte_of_Z (z : Z) : Z_of_byte (byte_of_Z z) = z mod 256.
Proof.
  unfold Z_of_byte, byte_of_Z.
  assert (Hr : 0 <= z mod 256 < 256) by (apply Z.mod_pos_bound; lia).
  destruct (Byte.of_N (Z.to_N (z mod 256))) as [b|] eqn:E.
  - apply Byte.to_of_N in E. rewrite E. apply Z2N.id. lia.
  - apply Byte.of_N_None_iff in E. lia.
Qed.

Lemma le_bytes_length (width : nat) (n : Z) :
  List.length (le_bytes width n) = width.
Proof.
  revert n. induction width as [|w IH]; intro n; cbn; [reflexivity|].
  rewrite IH. reflexivity.
Qed.

Lemma le_value_le_bytes (width : nat) (n : Z) :
  0 <= n < 256 ^ Z.of_nat width -> le_value (le_bytes width n) = n.
Proof.
  revert n. induction width as [|w IH]; intros n Hn.
  - cbn in *. lia.
  - cbn [le_bytes le_value]. rewrite Z_of_byte_of_Z.
    rewrite Nat2Z.inj_succ, Z.pow_succ_r in Hn by lia.
    rewrite IH.
    + symmetry. rewrite Z.add_comm. apply Z.div_mod. lia.
    + split.
      * apply Z.div_pos; lia.
      * apply Z.div_lt_upper_bound; lia.
Qed.

Lemma firstn_app_len {A : Type} (a b : list A) (k : nat) :
  List.length a = k -> firstn k (a ++ b) = a.
Proof.
  intros <-. rewrite firstn_app, Nat.sub_diag, firstn_O, app_nil_r.
  apply firstn_all.
Qed.

Lemma skipn_app_len {A : Type} (a b : list A) (k : nat) :
  List.length a = k -> skipn k (a ++ b) = b.
Proof.
  intros <-. rewrite skipn_app, Nat.sub_diag, skipn_O, skipn_all.
  reflexivity.
Qed.

Lemma read_frame_frame (table rest : list byte) :
  fits_frame table ->
  read_frame (frame table ++ rest) = Some (table, rest).
Proof.
  intro Hfit. unfold read_frame, frame.
  rewrite <- app_assoc.
  pose proof (le_bytes_length 4 (Z.of_nat (List.length table))) as Hlen.
  rewrite (firstn_app_len _ (table ++ rest) 4 Hlen).
  rewrite (skipn_app_len _ (table ++ rest) 4 Hlen).
  rewrite le_value_le_bytes
    by (unfold fits_frame in Hfit; change (256 ^ Z.of_nat 4) with 4294967296; lia).
  rewrite Nat2Z.id.
  rewrite (firstn_app_len table rest _ eq_refl).
  rewrite (skipn_app_len table rest _ eq_refl).
  rewrite !length_app, Hlen.
  replace (4 <=? 4 + (List.length table + List.length rest))%nat with true
    by (symmetry; apply Nat.leb_le; lia).
  replace (List.length table <=? List.length table + List.length rest)%nat
    with true by (symmetry; apply Nat.leb_le; lia).
  reflexivity.
Qed.

Lemma frame_length (table : list byte) :
  List.length (frame table) = (4 + List.length table)%nat.
Proof. unfold frame. rewrite length_app, le_bytes_length. reflexivity. Qed.

Lemma read_frames_frames (tables : list (list byte)) (fuel : nat) :
  Forall fits_frame tables ->
  (List.length (List.concat (map frame tables)) <= fuel)%nat ->
  read_frames fuel (List.concat (map frame tables)) = Some tables.
Proof.
  revert fuel. induction tables as [|t tables IH]; intros fuel Hall Hfuel.
  - destruct fuel; reflexivity.
  - inversion Hall as [|x l Hfit Hrest]; subst.
    cbn [map List.concat] in *.
    rewrite length_app, frame_length in Hfuel.
    destruct fuel as [|fuel]; [lia|].
    destruct (frame t ++ List.concat (map frame tables)) as [|b bs] eqn:E.
    + apply (f_equal (@List.length byte)) in E.
      rewrite length_app, frame_length in E. cbn in E. lia.
    + cbn [read_frames]. rewrite <- E.
      rewrite (read_frame_frame _ _ Hfit).
      rewrite (IH fuel Hrest) by lia. reflexivity.
Qed.

(** X1.  The container the converter writes is read back into its parts: the
    two version bytes, the header table and the feature tables in order. *)
Theorem read_container_layout (major minor : Z) (header : list byte)
  (features : list (list byte)) :
  fits_frame header -> Forall fits_frame features ->
  read_container (container_layout major minor header features)
  = Some (byte_of_Z major, byte_of_Z minor, header, features).
Proof.
  intros Hh Hf. unfold container_layout. cbn [app read_container].
  cbn [combine forallb fst snd Byte.eqb]. 
  replace (forallb (fun p => Byte.eqb (fst p) (snd p))
             (combine [x46; x43; x42; x46; x43; x42]
                      [x46; x43; x42; x46; x43; x42])) with true
    by reflexivity.
  rewrite (read_frame_frame _ _ Hh).
  rewrite (read_frames_frames _ _ Hf) by lia. reflexivity.
Qed.

Lemma read_container_layout_witness :
  read_container
    (container_layout 0 4 (le_bytes 8 2)
       [encode_ascii "house"; encode_ascii "shed"])
  = Some (x00, x04, le_bytes 8 2, [encode_ascii "house"; encode_ascii "shed"]).
Proof.
  apply (read_container_layout 0 4 (le_bytes 8 2)
           [encode_ascii "house"; encode_ascii "shed"]).
  - unfold fits_frame. cbn. lia.
  - repeat constructor; unfold fits_frame; cbn; lia.
Defined.

(** ** More of the converter *)



Lemma declared_extent_is_kept_witness :
  np_extent_of SpecModel.externals
    (JArr [JInt 0; JInt 0; JInt 0; JInt 50; JInt 50; JInt 50])
  = Ok ((0, 0, 0), (50, 50, 50))%float.
Proof.
  apply (declared_extent_is_kept SpecModel.externals Sample.zeros
           Sample.metadata_full
           (JObj [("referenceSystem",
                   JStr "https://www.opengis.net/def/crs/EPSG/0/7415");
                  ("geographicalExtent",
                   JArr [JInt 0; JInt 0; JInt 0; JInt 50; JInt 50; JInt 50])])
           _ [Sample.house; Sample.shed]
           (SpecModel.init [] true) Sample.schema_encoder).
  - reflexivity.
  - reflexivity.
  - vm_compute. reflexivity.
Defined.

(** X4.  A geometry of type GeometryInstance ends the conversion of its object
    with the exception the converter raises itself. *)
Theorem geometry_instance_unsupported (X : Externals)
  (schema_encoder : option (SchemaEncoder X)) (cj_id : string)
  (cj_object : json) (geoms : list json) (geom : json) :
  py_getitem cj_object "geometry" = Ok (JArr geoms) ->
  In geom geoms ->
  py_getitem geom "type" = Ok (JStr "GeometryInstance") ->
  create_object_geometry X schema_encoder geom
  = Raise (Exception "GeometryInstance is not supported at the moment") /\
  raises (create_object X cj_id cj_object schema_encoder).
Proof.
  intros Hg Hin Hty.
  assert (H : create_object_geometry X schema_encoder geom
              = Raise (Exception
                         "GeometryInstance is not supported at the moment")).
  { unfold create_object_geometry. rewrite Hty. reflexivity. }
  split; [exact H|].
  apply (create_object_raises_geometry X cj_id cj_object (JArr geoms)
           schema_encoder geoms geom Hg eq_refl Hin).
  rewrite H. eexists. reflexivity.
Qed.

Lemma geometry_instance_unsupported_witness :
  raises (create_object SpecModel.externals
            "template"
            (JObj [("type", JStr "Building");
                   ("geometry",
                    JArr [JObj [("type", JStr "GeometryInstance")]])])
            (Some Sample.schema_encoder)).
Proof.
  refine (proj2 (geometry_instance_unsupported SpecModel.externals
                   (Some Sample.schema_encoder) "template"
                   (JObj [("type", JStr "Building");
                          ("geometry",
                           JArr [JObj [("type", JStr "GeometryInstance")]])])
                   [JObj [("type", JStr "GeometryInstance")]]
                   (JObj [("type", JStr "GeometryInstance")])
                   eq_refl _ eq_refl)).
  left. reflexivity.
Defined.

Lemma Forall2_rev {A B : Type} (R : A -> B -> Prop) (l : list A)
  (l' : list B) :
  Forall2 R l l' -> Forall2 R (rev l) (rev l').
Proof.
  induction 1 as [|x y l l' Hxy _ IH]; cbn; [constructor|].
  apply Forall2_app; [exact IH | constructor; [exact Hxy | constructor]].
Qed.

(** A loop over [reversed(l)] whose results are prepended gives the
    results in the order of [l]. *)
Lemma for_each_reversed {A B : Type} (body : A -> result B) (l : list A)
  (ys : list B) :
  for_each body (rev l) = Ok ys ->
  Forall2 (fun x y => body x = Ok y) l (offset_vector ys).
Proof.
  intro H. apply for_each_ok in H. apply Forall2_rev in H.
  rewrite rev_involutive in H. rewrite offset_vector_reversed. exact H.
Qed.

(** X5.  The tables of a feature keep the order of the input: the vertices are
    those of the feature in order, and the objects are those of the
    CityObjects mapping in order. *)
Theorem feature_table_keeps_order (X : Externals) (cj_feature : json)
  (schema_encoder : option (SchemaEncoder X)) (f : CityFeature) :
  create_feature_table X cj_feature schema_encoder = Ok f ->
  exists vertices vertex_list city_objects items,
    py_getitem cj_feature "id" = Ok (JStr (cf_id f)) /\
    py_getitem cj_feature "vertices" = Ok vertices /\
    py_iter vertices = Ok vertex_list /\
    Forall2 (fun v w =>
               py_index v 0 = Ok (v_x w) /\ py_index v 1 = Ok (v_y w) /\
               py_index v 2 = Ok (v_z w)) vertex_list (cf_vertices f) /\
    py_getitem cj_feature "CityObjects" = Ok city_objects /\
    py_items city_objects = Ok items /\
    Forall2 (fun item o =>
               create_object X (fst item) (snd item) schema_encoder = Ok o)
            items (cf_objects f).
Proof.
  intro H. unfold create_feature_table in H.
  apply bind_ok in H as [id [Hid H]].
  apply bind_ok in H as [f_id [Hfid H]].
  apply bind_ok in H as [vertices [Hv H]].
  apply bind_ok in H as [n [_ H]].
  apply bind_ok in H as [vertices' [Hv' H]].
  apply bind_ok in H as [reversed_vertices [Hrev H]].
  apply bind_ok in H as [f_vertices [Hfv H]].
  apply bind_ok in H as [city_objects [Hco H]].
  apply bind_ok in H as [items [Hitems H]].
  apply bind_ok in H as [f_object_offsets [Hobjs H]].
  apply bind_ok in H as [city_objects' [_ H]].
  apply bind_ok in H as [n' [_ H]].
  injection H as <-. cbn [cf_id cf_vertices cf_objects].
  rewrite Hv in Hv'. injection Hv' as <-.
  unfold py_reversed in Hrev.
  apply bind_ok in Hrev as [vertex_list [Hiter Hrev]]. injection Hrev as <-.
  exists vertices, vertex_list, city_objects, items.
  split.
  { destruct id; try discriminate Hfid. injection Hfid as <-. exact Hid. }
  split; [exact Hv|]. split; [exact Hiter|]. split.
  { apply for_each_reversed in Hfv.
    revert Hfv. apply Forall2_impl. intros v w Hvw.
    apply bind_ok in Hvw as [x [Hx Hvw]].
    apply bind_ok in Hvw as [y [Hy Hvw]].
    apply bind_ok in Hvw as [z [Hz Hvw]].
    injection Hvw as <-. cbn. repeat split; assumption. }
  split; [exact Hco|]. split; [exact Hitems|].
  rewrite offset_vector_rev. apply for_each_ok in Hobjs. exact Hobjs.
Qed.

Lemma feature_table_keeps_order_witness :
  exists f,
    create_feature_table SpecModel.externals Sample.house
      (Some Sample.schema_encoder) = Ok f /\
    exists vertices vertex_list city_objects items,
      py_getitem Sample.house "id" = Ok (JStr (cf_id f)) /\
      py_getitem Sample.house "vertices" = Ok vertices /\
      py_iter vertices = Ok vertex_list /\
      Forall2 (fun v w =>
                 py_index v 0 = Ok (v_x w) /\ py_index v 1 = Ok (v_y w) /\
                 py_index v 2 = Ok (v_z w)) vertex_list (cf_vertices f) /\
      py_getitem Sample.house "CityObjects" = Ok city_objects /\
      py_items city_objects = Ok items /\
      Forall2 (fun item o =>
                 create_object SpecModel.externals (fst item) (snd item)
                   (Some Sample.schema_encoder) = Ok o)
              items (cf_objects f).
Proof.
  eexists. split.
  - vm_compute. reflexivity.
  - apply (feature_table_keeps_order SpecModel.externals).
    vm_compute. reflexivity.
Defined.

(** ** The magic bytes and the states of the output file *)

Lemma to_bytes_one (n : Z) :
  to_bytes n 1 = if (0 <=? n) && (n <=? 255) then Ok [byte_of_Z n]
                 else Raise OverflowError.
Proof.
  unfold to_bytes. change (256 ^ Z.of_nat 1) with 256.
  destruct (0 <=? n) eqn:H0; cbn [andb]; [|reflexivity].
  destruct (n <? 256) eqn:H1; destruct (n <=? 255) eqn:H2;
    try reflexivity; lia.
Qed.

(** X6.  [create_magic_bytes] accepts exactly the versions that fit one
    byte: for 0 <= major, minor <= 255 it returns the eight bytes F C B
    major F C B minor, from which both versions can be read back, and for
    any other version it raises OverflowError. *)
Theorem magic_bytes_bounds (major minor : Z) :
  (0 <= major <= 255 /\ 0 <= minor <= 255 ->
   exists a b,
     create_magic_bytes major minor = Ok [x46; x43; x42; a; x46; x43; x42; b]
     /\ Z_of_byte a = major /\ Z_of_byte b = minor) /\
  (major < 0 \/ 255 < major \/ minor < 0 \/ 255 < minor ->
   create_magic_bytes major minor = Raise OverflowError).
Proof.
  unfold create_magic_bytes. rewrite !to_bytes_one. split.
  - intros [Hma Hmi].
    replace ((0 <=? major) && (major <=? 255)) with true
      by (symmetry; apply andb_true_intro; split; lia).
    replace ((0 <=? minor) && (minor <=? 255)) with true
      by (symmetry; apply andb_true_intro; split; lia).
    exists (byte_of_Z major), (byte_of_Z minor).
    split; [reflexivity|].
    rewrite !Z_of_byte_of_Z. split; apply Z.mod_small; lia.
  - intro H.
    destruct ((0 <=? major) && (major <=? 255)) eqn:Ema; [|reflexivity].
    destruct ((0 <=? minor) && (minor <=? 255)) eqn:Emi; [|reflexivity].
    apply andb_prop in Ema as [? ?]. apply andb_prop in Emi as [? ?]. lia.
Qed.

Lemma magic_bytes_bounds_witness :
  (exists a b,
     create_magic_bytes 0 4 = Ok [x46; x43; x42; a; x46; x43; x42; b]
     /\ Z_of_byte a = 0 /\ Z_of_byte b = 4) /\
  create_magic_bytes 0 256 = Raise OverflowError.
Proof.
  split.
  - apply (proj1 (magic_bytes_bounds 0 4)). lia.
  - apply (proj2 (magic_bytes_bounds 0 256)). lia.
Defined.

(** When the header cannot be built or does not fit its frame, the file
    holds the magic bytes and nothing else. *)
Lemma write_container_header_raises (X : Externals) (cj_metadata : json)
  (global_extent : extent) (schema_encoder : SchemaEncoder X)
  (fb_features : list (list byte)) (e : exn) :
  create_header X cj_metadata global_extent
    (Z.of_nat (List.length fb_features)) (Some schema_encoder) = Raise e ->
  write_container X cj_metadata global_extent schema_encoder fb_features
  = ([x46; x43; x42; x00; x46; x43; x42; x04], Raise e).
Proof.
  intro H. unfold write_container. rewrite create_magic_bytes_0_4, H.
  reflexivity.
Qed.

Lemma convert_header_raises (X : Externals) (uninitialized : extent)
  (cj_metadata : json) (cj_features : list json)
  (pretyped_attributes : list (string * pytype)) (write_nulls : bool)
  (global_extent : extent) (schema_encoder : SchemaEncoder X)
  (fb_features : list (list byte)) (e : exn) :
  scan X uninitialized cj_metadata cj_features
    (AttributeSchemaEncoder X pretyped_attributes write_nulls)
  = Ok (global_extent, schema_encoder) ->
  for_each (fun cj_feature => create_feature X cj_feature (Some schema_encoder))
    cj_features = Ok fb_features ->
  create_header X cj_metadata global_extent
    (Z.of_nat (List.length cj_features)) (Some schema_encoder) = Raise e ->
  convert_cjseq2cb X uninitialized cj_metadata cj_features
    pretyped_attributes write_nulls
  = (Some [x46; x43; x42; x00; x46; x43; x42; x04], Raise e).
Proof.
  intros Hscan Hfeat Hhdr. unfold convert_cjseq2cb.
  rewrite Hscan, Hfeat.
  rewrite <- (for_each_length _ _ _ Hfeat) in Hhdr.
  rewrite (write_container_header_raises _ _ _ _ _ _ Hhdr). reflexivity.
Qed.

Lemma write_features_extends (fb_features : list (list byte))
  (file file' : list byte) (r : result unit) :
  write_features file fb_features = (file', r) ->
  exists rest, file' = file ++ rest.
Proof.
  revert file. induction fb_features as [|fb fbs IH]; intros file Hw; cbn in Hw.
  - injection Hw as <- _. exists []. symmetry. apply app_nil_r.
  - destruct (to_bytes (Z.of_nat (List.length fb)) 4) as [n|e].
    + apply IH in Hw as [rest ->]. unfold file_write.
      rewrite <- !app_assoc. eexists. reflexivity.
    + injection Hw as <- _. exists []. symmetry. apply app_nil_r.
Qed.

(** X7.  The output file of [convert_cjseq2cb]: it is not opened exactly
    when the scan or the encoding of the features raises; once it is opened
    it begins with the eight magic bytes; and when the scan and the features
    succeed but the header raises, the file is left with the magic bytes
    alone and the call ends with the exception of the header. *)
Theorem output_file_states (X : Externals) (uninitialized : extent)
  (cj_metadata : json) (cj_features : list json)
  (pretyped_attributes : list (string * pytype)) (write_nulls : bool) :
  let run := convert_cjseq2cb X uninitialized cj_metadata cj_features
               pretyped_attributes write_nulls in
  let scanned := scan X uninitialized cj_metadata cj_features
                   (AttributeSchemaEncoder X pretyped_attributes write_nulls) in
  (fst run = None <->
   raises scanned \/
   exists global_extent schema_encoder,
     scanned = Ok (global_extent, schema_encoder) /\
     raises (for_each (fun cj_feature =>
                         create_feature X cj_feature (Some schema_encoder))
                      cj_features)) /\
  (fst run = None -> raises (snd run)) /\
  (forall file, fst run = Some file ->
     firstn 8 file = [x46; x43; x42; x00; x46; x43; x42; x04]) /\
  (forall global_extent schema_encoder fb_features e,
     scanned = Ok (global_extent, schema_encoder) ->
     for_each (fun cj_feature =>
                 create_feature X cj_feature (Some schema_encoder))
              cj_features = Ok fb_features ->
     create_header X cj_metadata global_extent
       (Z.of_nat (List.length cj_features)) (Some schema_encoder) = Raise e ->
     run = (Some [x46; x43; x42; x00; x46; x43; x42; x04], Raise e)).
Proof.
  intros run scanned.
  assert (Hlast : forall global_extent schema_encoder fb_features e,
     scanned = Ok (global_extent, schema_encoder) ->
     for_each (fun cj_feature =>
                 create_feature X cj_feature (Some schema_encoder))
              cj_features = Ok fb_features ->
     create_header X cj_metadata global_extent
       (Z.of_nat (List.length cj_features)) (Some schema_encoder) = Raise e ->
     run = (Some [x46; x43; x42; x00; x46; x43; x42; x04], Raise e)).
  { intros g s fbs e. apply convert_header_raises. }
  refine (conj _ (conj _ (conj _ Hlast))); clear Hlast;
    subst run; unfold convert_cjseq2cb; fold scanned;
    destruct scanned as [[global_extent schema_encoder]|e] eqn:ES.
  - destruct (for_each (fun cj_feature =>
                          create_feature X cj_feature (Some schema_encoder))
                       cj_features) as [fb_features|e] eqn:EF.
    + destruct (write_container X cj_metadata global_extent schema_encoder
                  fb_features) as [file r]. cbn [fst]. split.
      * discriminate.
      * intros [[e He] | (g & s & Hgs & [e He])]; [discriminate He|].
        injection Hgs as <- <-. rewrite EF in He. discriminate He.
    + cbn [fst]. split; [|reflexivity]. intros _. right.
      exists global_extent, schema_encoder. split; [reflexivity|].
      exists e. exact EF.
  - cbn [fst]. split; [|reflexivity]. intros _. left. exists e. reflexivity.
  - destruct (for_each (fun cj_feature =>
                          create_feature X cj_feature (Some schema_encoder))
                       cj_features) as [fb_features|e] eqn:EF.
    + destruct (write_container X cj_metadata global_extent schema_encoder
                  fb_features) as [file r]. cbn [fst]. discriminate.
    + intros _. exists e. reflexivity.
  - intros _. exists e. reflexivity.
  - destruct (for_each (fun cj_feature =>
                          create_feature X cj_feature (Some schema_encoder))
                       cj_features) as [fb_features|e] eqn:EF;
      [|cbn [fst]; discriminate].
    destruct (write_container X cj_metadata global_extent schema_encoder
                fb_features) as [written r] eqn:EW.
    cbn [fst]. intros file H. injection H as <-.
    unfold write_container in EW. rewrite create_magic_bytes_0_4 in EW.
    destruct (create_header X cj_metadata global_extent
                (Z.of_nat (List.length fb_features)) (Some schema_encoder))
      as [[header_buf warnings]|e]; [|injection EW as <- _; reflexivity].
    destruct (to_bytes (Z.of_nat (List.length header_buf)) 4) as [n|e];
      [|injection EW as <- _; reflexivity].
    apply write_features_extends in EW as [rest ->]. unfold file_write.
    cbn [app]. reflexivity.
  - cbn [fst]. discriminate.
Qed.

Lemma output_file_states_witness :
  convert_cjseq2cb SpecModel.externals Sample.zeros
    (JObj [Sample.transform;
           ("metadata",
            JObj [("referenceSystem", JStr "urn:ogc:def:crs:EPSG::7415")])])
    [Sample.shed] [] true
  = (Some [x46; x43; x42; x00; x46; x43; x42; x04], Raise ValueError).
Proof.
  refine (proj2 (proj2 (proj2 (output_file_states SpecModel.externals
            Sample.zeros _ [Sample.shed] [] true)))
            ((5, 5, 5), (10, 10, 10))%float
            {| SpecModel.schema := [("name", SpecModel.Text)];
               SpecModel.write_nulls := true |}
            [encode_ascii "shed"] ValueError _ _ _);
    vm_compute; reflexivity.
Defined.

(** ** More of the header *)

(** X8.  When the first line has no transform member, the scan and the
    features succeed and the call then ends with KeyError for transform: the
    output file is left with the eight magic bytes alone. *)
Theorem missing_transform_after_magic (X : Externals) (uninitialized : extent)
  (members : list (string * json)) (cj_features : list json)
  (pretyped_attributes : list (string * pytype)) (write_nulls : bool)
  (global_extent : extent) (schema_encoder : SchemaEncoder X)
  (fb_features : list (list byte)) :
  dict_get "transform" members = None ->
  scan X uninitialized (JObj members) cj_features
    (AttributeSchemaEncoder X pretyped_attributes write_nulls)
  = Ok (global_extent, schema_encoder) ->
  for_each (fun cj_feature => create_feature X cj_feature (Some schema_encoder))
    cj_features = Ok fb_features ->
  convert_cjseq2cb X uninitialized (JObj members) cj_features
    pretyped_attributes write_nulls
  = (Some [x46; x43; x42; x00; x46; x43; x42; x04],
     Raise (KeyError "transform")).
Proof.
  intros Hno Hscan Hfeat.
  apply (convert_header_raises _ _ _ _ _ _ _ _ _ _ Hscan Hfeat).
  unfold create_header, create_header_table. cbn [py_getitem].
  rewrite Hno. reflexivity.
Qed.

Lemma missing_transform_after_magic_witness :
  convert_cjseq2cb SpecModel.externals Sample.zeros
    (JObj [("type", JStr "CityJSON"); ("metadata", JObj [])])
    [Sample.shed] [] true
  = (Some [x46; x43; x42; x00; x46; x43; x42; x04],
     Raise (KeyError "transform")).
Proof.
  apply (missing_transform_after_magic SpecModel.externals Sample.zeros
           [("type", JStr "CityJSON"); ("metadata", JObj [])]
           [Sample.shed] [] true
           ((5, 5, 5), (10, 10, 10))%float
           {| SpecModel.schema := [("name", SpecModel.Text)];
              SpecModel.write_nulls := true |}
           [encode_ascii "shed"]);
    vm_compute; reflexivity.
Defined.

Lemma create_columns_ok (X : Externals)
  (schema_encoder : option (SchemaEncoder X)) (columns : list Column) :
  create_columns X schema_encoder = Ok columns ->
  exists e,
    schema_encoder = Some e /\
    Forall2 (fun key c =>
               col_name c = key /\
               get_cb_column_type X e key = Ok (col_type c))
            (schema_keys X e) columns.
Proof.
  intro H. unfold create_columns in H.
  apply bind_ok in H as [e [He H]].
  apply bind_ok in H as [fb_columns [Hcols H]]. injection H as <-.
  destruct schema_encoder as [e'|]; [|discriminate He].
  injection He as ->. exists e. split; [reflexivity|].
  rewrite offset_vector_rev. apply for_each_ok in Hcols.
  revert Hcols. apply Forall2_impl. intros key c Hc.
  apply bind_ok in Hc as [f_name [Hname Hc]].
  apply bind_ok in Hc as [f_type [Htype Hc]].
  apply bind_ok in Hc as [taken [_ Hc]].
  injection Hname as <-. injection Hc as <-. split; [reflexivity | exact Htype].
Qed.

(** X9.  The header table a successful [create_header] builds: the feature
    count and the extent are the arguments, the transform holds the three
    scale and the three translate members of the metadata, there is one
    column per key of the schema, in the order of the schema, with the
    type [get_cb_column_type] gives, and the warning is logged exactly when
    the table has no reference system. *)
Theorem header_table_fields (X : Externals) (cj_metadata : json)
  (geographical_extent : extent) (features_count : Z)
  (schema_encoder : option (SchemaEncoder X)) (h : Header)
  (warnings : list string) :
  create_header_table X cj_metadata geographical_extent features_count
    schema_encoder = Ok (h, warnings) ->
  h_features_count h = features_count /\
  h_geographical_extent h
  = {| ge_min := fst geographical_extent; ge_max := snd geographical_extent |} /\
  read_transform cj_metadata = Ok (h_transform h) /\
  create_reference_system X cj_metadata = Ok (h_reference_system h) /\
  (exists e,
     schema_encoder = Some e /\
     Forall2 (fun key c =>
                col_name c = key /\
                get_cb_column_type X e key = Ok (col_type c))
             (schema_keys X e) (h_columns h)) /\
  warnings = match h_reference_system h with
             | Some _ => []
             | None => ["No CRS found in input metadata"]
             end.
Proof.
  intro H. unfold create_header_table in H.
  apply bind_ok in H as [transform [Htr H]].
  apply bind_ok in H as [ts [Hts H]].
  apply bind_ok in H as [transform' [Htr' H]].
  apply bind_ok in H as [tt [Htt H]].
  apply bind_ok in H as [crs [Hcrs H]].
  apply bind_ok in H as [columns [Hcols H]].
  apply bind_ok in H as [counted [_ H]].
  apply bind_ok in H as [ts0 [Hts0 H]].
  apply bind_ok in H as [ts1 [Hts1 H]].
  apply bind_ok in H as [ts2 [Hts2 H]].
  apply bind_ok in H as [tt0 [Htt0 H]].
  apply bind_ok in H as [tt1 [Htt1 H]].
  apply bind_ok in H as [tt2 [Htt2 H]].
  apply bind_ok in H as [taken [_ H]].
  destruct geographical_extent as [gmin gmax].
  injection H as <- <-. cbn.
  rewrite Htr in Htr'. injection Htr' as <-.
  split; [reflexivity|]. split; [reflexivity|]. split.
  { unfold read_transform. rewrite Htr. cbn [bind]. rewrite Hts. cbn [bind].
    rewrite Htt. cbn [bind].
    rewrite Hts0, Hts1, Hts2, Htt0, Htt1, Htt2. reflexivity. }
  split; [exact Hcrs|]. split; [exact (create_columns_ok _ _ _ Hcols)|].
  reflexivity.
Qed.

Lemma header_table_fields_witness :
  exists h warnings,
    create_header_table SpecModel.externals Sample.metadata_full Sample.zeros 2
      (Some Sample.schema_encoder) = Ok (h, warnings) /\
    h_features_count h = 2 /\
    h_geographical_extent h
    = {| ge_min := fst Sample.zeros; ge_max := snd Sample.zeros |} /\
    read_transform Sample.metadata_full = Ok (h_transform h) /\
    create_reference_system SpecModel.externals Sample.metadata_full
    = Ok (h_reference_system h) /\
    (exists e,
       Some Sample.schema_encoder = Some e /\
       Forall2 (fun key c =>
                  col_name c = key /\
                  get_cb_column_type SpecModel.externals e key
                  = Ok (col_type c))
               (schema_keys SpecModel.externals e) (h_columns h)) /\
    warnings = match h_reference_system h with
               | Some _ => []
               | None => ["No CRS found in input metadata"]
               end.
Proof.
  eexists. eexists. split.
  - vm_compute. reflexivity.
  - apply (header_table_fields SpecModel.externals Sample.metadata_full
             Sample.zeros 2 (Some Sample.schema_encoder)).
    vm_compute. reflexivity.
Defined.

Lemma py_int_raises (max_str_digits : nat) (s : string) (e : exn) :
  py_int max_str_digits s = Raise e -> e = ValueError.
Proof.
  unfold py_int.
  assert (H : forall t sign,
             match int_digits t 0 false with
             | Some n =>
                 if over_digit_limit max_str_digits t then Raise ValueError
                 else Ok (sign * n)
             | None => Raise ValueError
             end = Raise e -> e = ValueError).
  { intros t sign.
    destruct (int_digits t 0 false);
      [destruct (over_digit_limit max_str_digits t); [|discriminate]|];
      intro H; injection H as <-; reflexivity. }
  destruct (strip s) as [|c t]; [apply H|].
  destruct c as [[] [] [] [] [] [] [] []]; apply H.
Qed.

Lemma short_reference_system (X : Externals) (cj_metadata metadata : json)
  (crs : string) :
  py_getitem cj_metadata "metadata" = Ok metadata ->
  py_getitem metadata "referenceSystem" = Ok (JStr crs) ->
  (List.length (split_on "/" crs) < 3)%nat \/
  (exists authority version code,
     last_n 3 (split_on "/" crs) = [authority; version; code] /\
     (is_ok (py_int (int_max_str_digits X) version) = false \/
      exists v,
        py_int (int_max_str_digits X) version = Ok v /\
        ReferenceSystemAddVersion X v = Ok tt /\
        is_ok (py_int (int_max_str_digits X) code) = false)) ->
  create_reference_system X cj_metadata = Raise ValueError.
Proof.
  intros Hm Hcrs Hbad. unfold create_reference_system.
  rewrite (getitem_contains _ _ _ Hm). cbn [bind]. rewrite Hm. cbn [bind].
  rewrite (getitem_contains _ _ _ Hcrs). cbn [bind]. rewrite Hcrs.
  cbn [bind str_split].
  destruct Hbad as [Hshort | (a & v & c & Hparts & Hint)].
  - unfold last_n.
    replace (List.length (split_on "/" crs) - 3)%nat with 0%nat by lia.
    cbn [skipn].
    destruct (split_on "/" crs) as [|p0 [|p1 [|p2 rest]]]; try reflexivity.
    cbn in Hshort. lia.
  - rewrite Hparts. cbn [bind CreateString].
    destruct Hint as [Hv | (vz & Hv & Hav & Hc)].
    + destruct (py_int (int_max_str_digits X) v) as [vz|e] eqn:Ev;
        [discriminate Hv|].
      cbn [bind]. rewrite (py_int_raises _ _ _ Ev). reflexivity.
    + rewrite Hv. cbn [bind]. rewrite Hav. cbn [bind].
      destruct (py_int (int_max_str_digits X) c) as [cz|e] eqn:Ec;
        [discriminate Hc|].
      cbn [bind]. rewrite (py_int_raises _ _ _ Ec). reflexivity.
Qed.

(** X10.  On metadata whose transform has a scale and a translate, a
    reference system identifier makes [create_header] raise ValueError when
    it has fewer than three segments between '/' (a URN such as
    urn:ogc:def:crs:EPSG::7415), when [int()] does not read the segment of
    the version, or when it reads a version the builder takes and does not
    read the segment of the code. *)
Theorem malformed_reference_system_raises (X : Externals)
  (cj_metadata transform ts tt' metadata : json) (crs : string)
  (geographical_extent : extent) (features_count : Z)
  (schema_encoder : option (SchemaEncoder X)) :
  py_getitem cj_metadata "transform" = Ok transform ->
  py_getitem transform "scale" = Ok ts ->
  py_getitem transform "translate" = Ok tt' ->
  py_getitem cj_metadata "metadata" = Ok metadata ->
  py_getitem metadata "referenceSystem" = Ok (JStr crs) ->
  (List.length (split_on "/" crs) < 3)%nat \/
  (exists authority version code,
     last_n 3 (split_on "/" crs) = [authority; version; code] /\
     (is_ok (py_int (int_max_str_digits X) version) = false \/
      exists v,
        py_int (int_max_str_digits X) version = Ok v /\
        ReferenceSystemAddVersion X v = Ok tt /\
        is_ok (py_int (int_max_str_digits X) code) = false)) ->
  create_header X cj_metadata geographical_extent features_count
    schema_encoder = Raise ValueError.
Proof.
  intros Htr Hts Htt Hm Hcrs Hbad.
  unfold create_header, create_header_table.
  rewrite Htr. cbn [bind]. rewrite Hts. cbn [bind]. rewrite Htt. cbn [bind].
  rewrite (short_reference_system X _ _ _ Hm Hcrs Hbad). reflexivity.
Qed.

Lemma malformed_reference_system_raises_witness :
  create_header SpecModel.externals
    (JObj [Sample.transform;
           ("metadata",
            JObj [("referenceSystem", JStr "urn:ogc:def:crs:EPSG::7415")])])
    Sample.zeros 1 (Some Sample.schema_encoder) = Raise ValueError /\
  create_header SpecModel.externals
    (JObj [Sample.transform;
           ("metadata", JObj [("referenceSystem", JStr "crs/EPSG/v0/7415")])])
    Sample.zeros 1 (Some Sample.schema_encoder) = Raise ValueError /\
  create_header SpecModel.externals
    (JObj [Sample.transform;
           ("metadata", JObj [("referenceSystem", JStr "crs/EPSG/0/")])])
    Sample.zeros 1 (Some Sample.schema_encoder) = Raise ValueError.
Proof.
  split; [|split].
  - apply (malformed_reference_system_raises SpecModel.externals _
             (snd Sample.transform)
             (JArr [JInt 1; JInt 1; JInt 1]) (JArr [JInt 0; JInt 0; JInt 0])
             (JObj [("referenceSystem", JStr "urn:ogc:def:crs:EPSG::7415")])
             "urn:ogc:def:crs:EPSG::7415");
      try reflexivity.
    left. cbn. lia.
  - apply (malformed_reference_system_raises SpecModel.externals _
             (snd Sample.transform)
             (JArr [JInt 1; JInt 1; JInt 1]) (JArr [JInt 0; JInt 0; JInt 0])
             (JObj [("referenceSystem", JStr "crs/EPSG/v0/7415")])
             "crs/EPSG/v0/7415");
      try reflexivity.
    right. exists "EPSG", "v0", "7415". split; [reflexivity|].
    left. reflexivity.
  - apply (malformed_reference_system_raises SpecModel.externals _
             (snd Sample.transform)
             (JArr [JInt 1; JInt 1; JInt 1]) (JArr [JInt 0; JInt 0; JInt 0])
             (JObj [("referenceSystem", JStr "crs/EPSG/0/")])
             "crs/EPSG/0/");
      try reflexivity.
    right. exists "EPSG", "0", "". split; [reflexivity|].
    right. exists 0. repeat split; reflexivity.
Defined.

(** ** City object tables *)

Lemma CreateString_ok (v : json) (s : string) :
  CreateString v = Ok s <-> v = JStr s.
Proof.
  destruct v; cbn; split; intro H; try discriminate H;
    injection H as ->; reflexivity.
Qed.

Lemma strings_created (l : list json) (vec : list string) :
  Forall2 (fun j s => CreateString j = Ok s) l vec -> l = map JStr vec.
Proof.
  induction 1 as [|j s l0 l1 Hjs _ IH]; cbn; [reflexivity|].
  apply CreateString_ok in Hjs. rewrite Hjs, IH. reflexivity.
Qed.

(** A parents or children vector holds the identifiers in the order of the
    input, and every identifier is a string. *)
Lemma string_vector_ok (ids : json) (vec : list string) :
  string_vector ids = Ok vec ->
  exists l, py_iter ids = Ok l /\ l = map JStr vec.
Proof.
  intro H. unfold string_vector, py_reversed in H.
  apply bind_ok in H as [reversed_ids [Hrev H]].
  apply bind_ok in Hrev as [l [Hiter Hrev]]. injection Hrev as <-.
  apply bind_ok in H as [f_ids [Hids H]]. injection H as <-.
  exists l. split; [exact Hiter|].
  apply for_each_reversed in Hids. apply strings_created. exact Hids.
Qed.

(** What a successful call of [create_object] went through, field by
    field. *)
Lemma create_object_ok (X : Externals) (cj_id : string) (cj_object : json)
  (schema_encoder : option (SchemaEncoder X)) (o : CityObject) :
  create_object X cj_id cj_object schema_encoder = Ok o ->
  exists has_children has_parents has_attributes has_geometry has_extent ty,
    py_contains "children" cj_object = Ok has_children /\
    py_contains "parents" cj_object = Ok has_parents /\
    py_contains "attributes" cj_object = Ok has_attributes /\
    py_contains "geometry" cj_object = Ok has_geometry /\
    py_contains "geographicalExtent" cj_object = Ok has_extent /\
    co_id o = cj_id /\
    py_getitem cj_object "type" = Ok ty /\
    get_attribute_by_name (CityObjectType X) ty = Ok (co_type o) /\
    (if has_attributes then
       exists e attributes buf,
         schema_encoder = Some e /\
         py_getitem cj_object "attributes" = Ok attributes /\
         encode_values X e attributes [] = Ok buf /\
         co_attributes o = Some buf
     else co_attributes o = None) /\
    (if has_parents then
       exists parents vec,
         py_getitem cj_object "parents" = Ok parents /\
         string_vector parents = Ok vec /\ co_parents o = Some vec
     else co_parents o = None) /\
    (if has_children then
       exists children vec,
         py_getitem cj_object "children" = Ok children /\
         string_vector children = Ok vec /\ co_children o = Some vec
     else co_children o = None) /\
    (if has_geometry then
       exists geoms geom_list gs,
         py_getitem cj_object "geometry" = Ok geoms /\
         py_iter geoms = Ok geom_list /\
         for_each (create_object_geometry X schema_encoder) geom_list = Ok gs /\
         co_geometry o = Some gs
     else co_geometry o = None) /\
    (if has_extent then
       exists ge gextent,
         py_getitem cj_object "geographicalExtent" = Ok ge /\
         np_extent_of X ge = Ok gextent /\
         co_geographical_extent o
         = Some {| ge_min := fst gextent; ge_max := snd gextent |}
     else co_geographical_extent o = None).
Proof.
  intro H. unfold create_object in H.
  apply bind_ok in H as [has_children [Hc H]].
  apply bind_ok in H as [has_parents [Hp H]].
  apply bind_ok in H as [has_attributes [Ha H]].
  apply bind_ok in H as [has_geometry [Hg H]].
  apply bind_ok in H as [has_extent [He H]].
  apply bind_ok in H as [f_id [Hid H]].
  apply bind_ok in H as [f_attributes_offset [Hfa H]].
  apply bind_ok in H as [f_parents_offset [Hfp H]].
  apply bind_ok in H as [f_children_offset [Hfc H]].
  apply bind_ok in H as [f_geometries_offset [Hfg H]].
  apply bind_ok in H as [ty [Hty H]].
  apply bind_ok in H as [type_ [Htype H]].
  apply bind_ok in H as [type_' [Hadded H]].
  apply AddType_ok in Hadded. subst type_.
  apply bind_ok in H as [a_attributes [Haa H]].
  apply bind_ok in H as [a_geometry [Hag H]].
  apply bind_ok in H as [a_children [Hac H]].
  apply bind_ok in H as [a_parents [Hap H]].
  apply bind_ok in H as [a_extent [Hae H]].
  injection H as <-. cbn.
  injection Hid as <-.
  exists has_children, has_parents, has_attributes, has_geometry, has_extent, ty.
  repeat (split; [assumption || reflexivity|]).
  split.
  { destruct has_attributes.
    - apply bind_ok in Haa as [off [Hoff Haa]]. injection Haa as <-.
      destruct schema_encoder as [e|].
      + apply bind_ok in Hfa as [attributes [Hattr Hfa]].
        apply bind_ok in Hfa as [buf [Hbuf Hfa]]. injection Hfa as <-.
        injection Hoff as <-.
        exists e, attributes, buf. repeat split; assumption.
      + injection Hfa as <-. discriminate Hoff.
    - injection Haa as <-. reflexivity. }
  split.
  { destruct has_parents.
    - apply bind_ok in Hap as [off [Hoff Hap]]. injection Hap as <-.
      apply bind_ok in Hfp as [parents [Hpar Hfp]].
      apply bind_ok in Hfp as [vec [Hvec Hfp]]. injection Hfp as <-.
      injection Hoff as <-. exists parents, vec. repeat split; assumption.
    - injection Hap as <-. reflexivity. }
  split.
  { destruct has_children.
    - apply bind_ok in Hac as [off [Hoff Hac]]. injection Hac as <-.
      apply bind_ok in Hfc as [children [Hch Hfc]].
      apply bind_ok in Hfc as [vec [Hvec Hfc]]. injection Hfc as <-.
      injection Hoff as <-. exists children, vec. repeat split; assumption.
    - injection Hac as <-. reflexivity. }
  split.
  { destruct has_geometry.
    - apply bind_ok in Hag as [off [Hoff Hag]]. injection Hag as <-.
      apply bind_ok in Hfg as [geoms [Hgeoms Hfg]].
      apply bind_ok in Hfg as [geom_list [Hiter Hfg]].
      apply bind_ok in Hfg as [f_geoms [Hfgeoms Hfg]].
      apply bind_ok in Hfg as [geoms' [_ Hfg]].
      apply bind_ok in Hfg as [n [_ Hfg]]. injection Hfg as <-.
      injection Hoff as <-. rewrite offset_vector_rev.
      exists geoms, geom_list, f_geoms. repeat split; assumption.
    - injection Hag as <-. reflexivity. }
  destruct has_extent.
  - apply bind_ok in Hae as [ge [Hge Hae]].
    apply bind_ok in Hae as [gextent [Hext Hae]]. injection Hae as <-.
    exists ge, gextent. repeat split; assumption.
  - injection Hae as <-. reflexivity.
Qed.

(** X11.  In the table a successful [create_object] returns, the identifier
    is the key of the object in the CityObjects mapping, and each of the
    attributes, geometry, children, parents and geographical-extent fields
    is present exactly when the object has the member of that name. *)
Theorem object_fields_follow_members (X : Externals) (cj_id : string)
  (cj_object : json) (schema_encoder : option (SchemaEncoder X))
  (o : CityObject) :
  create_object X cj_id cj_object schema_encoder = Ok o ->
  co_id o = cj_id /\
  (co_attributes o <> None <-> py_contains "attributes" cj_object = Ok true) /\
  (co_geometry o <> None <-> py_contains "geometry" cj_object = Ok true) /\
  (co_children o <> None <-> py_contains "children" cj_object = Ok true) /\
  (co_parents o <> None <-> py_contains "parents" cj_object = Ok true) /\
  (co_geographical_extent o <> None <->
   py_contains "geographicalExtent" cj_object = Ok true).
Proof.
  intro H.
  apply create_object_ok in H
    as (hc & hp & ha & hg & he & ty & Hc & Hp & Ha & Hg & He & Hid & _ & _
        & Fa & Fp & Fc & Fg & Fe).
  rewrite Hc, Hp, Ha, Hg, He. split; [exact Hid|].
  assert (Hiff : forall (A : Type) (field : option A) (b : bool),
             (if b then exists a, field = Some a else field = None) ->
             (field <> None <-> Ok b = Ok true)).
  { intros A field b Hb. destruct b.
    - destruct Hb as [a ->]. split; [reflexivity | discriminate].
    - rewrite Hb. split; [intro C; contradiction C; reflexivity | discriminate]. }
  split; [apply Hiff; destruct ha; [destruct Fa as (e & a & b & _ & _ & _ & F);
                                    eexists; exact F | exact Fa]|].
  split; [apply Hiff; destruct hg; [destruct Fg as (a & b & c & _ & _ & _ & F);
                                    eexists; exact F | exact Fg]|].
  split; [apply Hiff; destruct hc; [destruct Fc as (a & b & _ & _ & F);
                                    eexists; exact F | exact Fc]|].
  split; [apply Hiff; destruct hp; [destruct Fp as (a & b & _ & _ & F);
                                    eexists; exact F | exact Fp]|].
  apply Hiff. destruct he; [destruct Fe as (a & b & _ & _ & F);
                            eexists; exact F | exact Fe].
Qed.

Lemma object_fields_follow_members_witness :
  exists o,
    create_object SpecModel.externals "shed"
      (Sample.building (JObj [("name", JStr "B")]) (Sample.geometry []))
      (Some Sample.schema_encoder) = Ok o /\
    co_id o = "shed" /\
    (co_attributes o <> None <->
     py_contains "attributes"
       (Sample.building (JObj [("name", JStr "B")]) (Sample.geometry []))
     = Ok true) /\
    (co_geometry o <> None <->
     py_contains "geometry"
       (Sample.building (JObj [("name", JStr "B")]) (Sample.geometry []))
     = Ok true) /\
    (co_children o <> None <->
     py_contains "children"
       (Sample.building (JObj [("name", JStr "B")]) (Sample.geometry []))
     = Ok true) /\
    (co_parents o <> None <->
     py_contains "parents"
       (Sample.building (JObj [("name", JStr "B")]) (Sample.geometry []))
     = Ok true) /\
    (co_geographical_extent o <> None <->
     py_contains "geographicalExtent"
       (Sample.building (JObj [("name", JStr "B")]) (Sample.geometry []))
     = Ok true).
Proof.
  eexists. split.
  - vm_compute. reflexivity.
  - apply (object_fields_follow_members SpecModel.externals "shed" _
             (Some Sample.schema_encoder)).
    vm_compute. reflexivity.
Defined.

(** X12.  The vectors of an object table keep the order of the input: the
    parents and the children are the identifiers of the lists of the
    object, each a string, in order, and the geometry vector holds the
    tables of the geometries of the object in order. *)
Theorem object_vectors_keep_order (X : Externals) (cj_id : string)
  (cj_object : json) (schema_encoder : option (SchemaEncoder X))
  (o : CityObject) :
  create_object X cj_id cj_object schema_encoder = Ok o ->
  (forall vec, co_parents o = Some vec ->
     exists parents,
       py_getitem cj_object "parents" = Ok parents /\
       py_iter parents = Ok (map JStr vec)) /\
  (forall vec, co_children o = Some vec ->
     exists children,
       py_getitem cj_object "children" = Ok children /\
       py_iter children = Ok (map JStr vec)) /\
  (forall gs, co_geometry o = Some gs ->
     exists geoms geom_list,
       py_getitem cj_object "geometry" = Ok geoms /\
       py_iter geoms = Ok geom_list /\
       Forall2 (fun geom g =>
                  (forall ty, py_getitem geom "type" = Ok ty ->
                              py_eq_str ty "GeometryInstance" = false) /\
                  create_geometry X schema_encoder geom = Ok g)
               geom_list gs).
Proof.
  intro H.
  apply create_object_ok in H
    as (hc & hp & ha & hg & he & ty & _ & _ & _ & _ & _ & _ & _ & _
        & _ & Fp & Fc & Fg & _).
  split; [|split].
  - intros vec Hvec. destruct hp; [|rewrite Fp in Hvec; discriminate Hvec].
    destruct Fp as (parents & vec' & Hpar & Hsv & Hfield).
    rewrite Hfield in Hvec. injection Hvec as <-.
    apply string_vector_ok in Hsv as [l [Hiter ->]].
    exists parents. split; assumption.
  - intros vec Hvec. destruct hc; [|rewrite Fc in Hvec; discriminate Hvec].
    destruct Fc as (children & vec' & Hch & Hsv & Hfield).
    rewrite Hfield in Hvec. injection Hvec as <-.
    apply string_vector_ok in Hsv as [l [Hiter ->]].
    exists children. split; assumption.
  - intros gs Hgs. destruct hg; [|rewrite Fg in Hgs; discriminate Hgs].
    destruct Fg as (geoms & geom_list & gs' & Hgeoms & Hiter & Hfor & Hfield).
    rewrite Hfield in Hgs. injection Hgs as <-.
    exists geoms, geom_list. split; [exact Hgeoms|]. split; [exact Hiter|].
    apply for_each_ok in Hfor. revert Hfor. apply Forall2_impl.
    intros geom g Hg. unfold create_object_geometry in Hg.
    apply bind_ok in Hg as [gty [Hgty Hg]].
    destruct (py_eq_str gty "GeometryInstance") eqn:E; [discriminate Hg|].
    split; [|exact Hg].
    intros ty' Hty'. rewrite Hgty in Hty'. injection Hty' as <-. exact E.
Qed.

Lemma object_vectors_keep_order_witness :
  exists o,
    create_object SpecModel.externals "part"
      (JObj [("type", JStr "BuildingPart");
             ("parents", JArr [JStr "house"; JStr "block"]);
             ("children", JArr [JStr "a"; JStr "b"; JStr "c"])])
      (Some Sample.schema_encoder) = Ok o /\
    co_parents o = Some ["house"; "block"] /\
    co_children o = Some ["a"; "b"; "c"] /\
    (forall vec, co_parents o = Some vec ->
       exists parents,
         py_getitem
           (JObj [("type", JStr "BuildingPart");
                  ("parents", JArr [JStr "house"; JStr "block"]);
                  ("children", JArr [JStr "a"; JStr "b"; JStr "c"])])
           "parents" = Ok parents /\
         py_iter parents = Ok (map JStr vec)).
Proof.
  eexists. split; [vm_compute; reflexivity|].
  split; [reflexivity|]. split; [reflexivity|].
  apply (object_vectors_keep_order SpecModel.externals "part" _
           (Some Sample.schema_encoder)).
  vm_compute. reflexivity.
Defined.

(** ** More of the geometry tables *)

Lemma create_semantic_object_ok (X : Externals)
  (schema_encoder : option (SchemaEncoder X)) (surface : json)
  (so : SemanticObject) :
  create_semantic_object X schema_encoder surface = Ok so ->
  exists e ty,
    schema_encoder = Some e /\
    encode_values X e surface ["type"] = Ok (so_attributes so) /\
    py_getitem surface "type" = Ok (JStr ty) /\
    so_type so = SemanticSurfaceType X ty.
Proof.
  intro H. unfold create_semantic_object in H.
  apply bind_ok in H as [e [He H]].
  apply bind_ok in H as [buf [Hbuf H]].
  apply bind_ok in H as [ty [Hty H]].
  apply bind_ok in H as [t [Ht H]].
  apply bind_ok in H as [t' [Hadded H]].
  apply AddType_ok in Hadded. subst t. injection H as <-. cbn.
  destruct schema_encoder as [e'|]; [|discriminate He]. injection He as ->.
  destruct ty; try discriminate Ht. injection Ht as Ht.
  exists e, s. repeat split; try assumption. symmetry. exact Ht.
Qed.

Lemma read_semantics_ok (X : Externals)
  (schema_encoder : option (SchemaEncoder X)) (geom semantic_values_ : json)
  (f_semantics_objects : option (list SemanticObject)) :
  read_semantics X schema_encoder geom
  = Ok (semantic_values_, f_semantics_objects) ->
  (py_contains "semantics" geom = Ok false /\
   semantic_values_ = JNull /\ f_semantics_objects = None) \/
  (exists semantics surfaces_ surface_list objs,
     py_getitem geom "semantics" = Ok semantics /\
     py_getitem semantics "surfaces" = Ok surfaces_ /\
     py_iter surfaces_ = Ok surface_list /\
     py_getitem semantics "values" = Ok semantic_values_ /\
     Forall2 (fun surface so =>
                create_semantic_object X schema_encoder surface = Ok so)
             surface_list objs /\
     f_semantics_objects = Some objs).
Proof.
  intro H. unfold read_semantics in H.
  apply bind_ok in H as [has [Hhas H]]. destruct has.
  - right.
    apply bind_ok in H as [semantics [Hsem H]].
    apply bind_ok in H as [hs [Hhs H]].
    apply bind_ok in H as [hv [Hhv H]].
    destruct (hs && hv); [|discriminate H].
    apply bind_ok in H as [surfaces_ [Hsurf H]].
    apply bind_ok in H as [surface_list [Hiter H]].
    apply bind_ok in H as [offs [Hoffs H]].
    apply bind_ok in H as [values [Hval H]].
    injection H as <- <-. rewrite offset_vector_rev.
    exists semantics, surfaces_, surface_list, offs.
    apply for_each_ok in Hoffs. repeat split; assumption.
  - left. injection H as <- <-. repeat split. exact Hhas.
Qed.

(** X13.  In the table a successful [create_geometry] returns, the
    semantics-objects field and the semantics field are present together,
    exactly when the values of the semantics block are true in a condition;
    the objects are then one per record of the surfaces list, in order, each
    with the type the enumeration gives for the type of the record and with
    the attributes of the record encoded without its type. *)
Theorem semantic_objects_follow_surfaces (X : Externals)
  (schema_encoder : option (SchemaEncoder X)) (geom : json) (g : Geometry) :
  create_geometry X schema_encoder geom = Ok g ->
  (g_semantics_objects g <> None <-> g_semantics g <> None) /\
  forall objs, g_semantics_objects g = Some objs ->
    exists semantics surfaces_ surface_list values,
      py_getitem geom "semantics" = Ok semantics /\
      py_getitem semantics "surfaces" = Ok surfaces_ /\
      py_iter surfaces_ = Ok surface_list /\
      py_getitem semantics "values" = Ok values /\
      py_truthy values = true /\
      Forall2 (fun surface so =>
                 exists e ty,
                   schema_encoder = Some e /\
                   encode_values X e surface ["type"] = Ok (so_attributes so) /\
                   py_getitem surface "type" = Ok (JStr ty) /\
                   so_type so = SemanticSurfaceType X ty)
              surface_list objs.
Proof.
  intro H.
  apply create_geometry_ok in H
    as (lod & ty & sv & fobjs & gd & _ & _ & Hread & _ & _ & _ & _
        & _ & _ & _ & _ & _ & Hs).
  destruct (py_truthy sv) eqn:Etruthy.
  - destruct Hs as (Hobjs & Hnone & Hsems & _). split.
    + rewrite Hobjs, Hsems. split; intros _; [discriminate | exact Hnone].
    + intros objs Hfield. rewrite Hobjs in Hfield.
      apply read_semantics_ok in Hread
        as [(_ & _ & Hf) | (semantics & surfaces_ & sl & objs' & Hsem & Hsurf
                            & Hiter & Hval & Hall & Hf)].
      * rewrite Hf in Hfield. discriminate Hfield.
      * rewrite Hf in Hfield. injection Hfield as <-.
        exists semantics, surfaces_, sl, sv.
        repeat (split; [assumption|]).
        revert Hall. apply Forall2_impl. intros surface so.
        apply create_semantic_object_ok.
  - destruct Hs as [Hobjs Hsems]. rewrite Hobjs, Hsems. split.
    + split; intro C; contradiction C; reflexivity.
    + intros objs C. discriminate C.
Qed.

Lemma semantic_objects_follow_surfaces_witness :
  exists g,
    create_geometry SpecModel.externals (Some Sample.schema_encoder)
      (Sample.geometry [Sample.roof_and_wall]) = Ok g /\
    (g_semantics_objects g <> None <-> g_semantics g <> None) /\
    forall objs, g_semantics_objects g = Some objs ->
      exists semantics surfaces_ surface_list values,
        py_getitem (Sample.geometry [Sample.roof_and_wall]) "semantics"
        = Ok semantics /\
        py_getitem semantics "surfaces" = Ok surfaces_ /\
        py_iter surfaces_ = Ok surface_list /\
        py_getitem semantics "values" = Ok values /\
        py_truthy values = true /\
        Forall2 (fun surface so =>
                   exists e ty,
                     Some Sample.schema_encoder = Some e /\
                     encode_values SpecModel.externals e surface ["type"]
                     = Ok (so_attributes so) /\
                     py_getitem surface "type" = Ok (JStr ty) /\
                     so_type so = SemanticSurfaceType SpecModel.externals ty)
                surface_list objs.
Proof.
  eexists. split.
  - vm_compute. reflexivity.
  - apply (semantic_objects_follow_surfaces SpecModel.externals).
    vm_compute. reflexivity.
Defined.

(** X14.  In the table a successful [create_geometry] returns, the lod is
    the lod string of the geometry, the type is what the enumeration gives
    for its type string, and the boundaries vector is the flat index array
    of the encoder, in order, every index a uint32. *)
Theorem geometry_scalars_and_boundaries (X : Externals)
  (schema_encoder : option (SchemaEncoder X)) (geom : json) (g : Geometry) :
  create_geometry X schema_encoder geom = Ok g ->
  py_getitem geom "lod" = Ok (JStr (g_lod g)) /\
  (exists ty, py_getitem geom "type" = Ok (JStr ty) /\
              g_type g = GeometryType X ty) /\
  exists semantic_values_ f_semantics_objects gd,
    read_semantics X schema_encoder geom
    = Ok (semantic_values_, f_semantics_objects) /\
    encode_boundaries X geom semantic_values_ = Ok gd /\
    g_boundaries g = indices gd /\
    Forall is_uint32 (indices gd).
Proof.
  intro H.
  apply create_geometry_ok in H
    as (lod & ty & sv & fobjs & gd & Hlod & Hflod & Hread & Hgd & Hty & Htype
        & [Hidx Hb] & _).
  apply CreateString_ok in Hflod. subst lod.
  split; [exact Hlod|]. split.
  - destruct ty; try discriminate Htype. injection Htype as Htype.
    exists s. split; [exact Hty | symmetry; exact Htype].
  - exists sv, fobjs, gd. repeat split; assumption.
Qed.

Lemma geometry_scalars_and_boundaries_witness :
  exists g,
    create_geometry SpecModel.externals (Some Sample.schema_encoder)
      (Sample.geometry []) = Ok g /\
    g_boundaries g = [0; 1; 2; 0; 1; 3; 1; 2; 3; 0; 2; 3] /\
    py_getitem (Sample.geometry []) "lod" = Ok (JStr (g_lod g)).
Proof.
  eexists. split; [vm_compute; reflexivity|]. split; [reflexivity|].
  apply (geometry_scalars_and_boundaries SpecModel.externals
           (Some Sample.schema_encoder)).
  vm_compute. reflexivity.
Defined.

Lemma level_vector_in_range (name : string) (values : list Z) :
  Forall is_uint32 values ->
  level_vector values = Ok (if nonempty values then Some values else None) /\
  add_level name values (if nonempty values then Some values else None)
  = Ok (if nonempty values then Some values else None).
Proof.
  intro H. unfold level_vector, add_level.
  destruct values as [|x values]; cbn [nonempty]; [split; reflexivity|].
  assert (Hv : uint32_vector (x :: values) = Ok (x :: values))
    by (apply uint32_vector_ok; split; [exact H | reflexivity]).
  rewrite Hv. split; reflexivity.
Qed.

(** X15.  When the values of the semantics block are true in a condition
    but the encoder ends with no semantic entry (values such as [[]]), a
    geometry whose lod is a string, whose type names a member of
    GeometryType, whose surface records can be built and whose arrays hold
    uint32 only ends [create_geometry] with UnboundLocalError for
    f_semantics: the vector is built only for a non-empty array and added
    whenever the values are true. *)
Theorem semantics_without_entries_unbound (X : Externals)
  (schema_encoder : option (SchemaEncoder X)) (geom semantic_values_ : json)
  (f_semantics_objects : option (list SemanticObject)) (gd : GeometryEncoder)
  (lod ty : string) (t : Z) :
  py_getitem geom "lod" = Ok (JStr lod) ->
  py_getitem geom "type" = Ok (JStr ty) ->
  GeometryType X ty = Some t ->
  read_semantics X schema_encoder geom
  = Ok (semantic_values_, f_semantics_objects) ->
  py_truthy semantic_values_ = true ->
  encode_boundaries X geom semantic_values_ = Ok gd ->
  semantic_values gd = [] ->
  Forall is_uint32 (indices gd) -> Forall is_uint32 (solids gd) ->
  Forall is_uint32 (shells gd) -> Forall is_uint32 (surfaces gd) ->
  Forall is_uint32 (strings gd) ->
  create_geometry X schema_encoder geom
  = Raise (UnboundLocalError "f_semantics").
Proof.
  intros Hlod Hty Hmember Hread Htruthy Hgd Hempty Hi H1 H2 H3 H4.
  assert (Hobjs : exists objs, f_semantics_objects = Some objs).
  { apply read_semantics_ok in Hread
      as [(_ & Hnull & _) | (s & su & sl & objs & _ & _ & _ & _ & _ & Hf)].
    - subst semantic_values_. discriminate Htruthy.
    - exists objs. exact Hf. }
  destruct Hobjs as [objs ->].
  unfold create_geometry.
  rewrite Hlod. cbn [bind CreateString]. rewrite Hread. cbn [bind].
  rewrite Hgd. cbn [bind].
  assert (Hv : uint32_vector (indices gd) = Ok (indices gd))
    by (apply uint32_vector_ok; split; [exact Hi | reflexivity]).
  rewrite Hv. cbn [bind].
  rewrite (proj1 (level_vector_in_range "f_solids_offset" _ H1)). cbn [bind].
  rewrite (proj1 (level_vector_in_range "f_shells_offset" _ H2)). cbn [bind].
  rewrite (proj1 (level_vector_in_range "f_surfaces_offset" _ H3)). cbn [bind].
  rewrite (proj1 (level_vector_in_range "f_rings_offset" _ H4)). cbn [bind].
  rewrite Hempty. cbn [nonempty bind]. rewrite Hty.
  cbn [bind get_attribute_by_name]. rewrite Hmember. cbn [bind AddType].
  rewrite (proj2 (level_vector_in_range "f_solids_offset" _ H1)). cbn [bind].
  rewrite (proj2 (level_vector_in_range "f_shells_offset" _ H2)). cbn [bind].
  rewrite (proj2 (level_vector_in_range "f_surfaces_offset" _ H3)). cbn [bind].
  rewrite (proj2 (level_vector_in_range "f_rings_offset" _ H4)). cbn [bind].
  rewrite Htruthy. reflexivity.
Qed.

Lemma semantics_without_entries_unbound_witness :
  create_geometry SpecModel.externals (Some Sample.schema_encoder)
    (Sample.geometry
       [("semantics",
         JObj [("surfaces", JArr [JObj [("type", JStr "RoofSurface")]]);
               ("values", JArr [JArr []])])])
  = Raise (UnboundLocalError "f_semantics").
Proof.
  apply (semantics_without_entries_unbound SpecModel.externals
           (Some Sample.schema_encoder) _ (JArr [JArr []])
           (Some [{| so_type := Some 0; so_attributes := [] |}])
           {| indices := [0; 1; 2; 0; 1; 3; 1; 2; 3; 0; 2; 3];
              solids := []; shells := [4]; surfaces := [1; 1; 1; 1];
              strings := [3; 3; 3; 3]; semantic_values := [] |}
           "2.2" "Solid" 4);
    try reflexivity;
    repeat constructor; unfold is_uint32; lia.
Defined.

(** ** Malformed input *)

Lemma for_fold_raises {A S : Type} (body : S -> A -> result S) (l : list A)
  (x : A) :
  In x l -> (forall s, raises (body s x)) ->
  forall s, raises (for_fold body l s).
Proof.
  induction l as [|y l IH]; intros Hin Hx s; [destruct Hin|].
  cbn. apply raises_bind. intros s' Hs'.
  destruct Hin as [-> | Hin].
  - exfalso. exact (raises_not_ok _ _ (Hx s) Hs').
  - apply IH; assumption.
Qed.

(** X16.  A [--schema] option one of whose comma-separated pieces does not
    consist of exactly two parts around one ':' (no colon, two colons, a
    trailing comma), or names a type that is not a key of [type_map], ends
    the main program with an exception before anything is converted: no
    output file is opened. *)
Theorem malformed_schema_option_aborts (X : Externals) (uninitialized : extent)
  (cj_metadata : json) (cj_features : list json) (schema : string)
  (skip_null_attributes : bool) (piece : string) :
  schema <> "" ->
  In piece (split_on "," schema) ->
  List.length (split_on ":" piece) <> 2%nat \/
  (exists name atype,
     split_on ":" piece = [name; atype] /\ dict_get atype type_map = None) ->
  raises (parse_schema (Some schema)) /\
  exists e,
    main X uninitialized cj_metadata cj_features (Some schema)
      skip_null_attributes = (None, Raise e).
Proof.
  intros Hne Hin Hbad.
  assert (Hraise : raises (parse_schema (Some schema))).
  { unfold parse_schema.
    destruct (String.eqb schema "") eqn:E;
      [apply String.eqb_eq in E; contradiction|]. cbn [negb].
    apply (for_fold_raises _ _ piece Hin). intro d. unfold add_pretyped.
    destruct Hbad as [Hlen | (name & atype & Hsplit & Hty)].
    - destruct (split_on ":" piece) as [|a [|b [|c rest]]];
        try (eexists; reflexivity).
      contradiction Hlen. reflexivity.
    - rewrite Hsplit, Hty. eexists. reflexivity. }
  split; [exact Hraise|].
  destruct Hraise as [e He]. exists e. unfold main. rewrite He. reflexivity.
Qed.

Lemma malformed_schema_option_aborts_witness :
  raises (parse_schema (Some "height:float,name")) /\
  exists e,
    main SpecModel.externals Sample.zeros Sample.metadata_full [Sample.shed]
      (Some "height:float,name") false = (None, Raise e).
Proof.
  apply (malformed_schema_option_aborts SpecModel.externals Sample.zeros
           Sample.metadata_full [Sample.shed] "height:float,name" false
           "name").
  - discriminate.
  - right. left. reflexivity.
  - left. cbn. discriminate.
Defined.

Lemma fold_extent_without (X : Externals) (global_extent : extent)
  (objects : list json) :
  Forall (fun o => py_contains "geographicalExtent" o = Ok false) objects ->
  for_fold (fold_extent X) objects global_extent = Ok global_extent.
Proof.
  induction 1 as [|o objects Ho _ IH]; cbn; [reflexivity|].
  unfold fold_extent at 1. rewrite Ho. cbn [bind]. exact IH.
Qed.

(** X17.  When the first line has a metadata member that declares no
    extent and no city object of the dataset declares one, the extent of
    the scan, which goes into the header, stays at plus infinity for the
    minimum and minus infinity for the maximum. *)
Theorem extent_stays_infinite (X : Externals) (uninitialized : extent)
  (cj_metadata metadata : json) (cj_features : list json)
  (enc enc' : SchemaEncoder X) (global_extent : extent)
  (objects : list json) :
  py_getitem cj_metadata "metadata" = Ok metadata ->
  py_contains "geographicalExtent" metadata = Ok false ->
  dataset_objects cj_features = Ok objects ->
  Forall (fun o => py_contains "geographicalExtent" o = Ok false) objects ->
  scan X uninitialized cj_metadata cj_features enc = Ok (global_extent, enc') ->
  global_extent = ((infinity, infinity, infinity),
                   (neg_infinity, neg_infinity, neg_infinity)).
Proof.
  intros Hm Hge Hobjs Hall Hscan.
  destruct (scan_folds_extents X _ _ _ _ _ _ _
              (seed_extent_undeclared X _ _ _ Hm Hge) Hscan)
    as (objects' & Hobjs' & Hfold).
  rewrite Hobjs in Hobjs'. injection Hobjs' as <-.
  rewrite (fold_extent_without X _ _ Hall) in Hfold.
  injection Hfold as <-. reflexivity.
Qed.

Lemma extent_stays_infinite_witness :
  exists global_extent,
    scan SpecModel.externals Sample.zeros Sample.metadata_empty
      [Sample.feature "plot" (JObj [("type", JStr "LandUse")])]
      (SpecModel.init [] true)
    = Ok (global_extent, SpecModel.init [] true) /\
    global_extent = ((infinity, infinity, infinity),
                     (neg_infinity, neg_infinity, neg_infinity)).
Proof.
  eexists. split; [vm_compute; reflexivity|].
  apply (extent_stays_infinite SpecModel.externals Sample.zeros
           Sample.metadata_empty (JObj [])
           [Sample.feature "plot" (JObj [("type", JStr "LandUse")])]
           (SpecModel.init [] true) (SpecModel.init [] true) _
           [JObj [("type", JStr "LandUse")]]).
  - reflexivity.
  - reflexivity.
  - reflexivity.
  - repeat constructor.
  - vm_compute. reflexivity.
Defined.

Lemma short_vertex_index (coords : list json) :
  (List.length coords < 3)%nat ->
  raises (x <- py_index (JArr coords) 0 ;;
          y <- py_index (JArr coords) 1 ;;
          z <- py_index (JArr coords) 2 ;;
          Ok (CreateVertex x y z)).
Proof.
  intro H.
  destruct coords as [|a [|b [|c rest]]]; cbn in *;
    try (eexists; reflexivity).
  lia.
Qed.

(** X18.  A feature one of whose vertices has fewer than three coordinates
    cannot be built: [create_feature] raises. *)
Theorem short_vertex_raises (X : Externals) (cj_feature : json)
  (schema_encoder : option (SchemaEncoder X)) (vertex_list : list json)
  (coords : list json) :
  py_getitem cj_feature "vertices" = Ok (JArr vertex_list) ->
  In (JArr coords) vertex_list ->
  (List.length coords < 3)%nat ->
  raises (create_feature X cj_feature schema_encoder).
Proof.
  intros Hv Hin Hshort. unfold create_feature.
  apply raises_bind_l. unfold create_feature_table.
  step. step. rewrite Hv. cbn [bind py_len py_iter py_reversed].
  apply raises_bind_l.
  apply (for_each_raises _ _ (JArr coords)).
  - apply in_rev. rewrite rev_involutive. exact Hin.
  - exact (short_vertex_index _ Hshort).
Qed.

Lemma short_vertex_raises_witness :
  raises (create_feature SpecModel.externals
            (JObj [("id", JStr "flat");
                   ("vertices", JArr [JArr [JInt 0; JInt 0; JInt 0];
                                      JArr [JInt 1; JInt 2]]);
                   ("CityObjects", JObj [])])
            (Some Sample.schema_encoder)).
Proof.
  apply (short_vertex_raises SpecModel.externals _ (Some Sample.schema_encoder)
           [JArr [JInt 0; JInt 0; JInt 0]; JArr [JInt 1; JInt 2]]
           [JInt 1; JInt 2]).
  - reflexivity.
  - right. left. reflexivity.
  - cbn. lia.
Defined.

(** X19.  When the lod of a geometry of some object of some feature is
    absent or is not a string (a number, as in older files),
    [convert_cjseq2cb] ends with an exception and the output file is not
    opened. *)
Theorem lod_not_a_string_aborts (X : Externals) (uninitialized : extent)
  (cj_metadata : json) (cj_features : list json)
  (pretyped_attributes : list (string * pytype)) (write_nulls : bool)
  (cj_feature : json) (objects : list (string * json)) (cj_id : string)
  (cj_object : json) (geoms : list json) (geom : json) :
  In cj_feature cj_features ->
  py_getitem cj_feature "CityObjects" = Ok (JObj objects) ->
  In (cj_id, cj_object) objects ->
  py_getitem cj_object "geometry" = Ok (JArr geoms) ->
  In geom geoms ->
  (forall lod, py_getitem geom "lod" <> Ok (JStr lod)) ->
  exists e,
    convert_cjseq2cb X uninitialized cj_metadata cj_features
      pretyped_attributes write_nulls = (None, Raise e).
Proof.
  intros Hf Hobjs Hobj Hgeoms Hgeom Hlod.
  apply (convert_aborts_on_feature _ _ _ _ _ _ cj_feature Hf).
  intro schema_encoder.
  apply (create_feature_raises_object _ _ _ (JObj objects) objects cj_id
           cj_object Hobjs eq_refl Hobj).
  apply (create_object_raises_geometry _ _ _ (JArr geoms) _ geoms geom
           Hgeoms eq_refl Hgeom).
  apply create_object_geometry_raises.
  unfold create_geometry. apply raises_bind. intros lod Hget.
  apply raises_bind_l.
  destruct lod; try (eexists; reflexivity).
  contradiction (Hlod s).
Qed.

Lemma lod_not_a_string_aborts_witness :
  exists e,
    convert_cjseq2cb SpecModel.externals Sample.zeros Sample.metadata_full
      [Sample.feature "old"
         (JObj [("type", JStr "Building");
                ("geometry",
                 JArr [JObj [("type", JStr "Solid"); ("lod", JInt 2);
                             ("boundaries", Sample.tetrahedron)]])])]
      [] true = (None, Raise e).
Proof.
  apply (lod_not_a_string_aborts SpecModel.externals Sample.zeros
           Sample.metadata_full _ [] true
           (Sample.feature "old"
              (JObj [("type", JStr "Building");
                     ("geometry",
                      JArr [JObj [("type", JStr "Solid"); ("lod", JInt 2);
                                  ("boundaries", Sample.tetrahedron)]])]))
           [("old",
             JObj [("type", JStr "Building");
                   ("geometry",
                    JArr [JObj [("type", JStr "Solid"); ("lod", JInt 2);
                                ("boundaries", Sample.tetrahedron)]])])]
           "old"
           (JObj [("type", JStr "Building");
                  ("geometry",
                   JArr [JObj [("type", JStr "Solid"); ("lod", JInt 2);
                               ("boundaries", Sample.tetrahedron)]])])
           [JObj [("type", JStr "Solid"); ("lod", JInt 2);
                  ("boundaries", Sample.tetrahedron)]]
           (JObj [("type", JStr "Solid"); ("lod", JInt 2);
                  ("boundaries", Sample.tetrahedron)])).
  - left. reflexivity.
  - reflexivity.
  - left. reflexivity.
  - reflexivity.
  - left. reflexivity.
  - intros lod H. discriminate H.
Defined.

Lemma np_assign_row_three (X : Externals) (a b c : json) (x y z : float) :
  np_float64 a = Some (Ok x) -> np_float64 b = Some (Ok y) ->
  np_float64 c = Some (Ok z) ->
  np_assign_row X (JArr [a; b; c]) = Ok (x, y, z).
Proof.
  intros Ha Hb Hc. cbn [np_assign_row np_elements].
  rewrite Ha, Hb, Hc. reflexivity.
Qed.

Lemma np_assign_row_two (X : Externals) (d e : json) (rd re : result float) :
  np_float64 d = Some rd -> np_float64 e = Some re ->
  raises (np_assign_row X (JArr [d; e])).
Proof.
  intros Hd He. cbn [np_assign_row np_elements]. rewrite Hd, He.
  destruct rd as [x|ex]; [|eexists; reflexivity].
  destruct re as [y|ey]; eexists; reflexivity.
Qed.

(** X20.  The two rows taken from an extent.  For a list of at least six
    members whose first six are numbers in the range of float64, booleans
    or nulls, the minimum is the first three and the maximum the next
    three, further members being ignored.  A list of at most three members
    raises, and so does a list of five whose last two are numbers, booleans
    or nulls.  An integer beyond the range of float64 in the first place,
    before two such members, raises OverflowError. *)
Theorem extent_rows (X : Externals) :
  (forall a0 a1 a2 a3 a4 a5 rest x0 x1 x2 x3 x4 x5,
     np_float64 a0 = Some (Ok x0) -> np_float64 a1 = Some (Ok x1) ->
     np_float64 a2 = Some (Ok x2) -> np_float64 a3 = Some (Ok x3) ->
     np_float64 a4 = Some (Ok x4) -> np_float64 a5 = Some (Ok x5) ->
     np_extent_of X (JArr (a0 :: a1 :: a2 :: a3 :: a4 :: a5 :: rest))
     = Ok ((x0, x1, x2), (x3, x4, x5))) /\
  (forall l, (List.length l <= 3)%nat -> raises (np_extent_of X (JArr l))) /\
  (forall a b c d e rd re,
     np_float64 d = Some rd -> np_float64 e = Some re ->
     raises (np_extent_of X (JArr [a; b; c; d; e]))) /\
  (forall z a1 a2 rest r1 r2,
     PrimFloat.is_infinity (float_of_Z z) = true ->
     np_float64 a1 = Some r1 -> np_float64 a2 = Some r2 ->
     np_extent_of X (JArr (JInt z :: a1 :: a2 :: rest)) = Raise OverflowError).
Proof.
  split; [|split; [|split]].
  - intros a0 a1 a2 a3 a4 a5 rest x0 x1 x2 x3 x4 x5 H0 H1 H2 H3 H4 H5.
    unfold np_extent_of. cbn [py_slice Nat.sub skipn firstn bind].
    rewrite (np_assign_row_three X _ _ _ _ _ _ H0 H1 H2). cbn [bind].
    rewrite (np_assign_row_three X _ _ _ _ _ _ H3 H4 H5). reflexivity.
  - intros l Hlen. unfold np_extent_of.
    apply raises_bind. intros lo _. apply raises_bind. intros row0 _.
    apply raises_bind. intros hi Hhi. apply raises_bind_l.
    cbn in Hhi. injection Hhi as <-.
    destruct l as [|a [|b [|c [|d rest]]]]; cbn in *;
      try (eexists; reflexivity); lia.
  - intros a b c d e rd re Hd He. unfold np_extent_of.
    apply raises_bind. intros lo _. apply raises_bind. intros row0 _.
    apply raises_bind. intros hi Hhi. apply raises_bind_l.
    cbn in Hhi. injection Hhi as <-.
    exact (np_assign_row_two X _ _ _ _ Hd He).
  - intros z a1 a2 rest r1 r2 Hz H1 H2.
    unfold np_extent_of. cbn [py_slice Nat.sub skipn firstn bind].
    cbn [np_assign_row np_elements np_float64]. rewrite Hz, H1, H2.
    reflexivity.
Qed.

Lemma extent_rows_witness :
  np_extent_of SpecModel.externals
    (JArr [JInt 0; JInt 1; JInt 2; JFloat 3; JFloat 4; JFloat 5; JInt 6])
  = Ok ((0, 1, 2), (3, 4, 5))%float /\
  raises (np_extent_of SpecModel.externals
            (JArr [JInt 0; JInt 0; JInt 10; JInt 10; JInt 5])) /\
  np_extent_of SpecModel.externals
    (JArr [JInt (10 ^ 400); JInt 0; JInt 0; JInt 1; JInt 1; JInt 1])
  = Raise OverflowError.
Proof.
  split; [|split].
  - apply (proj1 (extent_rows SpecModel.externals)); reflexivity.
  - apply (proj1 (proj2 (proj2 (extent_rows SpecModel.externals)))
             (JInt 0) (JInt 0) (JInt 10) (JInt 10) (JInt 5)
             (Ok 10%float) (Ok 5%float));
      reflexivity.
  - apply (proj2 (proj2 (proj2 (extent_rows SpecModel.externals)))
             (10 ^ 400) (JInt 0) (JInt 0) [JInt 1; JInt 1; JInt 1]
             (Ok 0%float) (Ok 0%float));
      vm_compute; reflexivity.
Defined.

Lemma not_ok_raises {A : Type} (m : result A) :
  (forall a, m <> Ok a) -> raises m.
Proof.
  intro H. destruct m as [a|e]; [contradiction (H a); reflexivity|].
  exists e. reflexivity.
Qed.

Lemma scan_geometry_without_surfaces (X : Externals) (enc : SchemaEncoder X)
  (geom semantics : json) :
  py_getitem geom "semantics" = Ok semantics ->
  (forall v, py_getitem semantics "surfaces" <> Ok v) ->
  raises (scan_geometry X enc geom).
Proof.
  intros Hsem Hno. unfold scan_geometry.
  rewrite (getitem_contains _ _ _ Hsem). cbn [bind]. rewrite Hsem. cbn [bind].
  apply raises_bind_l. apply not_ok_raises. exact Hno.
Qed.

Lemma scan_object_raises_geometry (X : Externals) (flag : bool)
  (state : extent * SchemaEncoder X) (cj_object : json) (geoms : list json)
  (geom : json) :
  py_getitem cj_object "geometry" = Ok (JArr geoms) ->
  In geom geoms ->
  (forall enc, raises (scan_geometry X enc geom)) ->
  raises (scan_object X flag state cj_object).
Proof.
  intros Hg Hin Hraise. destruct state as [global_extent enc].
  unfold scan_object. step. step. step.
  rewrite (getitem_contains _ _ _ Hg). cbn [bind]. apply raises_bind_l.
  rewrite Hg. cbn [bind py_iter].
  apply (for_fold_raises _ _ geom Hin Hraise).
Qed.

(** X21.  The scan reads the surfaces of every semantics block without
    testing for them: when a geometry of some object of some feature has a
    semantics block from which surfaces cannot be read, the scan itself
    raises, so [convert_cjseq2cb] ends with the exception of the scan before
    any feature is encoded and without opening the output file. *)
Theorem scan_raises_without_surfaces (X : Externals) (uninitialized : extent)
  (cj_metadata : json) (cj_features : list json)
  (pretyped_attributes : list (string * pytype)) (write_nulls : bool)
  (cj_feature : json) (objects : list (string * json)) (cj_id : string)
  (cj_object : json) (geoms : list json) (geom semantics : json) :
  In cj_feature cj_features ->
  py_getitem cj_feature "CityObjects" = Ok (JObj objects) ->
  In (cj_id, cj_object) objects ->
  py_getitem cj_object "geometry" = Ok (JArr geoms) ->
  In geom geoms ->
  py_getitem geom "semantics" = Ok semantics ->
  (forall v, py_getitem semantics "surfaces" <> Ok v) ->
  exists e,
    scan X uninitialized cj_metadata cj_features
      (AttributeSchemaEncoder X pretyped_attributes write_nulls) = Raise e /\
    convert_cjseq2cb X uninitialized cj_metadata cj_features
      pretyped_attributes write_nulls = (None, Raise e).
Proof.
  intros Hf Hobjs Hobj Hgeoms Hgeom Hsem Hno.
  assert (Hscan : raises (scan X uninitialized cj_metadata cj_features
                            (AttributeSchemaEncoder X pretyped_attributes
                               write_nulls))).
  { unfold scan. apply raises_bind. intros [seed flag] _.
    cbn beta iota zeta.
    apply (for_fold_raises _ _ cj_feature Hf). intro state.
    unfold scan_feature. rewrite Hobjs. cbn [bind py_values py_items].
    apply (for_fold_raises _ _ cj_object).
    - apply (in_map snd) in Hobj. exact Hobj.
    - intro state'.
      apply (scan_object_raises_geometry X flag state' cj_object geoms geom
               Hgeoms Hgeom).
      intro enc. exact (scan_geometry_without_surfaces X enc _ _ Hsem Hno). }
  destruct Hscan as [e He]. exists e. split; [exact He|].
  unfold convert_cjseq2cb. rewrite He. reflexivity.
Qed.

Lemma scan_raises_without_surfaces_witness :
  exists e,
    scan SpecModel.externals Sample.zeros Sample.metadata_full
      [Sample.house;
       Sample.feature "bare"
         (Sample.building (JObj [])
            (Sample.geometry [("semantics", JObj [("values", JArr [])])]))]
      (AttributeSchemaEncoder SpecModel.externals [] true) = Raise e /\
    convert_cjseq2cb SpecModel.externals Sample.zeros Sample.metadata_full
      [Sample.house;
       Sample.feature "bare"
         (Sample.building (JObj [])
            (Sample.geometry [("semantics", JObj [("values", JArr [])])]))]
      [] true = (None, Raise e).
Proof.
  apply (scan_raises_without_surfaces SpecModel.externals Sample.zeros
           Sample.metadata_full _ [] true
           (Sample.feature "bare"
              (Sample.building (JObj [])
                 (Sample.geometry [("semantics", JObj [("values", JArr [])])])))
           [("bare",
             Sample.building (JObj [])
               (Sample.geometry [("semantics", JObj [("values", JArr [])])]))]
           "bare"
           (Sample.building (JObj [])
              (Sample.geometry [("semantics", JObj [("values", JArr [])])]))
           [Sample.geometry [("semantics", JObj [("values", JArr [])])]]
           (Sample.geometry [("semantics", JObj [("values", JArr [])])])
           (JObj [("values", JArr [])])).
  - right. left. reflexivity.
  - reflexivity.
  - left. reflexivity.
  - reflexivity.
  - left. reflexivity.
  - reflexivity.
  - intros v H. discriminate H.
Defined.

Example scan_without_surfaces_key_error :
  convert_cjseq2cb SpecModel.externals Sample.zeros Sample.metadata_full
    [Sample.feature "bare"
       (Sample.building (JObj [])
          (Sample.geometry [("semantics", JObj [("values", JArr [])])]))]
    [] true = (None, Raise (KeyError "surfaces")).
Proof. vm_compute. reflexivity. Qed.
